(** * Babylon.JS Editor: inspectors, default scene labels and the video move handler

    A shallow embedding of four source files of the editor:

    - [src/renderer/editor/components/assets-browser/files/move/video.ts]
      ([AssetsBrowserVideoMoveHandler]),
    - [src/editor/tools/default-scene.ts] ([DefaultScene.CreateLabel]),
    - [src/renderer/editor/inspectors/rendering-inspector.tsx],
    - [src/renderer/editor/inspectors/script-inspector.tsx].

    JavaScript objects live in stores indexed by references, so that two
    holders of one object see each other's writes.  Asynchronous functions
    are cut at their [await]s into resumable tasks which a scheduler may
    interleave, as the JavaScript event loop does. *)

From Stdlib Require Import PrimFloat ZArith Lia Ascii String.
From stdpp Require Import gmap strings list.

Set Warnings "-register-all,-inexact-float".

Open Scope string_scope.
Open Scope list_scope.

(* ===================================================================== *)
(** ** JavaScript strings *)
(* ===================================================================== *)

Module Js.

(** [s.substr(0, n)] for [0 <= n]. *)
Fixpoint take (n : nat) (s : string) : string :=
  match n, s with
  | S n', String c s' => String c (take n' s')
  | _, _ => ""
  end.

(** [s.substr(n)]. *)
Fixpoint drop (n : nat) (s : string) : string :=
  match n, s with
  | S n', String _ s' => drop n' s'
  | _, _ => s
  end.

(** [s.startsWith(p)]. *)
Fixpoint startsWith (p s : string) : bool :=
  match p, s with
  | "", _ => true
  | String a p', String b s' => Ascii.eqb a b && startsWith p' s'
  | String _ _, "" => false
  end.

(** [s.replace(pat, repl)] for a string pattern [pat] and a replacement
    [repl] free of [$]: the first occurrence of [pat] in [s], if any, is
    replaced by [repl]. *)
Fixpoint replace (s pat repl : string) : string :=
  if startsWith pat s then repl +:+ drop (String.length pat) s
  else match s with
       | "" => ""
       | String c s' => String c (replace s' pat repl)
       end.

(** The largest position [<= i] at which [pat] occurs in [s], or [-1]. *)
Fixpoint lastIndexOf_from (s pat : string) (i : nat) : Z :=
  if startsWith pat (drop i s) then Z.of_nat i
  else match i with
       | O => (-1)%Z
       | S j => lastIndexOf_from s pat j
       end.

(** [s.lastIndexOf(pat)]. *)
Definition lastIndexOf (s pat : string) : Z :=
  if Nat.leb (String.length pat) (String.length s)
  then lastIndexOf_from s pat (String.length s - String.length pat)
  else (-1)%Z.

(** [s.substr(0, n)] with [n] the result of [lastIndexOf]. *)
Definition substr0 (s : string) (n : Z) : string :=
  take (Z.to_nat n) s.

(** Uncaught JavaScript errors. *)
Inductive Error : Type :=
| TypeError.

(** The outcome of an [async] function whose body has run to its end:
    the promise is resolved with a value or rejected with the error the
    body threw. *)
Inductive Promise (A : Type) : Type :=
| Resolved (a : A)
| Rejected (e : Error).
Arguments Resolved {A} a.
Arguments Rejected {A} e.

(** JavaScript values.  A number is an IEEE 754 double; [VObject] is an
    object literal given by its fields; [VRef] is a reference to an
    object of a store; [VStatic] is a static constant of the engine,
    named by its path. *)
Inductive Value : Type :=
| VUndefined
| VNull
| VBoolean (b : bool)
| VNumber (f : float)
| VString (s : string)
| VObject (fields : list (string * Value))
| VArray (items : list Value)
| VRef (r : nat)
| VStatic (path : string).

(** [v === undefined || v === null]. *)
Definition nullish (v : Value) : bool :=
  match v with
  | VUndefined | VNull => true
  | _ => false
  end.

(** [a ?? b]. *)
Definition coalesce (a b : Value) : Value :=
  if nullish a then b else a.

(** The truth value of [v] in a condition. *)
Definition truthy (v : Value) : bool :=
  match v with
  | VUndefined | VNull => false
  | VBoolean b => b
  | VNumber f => negb (PrimFloat.is_zero f || PrimFloat.is_nan f)
  | VString s => negb (String.eqb s "")
  | VObject _ | VArray _ | VRef _ | VStatic _ => true
  end.

Fixpoint lookupField (k : string) (fields : list (string * Value)) : Value :=
  match fields with
  | [] => VUndefined
  | (k', v) :: rest => if String.eqb k' k then v else lookupField k rest
  end.

(** [v.k] for a [v] that is neither [undefined] nor [null]: a missing
    property, or any property of a primitive, reads [undefined]. *)
Definition get (v : Value) (k : string) : Value :=
  match v with
  | VObject fields => lookupField k fields
  | _ => VUndefined
  end.

(** Computations over a mutable store [S]. *)
Definition State (S A : Type) : Type := S -> A * S.

Definition ret {S A : Type} (a : A) : State S A := fun s => (a, s).

Definition bind {S A B : Type} (m : State S A) (k : A -> State S B) : State S B :=
  fun s => let (a, s') := m s in k a s'.

Definition modify {S : Type} (f : S -> S) : State S unit := fun s => (tt, f s).

End Js.

Declare Scope js_scope.
Delimit Scope js_scope with js.
Notation "'let*' x := m 'in' k" := (Js.bind m (fun x => k))
  (at level 10, x name, m at level 100, k at level 200) : js_scope.
Notation "m ;;; k" := (Js.bind m (fun _ : unit => k))
  (at level 100, k at level 200, right associativity) : js_scope.

(* ===================================================================== *)
(** ** Node's [path] module *)
(* ===================================================================== *)

(** The functions of Node's [path] module the editor calls.  Node selects
    the POSIX or the Windows implementation at run time; the editor's code
    is the same over both, and so are the statements below. *)
Class PathModule : Type := {
  join : list string -> string;
  normalize : string -> string;
  extname : string -> string
}.

(** The POSIX implementation ([path.posix]). *)
Module Posix.

Definition slash : ascii := "/"%char.
Definition dot : ascii := "."%char.

(** The segments of a path between its separators. *)
Fixpoint split (s : string) : list string :=
  match s with
  | "" => [""]
  | String c s' =>
      if Ascii.eqb c slash then "" :: split s'
      else match split s' with
           | seg :: segs => String c seg :: segs
           | [] => [String c ""]
           end
  end.

Fixpoint joinWith (segs : list string) : string :=
  match segs with
  | [] => ""
  | [seg] => seg
  | seg :: rest => seg +:+ "/" +:+ joinWith rest
  end.

(** [normalizeString]: resolves [.] and [..] segments and drops empty
    ones; [res] is the stack of segments kept so far, last one first. *)
Fixpoint normalizeSegments (allowAboveRoot : bool) (segs res : list string)
  : list string :=
  match segs with
  | [] => rev res
  | seg :: rest =>
      if String.eqb seg "" || String.eqb seg "." then
        normalizeSegments allowAboveRoot rest res
      else if String.eqb seg ".." then
        match res with
        | top :: res' =>
            if String.eqb top ".." then
              normalizeSegments allowAboveRoot rest
                (if allowAboveRoot then ".." :: res else res)
            else normalizeSegments allowAboveRoot rest res'
        | [] =>
            normalizeSegments allowAboveRoot rest
              (if allowAboveRoot then [".."] else [])
        end
      else normalizeSegments allowAboveRoot rest (seg :: res)
  end.

Fixpoint endsWithSlash (s : string) : bool :=
  match s with
  | "" => false
  | String c "" => Ascii.eqb c slash
  | String _ s' => endsWithSlash s'
  end.

Definition normalize (path : string) : string :=
  match path with
  | "" => "."
  | String c _ =>
      let isAbsolute := Ascii.eqb c slash in
      let trailingSeparator := endsWithSlash path in
      let body := joinWith (normalizeSegments (negb isAbsolute) (split path) []) in
      match body with
      | "" => if isAbsolute then "/" else if trailingSeparator then "./" else "."
      | _ =>
          let body := if trailingSeparator then body +:+ "/" else body in
          if isAbsolute then "/" +:+ body else body
      end
  end.

Definition join (args : list string) : string :=
  match List.filter (fun a => negb (String.eqb a "")) args with
  | [] => "."
  | parts => normalize (joinWith parts)
  end.

(** The last non-empty segment of a path. *)
Definition basename (path : string) : string :=
  match List.filter (fun a => negb (String.eqb a "")) (rev (split path)) with
  | [] => ""
  | seg :: _ => seg
  end.

(** The position of the last [.] of a segment. *)
Fixpoint lastDot (s : string) : option nat :=
  match s with
  | "" => None
  | String c s' =>
      match lastDot s' with
      | Some i => Some (S i)
      | None => if Ascii.eqb c dot then Some 0 else None
      end
  end.

Definition extname (path : string) : string :=
  let base := basename path in
  match lastDot base with
  | None | Some O => ""
  | Some d => if String.eqb base ".." then "" else Js.drop d base
  end.

Definition path : PathModule :=
  Build_PathModule join normalize extname.

End Posix.

(* ===================================================================== *)
(** ** The video move handler ([files/move/video.ts]) *)
(* ===================================================================== *)

Module VideoMove.

(** References to texture objects. *)
Definition Ref : Type := nat.

(** A texture of the scene: whether it is an instance of [VideoTexture],
    and its [name]. *)
Record BaseTexture : Type := {
  instanceofVideoTexture : bool;
  name : string
}.

(** [tex.name = n]. *)
Definition set_name (n : string) (t : BaseTexture) : BaseTexture :=
  {| instanceofVideoTexture := instanceofVideoTexture t; name := n |}.

Record Scene : Type := {
  textures : list Ref
}.

Record AssetsBrowser : Type := {
  assetsDirectory : string
}.

Record Editor : Type := {
  scene : option Scene;          (* Nullable<Scene> *)
  assetsBrowser : AssetsBrowser
}.

(** What a handler reaches: the editor behind its [_editor] and the
    texture objects the scene's list refers to. *)
Record World : Type := {
  editor : Editor;
  heap : gmap Ref BaseTexture
}.

Record AssetsBrowserVideoMoveHandler : Type := {
  extensions : list string
}.

(** [new AssetsBrowserVideoMoveHandler(editor)]. *)
Definition constructor : AssetsBrowserVideoMoveHandler :=
  {| extensions := [".mp4"; ".webm"] |}.

(** [this._editor]. *)
Definition _editor (this : AssetsBrowserVideoMoveHandler) (w : World) : Editor :=
  editor w.

(** [t instanceof VideoTexture] for the object behind a reference. *)
Definition isVideo (heap : gmap Ref BaseTexture) (t : Ref) : bool :=
  match heap !! t with
  | Some o => instanceofVideoTexture o
  | None => false
  end.

Section Handler.
Context `{PathModule}.

(** [isFileUsed(path)]. *)
Definition isFileUsed (this : AssetsBrowserVideoMoveHandler) (path : string)
  : Js.State World (Js.Promise bool) :=
  fun w =>
    let relativePath :=
      Js.replace path
        (join [assetsDirectory (assetsBrowser (_editor this w)); "/"]) "" in
    match scene (_editor this w) with
    | None => (Js.Rejected Js.TypeError, w)
    | Some sc =>
        let found :=
          List.find
            (fun t => match heap w !! t with
                      | Some o =>
                          instanceofVideoTexture o
                          && String.eqb (name o) relativePath
                      | None => false
                      end)
            (textures sc) in
        (Js.Resolved (match found with Some _ => true | None => false end), w)
    end.

(** The body of the [forEach] callback of [moveFile] (lines 47 to 50). *)
Definition moveTexture (this : AssetsBrowserVideoMoveHandler) (from to : string)
    (w : World) (tex : Ref) : World :=
  match heap w !! tex with
  | Some o =>
      let path := join [assetsDirectory (assetsBrowser (_editor this w)); name o] in
      if String.eqb path from then
        {| editor := editor w;
           heap :=
             <[tex := set_name
                        (Js.replace to
                           (join [assetsDirectory (assetsBrowser (_editor this w)); "/"])
                           "")
                        o]> (heap w) |}
      else w
  | None => w
  end.

(** [moveFile(from, to)]. *)
Definition moveFile (this : AssetsBrowserVideoMoveHandler) (from to : string)
  : Js.State World (Js.Promise unit) :=
  fun w =>
    match scene (_editor this w) with
    | None => (Js.Rejected Js.TypeError, w)
    | Some sc =>
        let textures := List.filter (isVideo (heap w)) (textures sc) in
        (Js.Resolved tt, foldl (moveTexture this from to) w textures)
    end.

End Handler.

End VideoMove.

(* ===================================================================== *)
(** ** Floating labels ([tools/default-scene.ts]) *)
(* ===================================================================== *)

Module DefaultScene.

(** References to the engine's objects, numbered in the order of their
    creation. *)
Definition Ref : Type := nat.

(** The classes of the controls [CreateLabel] creates. *)
Inductive Class : Type :=
| Rectangle
| Line
| TextBlock.

(** What [CreateLabel] asks of the engine: [new C(name)], with the
    constructor's optional argument and the object created;
    [object.property = value]; [container.addControl(control)];
    [control.linkWithMesh(mesh)]. *)
Inductive Call : Type :=
| New (class : Class) (name : option string) (object : Ref)
| Assign (object : Ref) (property : string) (value : Js.Value)
| AddControl (container control : Ref)
| LinkWithMesh (control mesh : Ref).

(** The engine as [CreateLabel] meets it: the number of objects created so
    far, which are the references below it, and the calls received, oldest
    first.  What a call does to the engine's objects (where [addControl]
    places a control among its siblings, which properties [linkWithMesh]
    resets) is the engine's own business and is not described here. *)
Record Engine : Type := {
  created : nat;
  calls : list Call
}.

Definition call (c : Call) : Js.State Engine unit :=
  Js.modify (fun e => {| created := created e; calls := calls e ++ [c] |}).

(** [new C(name)]: a new object, different from every object created
    before; [name] is the constructor's optional argument. *)
Definition new (c : Class) (name : option string) : Js.State Engine Ref :=
  fun e =>
    let r := created e in
    (r, {| created := S r; calls := calls e ++ [New c name r] |}).

(** [r.k = v]. *)
Definition set (r : Ref) (k : string) (v : Js.Value) : Js.State Engine unit :=
  call (Assign r k v).

(** [parent.addControl(child)]. *)
Definition addControl (parent child : Ref) : Js.State Engine unit :=
  call (AddControl parent child).

(** [control.linkWithMesh(mesh)]. *)
Definition linkWithMesh (control mesh : Ref) : Js.State Engine unit :=
  call (LinkWithMesh control mesh).

Local Open Scope js_scope.

Definition CreateLabel (gui mesh : Ref) (str : string) (lines : bool)
    (width height : string) : Js.State Engine Ref :=
  let* label := new Rectangle (Some str) in
  set label "background" (Js.VString "black") ;;;
  set label "height" (Js.VString height) ;;;
  set label "alpha" (Js.VNumber 0.5) ;;;
  set label "width" (Js.VString width) ;;;
  set label "cornerRadius" (Js.VNumber 20) ;;;
  set label "thickness" (Js.VNumber 1) ;;;
  set label "linkOffsetY" (Js.VNumber 30) ;;;
  set label "top" (Js.VString "0%") ;;;
  set label "zIndex" (Js.VNumber 5) ;;;
  set label "verticalAlignment" (Js.VStatic "Control.VERTICAL_ALIGNMENT_TOP") ;;;
  set label "horizontalAlignment" (Js.VStatic "Control.HORIZONTAL_ALIGNMENT_RIGHT") ;;;
  addControl gui label ;;;
  let* text := new TextBlock None in
  set text "text" (Js.VString str) ;;;
  set text "color" (Js.VString "white") ;;;
  addControl label text ;;;
  if negb lines then
    linkWithMesh label mesh ;;;
    Js.ret label
  else
    let* line := new Line None in
    set line "alpha" (Js.VNumber 0.5) ;;;
    set line "lineWidth" (Js.VNumber 5) ;;;
    set line "dash" (Js.VArray [Js.VNumber 5; Js.VNumber 10]) ;;;
    addControl gui line ;;;
    linkWithMesh line mesh ;;;
    set line "connectedControl" (Js.VRef label) ;;;
    Js.ret label.

End DefaultScene.

(* ===================================================================== *)
(** ** The rendering inspector ([inspectors/rendering-inspector.tsx]) *)
(* ===================================================================== *)

Module RenderingInspector.

Record DefaultState : Type := {
  enabled : bool;
  imageProcessingEnabled : bool;
  bloomEnabled : bool;
  sharpenEnabled : bool;
  depthOfFieldEnabled : bool;
  chromaticAberrationEnabled : bool
}.

Record IRendererInspectorState : Type := {
  ssao2Enabled : bool;
  motionBlurEnabled : bool;
  ssrEnabled : bool;
  default : DefaultState
}.

(** The enabled state of the three post-processes [SceneSettings]
    manages. *)
Record SceneSettings : Type := {
  IsSSAOEnabled : bool;
  IsMotionBlurEnabled : bool;
  IsScreenSpaceReflectionsEnabled : bool
}.

(** The calls the change handlers make. *)
Inductive Call : Type :=
| SetSSAOEnabled (enabled : bool)
| SetMotionBlurEnabled (enabled : bool)
| SetScreenSpaceReflectionsEnabled (enabled : bool)
| setState (next : IRendererInspectorState).

(** The inspector's [this.state] object, the engine's settings, and the
    calls made so far, oldest first. *)
Record World : Type := {
  state : IRendererInspectorState;
  settings : SceneSettings;
  calls : list Call
}.

(** [object[property] = v] for [object = this.state]. *)
Definition write (property : string) (v : bool) (s : IRendererInspectorState)
  : IRendererInspectorState :=
  if String.eqb property "ssao2Enabled" then
    {| ssao2Enabled := v; motionBlurEnabled := motionBlurEnabled s;
       ssrEnabled := ssrEnabled s; default := default s |}
  else if String.eqb property "motionBlurEnabled" then
    {| ssao2Enabled := ssao2Enabled s; motionBlurEnabled := v;
       ssrEnabled := ssrEnabled s; default := default s |}
  else if String.eqb property "ssrEnabled" then
    {| ssao2Enabled := ssao2Enabled s; motionBlurEnabled := motionBlurEnabled s;
       ssrEnabled := v; default := default s |}
  else s.

(** Modelled from the spec: [SceneSettings.SetSSAOEnabled],
    [SetMotionBlurEnabled] and [SetScreenSpaceReflectionsEnabled] of
    [scene/settings.ts], which is not among the sources.  Each is taken to
    leave its post-process in the enabled state it is given. *)
Definition call (c : Call) : Js.State World unit :=
  Js.modify (fun w =>
    {| state := match c with
                | setState next => next
                | _ => state w
                end;
       settings :=
         match c with
         | SetSSAOEnabled b =>
             {| IsSSAOEnabled := b;
                IsMotionBlurEnabled := IsMotionBlurEnabled (settings w);
                IsScreenSpaceReflectionsEnabled :=
                  IsScreenSpaceReflectionsEnabled (settings w) |}
         | SetMotionBlurEnabled b =>
             {| IsSSAOEnabled := IsSSAOEnabled (settings w);
                IsMotionBlurEnabled := b;
                IsScreenSpaceReflectionsEnabled :=
                  IsScreenSpaceReflectionsEnabled (settings w) |}
         | SetScreenSpaceReflectionsEnabled b =>
             {| IsSSAOEnabled := IsSSAOEnabled (settings w);
                IsMotionBlurEnabled := IsMotionBlurEnabled (settings w);
                IsScreenSpaceReflectionsEnabled := b |}
         | setState _ => settings w
         end;
       calls := calls w ++ [c] |}).

(** The properties of an [<InspectorBoolean object={this.state} .../>]
    element. *)
Record InspectorBoolean : Type := {
  property : string;
  label : string;
  onChange : bool -> Js.State World unit
}.

Local Open Scope js_scope.

(** The [enable] element of [_getSSAO2Inspector]. *)
Definition _getSSAO2Inspector_enable : InspectorBoolean :=
  {| property := "ssao2Enabled";
     label := "Enabled";
     onChange := fun v =>
       fun w =>
         (call (SetSSAOEnabled (ssao2Enabled (state w))) ;;;
          call (setState (write "ssao2Enabled" v (state w)))) w |}.

(** The [enable] element of [_getMotionBlurInspector]. *)
Definition _getMotionBlurInspector_enable : InspectorBoolean :=
  {| property := "motionBlurEnabled";
     label := "Enabled";
     onChange := fun v =>
       fun w =>
         (call (SetMotionBlurEnabled (motionBlurEnabled (state w))) ;;;
          call (setState (write "motionBlurEnabled" v (state w)))) w |}.

(** The [enable] element of [_getSSRInspector]. *)
Definition _getSSRInspector_enable : InspectorBoolean :=
  {| property := "ssrEnabled";
     label := "Enabled";
     onChange := fun v =>
       fun w =>
         (call (SetScreenSpaceReflectionsEnabled (ssrEnabled (state w))) ;;;
          call (setState (write "ssrEnabled" v (state w)))) w |}.

(** Modelled from the spec: the change handler of the [InspectorBoolean]
    form control of [gui/inspector/boolean.tsx], which is not among the
    sources.  The control mirrors a property of the object it is bound to:
    when the user sets the checkbox to [v] it stores [v] in
    [object[property]] and then calls [onChange(v)].  The inspector relies
    on this for every control it gives no handler, or a handler that
    ignores its argument (the default pipeline's controls). *)
Definition InspectorBoolean_change (e : InspectorBoolean) (v : bool)
  : Js.State World unit :=
  Js.modify (fun w =>
    {| state := write (property e) v (state w);
       settings := settings w;
       calls := calls w |}) ;;;
  onChange e v.

End RenderingInspector.

(* ===================================================================== *)
(** ** The script inspector ([inspectors/script-inspector.tsx]) *)
(* ===================================================================== *)

(** The TypeScript compiler's [transpile]. *)
Module TypeScript.

Inductive ModuleKind : Type :=
| ModuleKind_None
| ModuleKind_CommonJS
| ModuleKind_AMD
| ModuleKind_ES2015.

Inductive ScriptTarget : Type :=
| ES3
| ES5
| ES2015.

Record CompilerOptions : Type := {
  module : ModuleKind;
  target : ScriptTarget;
  experimentalDecorators : bool
}.

End TypeScript.

Class TypeScriptModule : Type := {
  transpile : string -> TypeScript.CompilerOptions -> string
}.

(** What the sandbox reports of a script ([sandbox/main.ts]). *)
Module Sandbox.

Record IExportedInspectorValue : Type := {
  propertyKey : string;
  name : option string;
  defaultValue : Js.Value;
  type : string
}.

End Sandbox.

Module ScriptInspector.

(** *** Exported values *)

(** An entry of [metadata.script.properties]: [{ type, value }].  The
    [value] is [undefined] as long as the entry has no [value] of its
    own. *)
Record Property : Type := {
  type : string;
  value : Js.Value
}.

(** [selectedObject.metadata.script]. *)
Record Script : Type := {
  name : string;
  properties : option (gmap string Property)
}.

(** The form widgets of an exported value.  [object] is the property key:
    the widget is bound to the object [properties[key]] evaluates to. *)
Inductive ReactNode : Type :=
| InspectorNumber (object property label : string) (step : float)
| InspectorString (object property label : string)
| InspectorBoolean (object property label : string)
| InspectorVector2 (object property label : string) (step : float)
| InspectorVector3 (object property label : string) (step : float)
| InspectorColor (object property label : string) (step : float)
| InspectorSection (title : string) (children : list ReactNode).

Record IScriptInspectorState : Type := {
  refresing : bool;
  scripts : list string;
  inspectorValues : list Sandbox.IExportedInspectorValue
}.

(** The component: its React state, the script of the selected object,
    whether it is mounted, and the reference held by [_scriptWatcher];
    and, of [Object.prototype], which [properties] and its entries inherit
    from, the [value] properties there are: [Object_prototype !! m] is the
    [value] of the method that every object inherits under the name [m],
    and [Object_prototype !! "__proto__"] the [value] of [Object.prototype]
    itself. *)
Record ScriptInspector : Type := {
  state : IScriptInspectorState;
  script : Script;
  isMounted : bool;
  _scriptWatcher : option nat;
  Object_prototype : gmap string Js.Value
}.

(** The names a plain object inherits from [Object.prototype]: its
    methods, and the accessor [__proto__], which reads [Object.prototype]
    itself. *)
Definition inheritedNames : list string :=
  ["constructor"; "__defineGetter__"; "__defineSetter__"; "hasOwnProperty";
   "__lookupGetter__"; "__lookupSetter__"; "isPrototypeOf"; "propertyIsEnumerable";
   "toString"; "valueOf"; "__proto__"; "toLocaleString"].

Definition isInherited (key : string) : bool :=
  existsb (String.eqb key) inheritedNames.

(** [Object.prototype.value], which an object without a [value] of its own
    reads: [undefined] until it is assigned. *)
Definition inheritedValue (prototype : gmap string Js.Value) : Js.Value :=
  default Js.VUndefined (prototype !! "__proto__").

(** What [properties[key]] evaluates to: an entry of [properties] itself;
    else the object inherited from [Object.prototype] under the name
    [key]; else, for the key [value], what [Object.prototype.value] holds;
    else [undefined] ([NotFound] also stands for a [null] that is
    inherited). *)
Inductive Found : Type :=
| Own (p : Property)
| Inherited
| InheritedValue (v : Js.Value)
| NotFound.

Definition find (properties : gmap string Property) (prototype : gmap string Js.Value)
    (key : string) : Found :=
  match properties !! key with
  | Some p => Own p
  | None =>
      if isInherited key then Inherited
      else if String.eqb key "value" && negb (Js.nullish (inheritedValue prototype))
      then InheritedValue (inheritedValue prototype)
      else NotFound
  end.

(** Whether an object literal has the field [k]. *)
Definition hasField (k : string) (fields : list (string * Js.Value)) : bool :=
  existsb (fun kv => String.eqb (fst kv) k) fields.

(** The fields of an object after [object.k = e], for a field it has. *)
Fixpoint setField (k : string) (e : Js.Value) (fields : list (string * Js.Value))
    : list (string * Js.Value) :=
  match fields with
  | [] => []
  | (k', v) :: rest =>
      if String.eqb k' k then (k', e) :: rest else (k', v) :: setField k e rest
  end.

(** [property.value], for the [property] that [properties[key]] evaluates
    to: its own [value], else the one it inherits. *)
Definition readValue (properties : gmap string Property) (prototype : gmap string Js.Value)
    (key : string) : Js.Value :=
  match find properties prototype key with
  | Own p =>
      match value p with
      | Js.VUndefined => inheritedValue prototype
      | v => v
      end
  | Inherited => default (inheritedValue prototype) (prototype !! key)
  | InheritedValue (Js.VObject fields) =>
      if hasField "value" fields then Js.lookupField "value" fields
      else inheritedValue prototype
  | InheritedValue _ => inheritedValue prototype
  | NotFound => Js.VUndefined
  end.

(** [property.value = e], for the same [property].  The assignment is only
    reached when [property.value] is [undefined] or [null], which it is of
    no primitive value, as [Object.prototype.value] is that value. *)
Definition writeValue (properties : gmap string Property) (prototype : gmap string Js.Value)
    (key : string) (e : Js.Value) : gmap string Property * gmap string Js.Value :=
  match find properties prototype key with
  | Own p => (<[key := {| type := type p; value := e |}]> properties, prototype)
  | Inherited => (properties, <[key := e]> prototype)
  | InheritedValue (Js.VObject fields) =>
      (properties, <["__proto__" := Js.VObject (setField "value" e fields)]> prototype)
  | InheritedValue _ | NotFound => (properties, prototype)
  end.

(** [property.value ??= e]. *)
Definition assignIfNullish (properties : gmap string Property)
    (prototype : gmap string Js.Value) (key : string) (e : Js.Value)
  : gmap string Property * gmap string Js.Value :=
  if Js.nullish (readValue properties prototype key)
  then writeValue properties prototype key e
  else (properties, prototype).

(** The body of the [forEach] callback of [_getInspectorValues]: the
    properties and the inherited values after the callback, and the
    widgets it pushes. *)
Definition exportValue (heap : gmap string Property * gmap string Js.Value)
    (iv : Sandbox.IExportedInspectorValue)
  : (gmap string Property * gmap string Js.Value) * list ReactNode :=
  let key := Sandbox.propertyKey iv in
  let prototype := snd heap in
  (* properties[iv.propertyKey] ??= { type: iv.type } *)
  let properties :=
    match find (fst heap) prototype key with
    | NotFound => <[key := {| type := Sandbox.type iv; value := Js.VUndefined |}]> (fst heap)
    | _ => fst heap
    end in
  let label := default key (Sandbox.name iv) in
  (* property.value, with property = properties[iv.propertyKey] *)
  let value := readValue properties prototype key in
  let d := Sandbox.defaultValue iv in
  if String.eqb (Sandbox.type iv) "number" then
    (assignIfNullish properties prototype key
       (Js.coalesce value (Js.coalesce d (Js.VNumber 0))),
     [InspectorNumber key "value" label 0.01])
  else if String.eqb (Sandbox.type iv) "string" then
    (assignIfNullish properties prototype key
       (Js.coalesce value (Js.coalesce d (Js.VString ""))),
     [InspectorString key "value" label])
  else if String.eqb (Sandbox.type iv) "boolean" then
    (assignIfNullish properties prototype key
       (Js.coalesce value (Js.coalesce d (Js.VBoolean false))),
     [InspectorBoolean key "value" label])
  else if String.eqb (Sandbox.type iv) "Vector2" then
    (assignIfNullish properties prototype key
       (Js.coalesce value
          (if Js.truthy d
           then Js.VObject [("x", Js.get d "x"); ("y", Js.get d "y")]
           else Js.VObject [("x", Js.VNumber 0); ("y", Js.VNumber 0)])),
     [InspectorVector2 key "value" label 0.01])
  else if String.eqb (Sandbox.type iv) "Vector3" then
    (assignIfNullish properties prototype key
       (Js.coalesce value
          (if Js.truthy d
           then Js.VObject [("x", Js.get d "_x"); ("y", Js.get d "_y");
                            ("z", Js.get d "_z")]
           else Js.VObject [("x", Js.VNumber 0); ("y", Js.VNumber 0);
                            ("z", Js.VNumber 0)])),
     [InspectorVector3 key "value" label 0.01])
  else if String.eqb (Sandbox.type iv) "Color3"
          || String.eqb (Sandbox.type iv) "Color4" then
    (assignIfNullish properties prototype key
       (Js.coalesce value
          (if Js.truthy d
           then Js.VObject [("r", Js.get d "r"); ("g", Js.get d "g");
                            ("b", Js.get d "b"); ("a", Js.get d "a")]
           else Js.VObject
                  [("r", Js.VNumber 0); ("g", Js.VNumber 0);
                   ("b", Js.VNumber 0);
                   ("a", if String.eqb (Sandbox.type iv) "Color4"
                         then Js.VNumber 1 else Js.VUndefined)])),
     [InspectorColor key "value" label 0.01])
  else ((properties, prototype), []).

(** The [forEach] of [_getInspectorValues]. *)
Definition exportValues (heap : gmap string Property * gmap string Js.Value)
    (ivs : list Sandbox.IExportedInspectorValue)
  : (gmap string Property * gmap string Js.Value) * list ReactNode :=
  foldl (fun acc iv =>
           let (heap', widgets) := exportValue (fst acc) iv in
           (heap', snd acc ++ widgets))
        (heap, []) ivs.

(** [_getInspectorValues()]: the node returned ([None] for [undefined])
    and the component after the call. *)
Definition _getInspectorValues : Js.State ScriptInspector (option ReactNode) :=
  fun this =>
    if String.eqb (name (script this)) "None"
       || Nat.eqb (length (inspectorValues (state this))) 0
    then (None, this)
    else
      let (heap', children) :=
        exportValues (default ∅ (properties (script this)), Object_prototype this)
                     (inspectorValues (state this)) in
      (Some (InspectorSection "Exported Values" children),
       {| state := state this;
          script := {| name := name (script this); properties := Some (fst heap') |};
          isMounted := isMounted this;
          _scriptWatcher := _scriptWatcher this;
          Object_prototype := snd heap' |}).

(** *** Refreshing the visible properties *)

(** An [FSWatcher] of the file system: the file it watches and whether
    [close()] was called on it.  A watcher that is not closed keeps
    reporting events. *)
Record FSWatcher : Type := {
  filename : string;
  closed : bool
}.

(** [setState(patch)]: the fields the patch gives. *)
Record Patch : Type := {
  patch_refresing : option bool;
  patch_inspectorValues : option (list Sandbox.IExportedInspectorValue)
}.

(** The calls the refresh makes on the component, the file system and the
    sandbox.  A call of [watch] returns a watcher, or throws: [None]. *)
Inductive Effect : Type :=
| close (watcher : nat)
| forceUpdate
| setState (patch : Patch)
| readFile (path encoding : string)
| ExecuteCode (code name : string)
| pathExists (path : string)
| Wait (ms : nat)
| watch (path encoding : string) (watcher : option nat)
| GetInspectorValues (path : string).

(** What awaited promises are settled with: the values they are fulfilled
    with, and the reason one is rejected with.  The promises of
    [readFile], [ExecuteCode] and [GetInspectorValues] may be rejected;
    those of [pathExists] and [Tools.Wait] never are. *)
Inductive Answer : Type :=
| File (contents : string)
| Done
| Exists (b : bool)
| Values (values : option (list Sandbox.IExportedInspectorValue))
| Rejection (reason : string).

(** What a call of [_updateScriptVisibleProperties] has done so far: the
    calls it made and the answers its [await]s received, oldest first. *)
Inductive Event : Type :=
| Call (e : Effect)
| Settled (a : Answer).

(** The [await] a call of [_updateScriptVisibleProperties] is suspended
    at. *)
Inductive Await : Type :=
| AwaitReadFile                          (* line 304, in _refreshDecorators *)
| AwaitExecuteCode                       (* line 307, in _refreshDecorators *)
| AwaitPathExists (jsPath : string)      (* line 282 *)
| AwaitWait (jsPath : string)            (* line 283 *)
| AwaitGetInspectorValues (jsPath : string)  (* line 295 *)
| Returned.

(** A call of [_updateScriptVisibleProperties] in progress. *)
Record Task : Type := {
  at_ : Await;
  log : list Event
}.

(** The component, the watchers created so far (a watcher's reference is
    its position), the calls of [_updateScriptVisibleProperties] made so
    far, [Tools.GetAppPath()] and [WorkSpace.DirPath]; and, of the file
    system, the files on which [watch] throws (a file that is not there,
    for one). *)
Record World : Type := {
  this : ScriptInspector;
  watchers : list FSWatcher;
  tasks : list Task;
  AppPath : string;
  DirPath : string;
  unwatchable : list string
}.

Definition set_this (f : ScriptInspector -> ScriptInspector) (w : World) : World :=
  {| this := f (this w); watchers := watchers w; tasks := tasks w;
     AppPath := AppPath w; DirPath := DirPath w; unwatchable := unwatchable w |}.

Definition set_watchers (f : list FSWatcher -> list FSWatcher) (w : World) : World :=
  {| this := this w; watchers := f (watchers w); tasks := tasks w;
     AppPath := AppPath w; DirPath := DirPath w; unwatchable := unwatchable w |}.

Definition set_tasks (f : list Task -> list Task) (w : World) : World :=
  {| this := this w; watchers := watchers w; tasks := f (tasks w);
     AppPath := AppPath w; DirPath := DirPath w; unwatchable := unwatchable w |}.

Definition set_unwatchable (files : list string) (w : World) : World :=
  {| this := this w; watchers := watchers w; tasks := tasks w;
     AppPath := AppPath w; DirPath := DirPath w; unwatchable := files |}.

(** [this._scriptWatcher = r]. *)
Definition set_scriptWatcher (r : option nat) (c : ScriptInspector) : ScriptInspector :=
  {| state := state c; script := script c; isMounted := isMounted c;
     _scriptWatcher := r; Object_prototype := Object_prototype c |}.

Definition set_isMounted (b : bool) (c : ScriptInspector) : ScriptInspector :=
  {| state := state c; script := script c; isMounted := b;
     _scriptWatcher := _scriptWatcher c; Object_prototype := Object_prototype c |}.

(** [metadata.script.name = n]. *)
Definition set_name (n : string) (c : ScriptInspector) : ScriptInspector :=
  {| state := state c;
     script := {| name := n; properties := properties (script c) |};
     isMounted := isMounted c;
     _scriptWatcher := _scriptWatcher c;
     Object_prototype := Object_prototype c |}.

(** The component after [setState(patch)]: React applies the patch to the
    state of a mounted component, and drops the patch of a component that
    is not mounted. *)
Definition applyPatch (p : Patch) (c : ScriptInspector) : ScriptInspector :=
  if isMounted c then
    {| state :=
         {| refresing := default (refresing (state c)) (patch_refresing p);
            scripts := scripts (state c);
            inspectorValues :=
              default (inspectorValues (state c)) (patch_inspectorValues p) |};
       script := script c;
       isMounted := isMounted c;
       _scriptWatcher := _scriptWatcher c;
       Object_prototype := Object_prototype c |}
  else c.

(** [watcher.close()]. *)
Definition closeWatcher (r : nat) (ws : list FSWatcher) : list FSWatcher :=
  match ws !! r with
  | Some fw => <[r := {| filename := filename fw; closed := true |}]> ws
  | None => ws
  end.

(** The watchers that still report events. *)
Definition openWatchers (w : World) : list FSWatcher :=
  List.filter (fun fw => negb (closed fw)) (watchers w).

Section Refresh.
Context `{PathModule} `{TypeScriptModule}.

(** The file [_refreshDecorators] reads (line 304). *)
Definition decoratorsPath (w : World) : string :=
  join [AppPath w; "assets"; "scripts"; "decorators.ts"].

(** [_refreshDecorators], up to its first [await]. *)
Definition _refreshDecorators (w : World) : list Event :=
  [Call (readFile (decoratorsPath w) "utf-8")].

(** [_refreshDecorators], from the file's contents to its second
    [await] (lines 305 to 307). *)
Definition _refreshDecorators_transpile (decorators : string) : list Event :=
  let transpiledScript :=
    transpile decorators
      {| TypeScript.module := TypeScript.ModuleKind_None;
         TypeScript.target := TypeScript.ES5;
         TypeScript.experimentalDecorators := true |} in
  [Settled (File decorators);
   Call (ExecuteCode transpiledScript "__editor__decorators__.js")].

(** The path of the compiled script (lines 272 to 279); [None] when
    line 276 returns. *)
Definition jsPathOf (w : World) : option string :=
  let name := name (script (this w)) in
  let extension := extname name in
  let extensionIndex := Js.lastIndexOf name extension in
  if Z.eqb extensionIndex (-1) then None
  else
    let jsName := normalize (Js.substr0 name extensionIndex +:+ ".js") in
    Some (join [DirPath w; "build"; jsName]).

(** A task's step: where it is suspended next and what it logged. *)
Definition Step : Type := World -> World * (Await * list Event).

(** Line 295, up to its [await]. *)
Definition query (jsPath : string) : Step :=
  fun w => (w, (AwaitGetInspectorValues jsPath, [Call (GetInspectorValues jsPath)])).

(** Lines 286 to 295: after the loop.  When [watch] throws, the refresh
    ends there: nothing is assigned to [_scriptWatcher] and the sandbox is
    not asked. *)
Definition afterLoop (jsPath : string) : Step :=
  fun w =>
    if negb (isMounted (this w)) then (w, (Returned, []))
    else if existsb (String.eqb jsPath) (unwatchable w) then
      (w, (Returned, [Call (watch jsPath "utf-8" None)]))
    else
      let r := length (watchers w) in
      let w := set_watchers (fun ws => ws ++ [{| filename := jsPath; closed := false |}]) w in
      let w := set_this (set_scriptWatcher (Some r)) w in
      let '(w, (a, evs)) := query jsPath w in
      (w, (a, Call (watch jsPath "utf-8" (Some r)) :: evs)).

(** Line 282: the loop's condition, up to its [await]. *)
Definition loopHead (jsPath : string) : Step :=
  fun w =>
    if isMounted (this w)
    then (w, (AwaitPathExists jsPath, [Call (pathExists jsPath)]))
    else afterLoop jsPath w.

(** Lines 272 to 295, once [_refreshDecorators] has returned. *)
Definition afterDecorators : Step :=
  fun w =>
    match jsPathOf w with
    | None => (w, (Returned, []))
    | Some jsPath =>
        match _scriptWatcher (this w) with
        | None => loopHead jsPath w
        | Some _ => query jsPath w
        end
    end.

(** Lines 261 to 270: a call of [_updateScriptVisibleProperties], up to
    its first [await]. *)
Definition start : Step :=
  fun w =>
    let stop :=
      match _scriptWatcher (this w) with
      | Some r => [Call (close r)]
      | None => []
      end in
    let w :=
      match _scriptWatcher (this w) with
      | Some r => set_watchers (closeWatcher r) w
      | None => w
      end in
    let w := set_this (set_scriptWatcher None) w in
    if String.eqb (name (script (this w))) "None" then
      (w, (Returned, stop ++ [Call forceUpdate]))
    else
      let p := {| patch_refresing := Some true; patch_inspectorValues := None |} in
      let w := set_this (applyPatch p) w in
      (w, (AwaitReadFile, stop ++ Call (setState p) :: _refreshDecorators w)).

(** A suspended task continues with the answer to what it awaits; an
    answer of another kind does not wake it.  A rejection is thrown at the
    [await] and, as nothing catches it, ends the refresh. *)
Definition continue (a : Await) (r : Answer) : option Step :=
  match a, r with
  | AwaitReadFile, File decorators =>
      Some (fun w => (w, (AwaitExecuteCode, _refreshDecorators_transpile decorators)))
  | AwaitReadFile, Rejection reason
  | AwaitExecuteCode, Rejection reason
  | AwaitGetInspectorValues _, Rejection reason =>
      Some (fun w => (w, (Returned, [Settled (Rejection reason)])))
  | AwaitExecuteCode, Done =>
      Some (fun w =>
              let '(w, (a, evs)) := afterDecorators w in
              (w, (a, Settled Done :: evs)))
  | AwaitPathExists jsPath, Exists b =>
      Some (fun w =>
              if negb b then
                (w, (AwaitWait jsPath, [Settled (Exists b); Call (Wait 500)]))
              else
                let '(w, (a, evs)) := afterLoop jsPath w in
                (w, (a, Settled (Exists b) :: evs)))
  | AwaitWait jsPath, Done =>
      Some (fun w =>
              let '(w, (a, evs)) := loopHead jsPath w in
              (w, (a, Settled Done :: evs)))
  | AwaitGetInspectorValues jsPath, Values values =>
      Some (fun w =>
              let inspectorValues := default [] values in
              let p := {| patch_refresing := Some false;
                          patch_inspectorValues := Some inspectorValues |} in
              (set_this (applyPatch p) w,
               (Returned, [Settled (Values values); Call (setState p)])))
  | _, _ => None
  end.

(** [this._updateScriptVisibleProperties()]: a new task, run to its
    first [await]. *)
Definition _updateScriptVisibleProperties (w : World) : World :=
  let '(w, (a, evs)) := start w in
  set_tasks (fun ts => ts ++ [{| at_ := a; log := evs |}]) w.

(** Task [i] receives the answer [r]. *)
Definition settle (i : nat) (r : Answer) (w : World) : World :=
  match tasks w !! i with
  | None => w
  | Some t =>
      match continue (at_ t) r with
      | None => w
      | Some step =>
          let '(w, (a, evs)) := step w in
          set_tasks (fun ts => <[i := {| at_ := a; log := log t ++ evs |}]> ts) w
      end
  end.

(** The callback given to [watch] (lines 288 to 292). *)
Definition watchCallback (ev : string) (w : World) : World :=
  if String.eqb ev "change" then _updateScriptVisibleProperties w else w.

(** Modelled from the spec: [AbstractInspector.componentWillUnmount] of
    [inspectors/abstract-inspector.tsx], which is not among the sources.
    It is taken to record that the component has been unmounted, in the
    [isMounted] the refresh reads. *)
Definition super_componentWillUnmount (w : World) : World :=
  set_this (set_isMounted false) w.

(** [componentWillUnmount()] (lines 102 to 108). *)
Definition componentWillUnmount (w : World) : World :=
  let w := super_componentWillUnmount w in
  match _scriptWatcher (this w) with
  | Some r => set_watchers (closeWatcher r) w
  | None => w
  end.

(** Modelled from the spec: the change handler of the [InspectorList] form
    control of [gui/inspector/list.tsx], which is not among the sources.
    The list is bound to the [name] of [metadata.script] (lines 137 and
    138): when the user picks the script [n] it stores [n] there and then
    calls [onChange], which line 144 sets to the refresh. *)
Definition InspectorList_change (n : string) (w : World) : World :=
  _updateScriptVisibleProperties (set_this (set_name n) w).

(** What can happen to the component between two [await]s. *)
Inductive Action : Type :=
| Refresh                                (* a caller runs the refresh *)
| ListChange (name : string)             (* the user picks a script in the list *)
| Settle (task : nat) (r : Answer)       (* an awaited promise is settled *)
| WatchEvent (watcher : nat) (ev : string)  (* a watcher reports an event *)
| Unmount                                (* React unmounts the component *)
| FileSystem (unwatchable : list string). (* files appear or disappear *)

Definition act (a : Action) (w : World) : World :=
  match a with
  | Refresh => _updateScriptVisibleProperties w
  | ListChange n => InspectorList_change n w
  | Settle i r => settle i r w
  | WatchEvent r ev =>
      match watchers w !! r with
      | Some fw => if closed fw then w else watchCallback ev w
      | None => w
      end
  | Unmount => componentWillUnmount w
  | FileSystem files => set_unwatchable files w
  end.

(** The component after a sequence of actions. *)
Definition run (actions : list Action) (w : World) : World :=
  foldl (fun w a => act a w) w actions.

End Refresh.

End ScriptInspector.

(* ===================================================================== *)
(** ** The script inspector's content ([inspectors/script-inspector.tsx]) *)
(* ===================================================================== *)

Module ScriptInspectorView.

(** [selectedObject.metadata.script] as [renderContent] may find it: an
    object that never had a script attached has no [name] yet. *)
Record RawScript : Type := {
  name : option string;
  properties : option (gmap string ScriptInspector.Property)
}.

(** [selectedObject.metadata]; it may have no [script] yet. *)
Record Metadata : Type := {
  script : option RawScript
}.

(** The component over a selected object whose [metadata] may be missing
    altogether. *)
Record Component : Type := {
  state : ScriptInspector.IScriptInspectorState;
  metadata : option Metadata;
  isMounted : bool;
  _scriptWatcher : option nat;
  Object_prototype : gmap string Js.Value
}.

(** [new ScriptInspector(props)] (lines 57 to 66), over the [metadata] of
    the object the props select; [prototype] is [Object.prototype] as the
    component finds it. *)
Definition constructor (metadata : option Metadata) (prototype : gmap string Js.Value)
    : Component :=
  {| state := {| ScriptInspector.refresing := false;
                 ScriptInspector.scripts := [];
                 ScriptInspector.inspectorValues := [] |};
     metadata := metadata;
     isMounted := false;
     _scriptWatcher := None;
     Object_prototype := prototype |}.

(** [IInspectorListItem<string>]; [icon] is the source of the image. *)
Record IInspectorListItem : Type := {
  label : string;
  data : string;
  icon : option string
}.

(** The functions the inspector hands to its controls. *)
Inductive Callback : Type :=
| items                       (* lines 140 to 143 *)
| onChange                    (* line 144: the refresh *)
| openItem (tsPath : string). (* line 158: shell.openItem(tsPath) *)

(** The elements of the inspector's content.  The list is bound to
    [metadata.script]; [Values] is the node [_getInspectorValues]
    returns; a child that is [undefined] renders nothing. *)
Inductive Element : Type :=
| InspectorList (property label : string) (items onChange : Callback)
| InspectorButton (label : string) (onClick : Callback)
| Spinner (size : nat)
| Values (node : ScriptInspector.ReactNode)
| InspectorSection (title : string) (children : list (option Element)).

(** [getScriptsListItems()]. *)
Definition getScriptsListItems (this : ScriptInspector.ScriptInspector)
  : list IInspectorListItem :=
  [{| label := "None"; data := "None"; icon := None |}]
  ++ List.map (fun s => {| label := s; data := s; icon := Some "../css/images/ts.png" |})
       (ScriptInspector.scripts (ScriptInspector.state this)).

(** [_getScriptsList()]. *)
Definition _getScriptsList : Element :=
  InspectorList "name" "Path" items onChange.

(** [_getSpinner()]. *)
Definition _getSpinner (this : ScriptInspector.ScriptInspector) : option Element :=
  if negb (ScriptInspector.refresing (ScriptInspector.state this)) then None
  else Some (Spinner 35).

Section Content.
Context `{PathModule}.

(** [_getOpenButton()]; [DirPath] is [WorkSpace.DirPath]. *)
Definition _getOpenButton (DirPath : string) (this : ScriptInspector.ScriptInspector)
  : option Element :=
  if String.eqb (ScriptInspector.name (ScriptInspector.script this)) "None" then None
  else
    let tsPath := join [DirPath; ScriptInspector.name (ScriptInspector.script this)] in
    Some (InspectorButton "Open..." (openItem tsPath)).

(** [renderContent()]: the content ([None] for [null]) and the component
    after the call; [HasWorkspace] is [WorkSpace.HasWorkspace()]. *)
Definition renderContent (HasWorkspace : bool) (DirPath : string)
  : Js.State Component (option Element) :=
  fun c =>
    if negb HasWorkspace then (None, c)
    else
      (* this.selectedObject.metadata ??= { } *)
      let metadata := default {| script := None |} (metadata c) in
      (* this.selectedObject.metadata.script ??= { } *)
      let script := default {| name := None; properties := None |} (script metadata) in
      (* this.selectedObject.metadata.script.name ??= "None" *)
      let name := default "None" (name script) in
      let this :=
        {| ScriptInspector.state := state c;
           ScriptInspector.script :=
             {| ScriptInspector.name := name;
                ScriptInspector.properties := properties script |};
           ScriptInspector.isMounted := isMounted c;
           ScriptInspector._scriptWatcher := _scriptWatcher c;
           ScriptInspector.Object_prototype := Object_prototype c |} in
      let list := _getScriptsList in
      let button := _getOpenButton DirPath this in
      let spinner := _getSpinner this in
      let (values, this) := ScriptInspector._getInspectorValues this in
      (Some (InspectorSection "Script" [Some list; button; spinner; Values <$> values]),
       {| state := ScriptInspector.state this;
          metadata :=
            Some {| script :=
                      Some {| name := Some (ScriptInspector.name
                                              (ScriptInspector.script this));
                              properties := ScriptInspector.properties
                                              (ScriptInspector.script this) |} |};
          isMounted := ScriptInspector.isMounted this;
          _scriptWatcher := ScriptInspector._scriptWatcher this;
          Object_prototype := ScriptInspector.Object_prototype this |}).

(** [this.setState({ scripts })]: React drops it when the component is
    not mounted. *)
Definition setScripts (scripts : list string) (c : ScriptInspector.ScriptInspector)
  : ScriptInspector.ScriptInspector :=
  if ScriptInspector.isMounted c then
    {| ScriptInspector.state :=
         {| ScriptInspector.refresing :=
              ScriptInspector.refresing (ScriptInspector.state c);
            ScriptInspector.scripts := scripts;
            ScriptInspector.inspectorValues :=
              ScriptInspector.inspectorValues (ScriptInspector.state c) |};
       ScriptInspector.script := ScriptInspector.script c;
       ScriptInspector.isMounted := ScriptInspector.isMounted c;
       ScriptInspector._scriptWatcher := ScriptInspector._scriptWatcher c;
       ScriptInspector.Object_prototype := ScriptInspector.Object_prototype c |}
  else c.

(** [refreshAvailableScripts()], from the fulfilment of
    [ScriptAssets.GetAllScripts()] with [scripts] on (lines 127 and 128):
    the refresh is started and not awaited. *)
Definition refreshAvailableScripts (scripts : list string) (w : ScriptInspector.World)
  : ScriptInspector.World :=
  ScriptInspector._updateScriptVisibleProperties
    (ScriptInspector.set_this (setScripts scripts) w).

(** The list's [items] function (lines 140 to 143), from the same point
    on: the items it returns, and the component. *)
Definition items_of (scripts : list string)
  : Js.State ScriptInspector.World (list IInspectorListItem) :=
  fun w =>
    let w := refreshAvailableScripts scripts w in
    (getScriptsListItems (ScriptInspector.this w), w).

End Content.

End ScriptInspectorView.

(* ===================================================================== *)
(** ** Creating the default scene ([tools/default-scene.ts]) *)
(* ===================================================================== *)

Module DefaultSceneCreate.

(** What an awaited promise is settled with. *)
Inductive Settled (A : Type) : Type :=
| Fulfilled (a : A)
| Failed (reason : string).
Arguments Fulfilled {A} a.
Arguments Failed {A} reason.

(** What the promise of [Create] or [CreateEmpty] is settled with: a
    rejection carries the reason of the awaited promise that failed, or
    the [SyntaxError] of [JSON.parse]. *)
Inductive Outcome : Type :=
| Resolved
| Rejected (reason : string)
| SyntaxError.

Section Create.

(** The values of [JSON.parse], and [JSON.parse]: [None] when it throws
    its [SyntaxError]. *)
Variable Json : Type.
Variable parse : string -> option Json.

(** The calls to the editor's tools, importer and exporter. *)
Inductive Call : Type :=
| LoadFile (url : string)
| LoadProjectFromFile (file : string) (project : Json) (clear : bool)
| CreateFiles.

(** [FilesInputStore.FilesToLoad], [ProjectExporter.ProjectPath], and the
    calls made so far, oldest first. *)
Record World : Type := {
  FilesToLoad : gmap string string;
  ProjectPath : option string;
  calls : list Call
}.

Definition call (c : Call) (w : World) : World :=
  {| FilesToLoad := FilesToLoad w; ProjectPath := ProjectPath w;
     calls := calls w ++ [c] |}.

(** The [await] a call is suspended at, or its outcome. *)
Inductive Await : Type :=
| AwaitLoadFile (file : string)
| AwaitLoadProjectFromFile
| Returned (outcome : Outcome).

(** The body common to [Create] and [CreateEmpty], up to the first
    [await]. *)
Definition load (file : string) (w : World) : World * Await :=
  (call (LoadFile file) w, AwaitLoadFile file).

(** [Create(editor)], up to its first [await]. *)
Definition Create (w : World) : World * Await :=
  load "assets/defaultScene/scene.editorproject" w.

(** [CreateEmpty(editor)], up to its first [await]. *)
Definition CreateEmpty (w : World) : World * Await :=
  let w := {| FilesToLoad := ∅; ProjectPath := ProjectPath w; calls := calls w |} in
  load "assets/emptyScene/scene.editorproject" w.

(** From the settling of [Tools.LoadFile] to the second [await]. *)
Definition loaded (file : string) (r : Settled string) (w : World) : World * Await :=
  match r with
  | Failed reason => (w, Returned (Rejected reason))
  | Fulfilled text =>
      match parse text with
      | None => (w, Returned SyntaxError)
      | Some project =>
          (call (LoadProjectFromFile file project false) w, AwaitLoadProjectFromFile)
      end
  end.

(** From the settling of [SceneImporter.LoadProjectFromFile] to the
    end. *)
Definition imported (r : Settled unit) (w : World) : World * Await :=
  match r with
  | Failed reason => (w, Returned (Rejected reason))
  | Fulfilled _ =>
      let w := {| FilesToLoad := FilesToLoad w; ProjectPath := None; calls := calls w |} in
      (call CreateFiles w, Returned Resolved)
  end.

(** A suspended call continues with what its promise is settled with. *)
Definition continue (a : Await) (file : Settled string) (project : Settled unit)
    (w : World) : World * Await :=
  match a with
  | AwaitLoadFile f => loaded f file w
  | AwaitLoadProjectFromFile => imported project w
  | Returned o => (w, Returned o)
  end.

(** A call from its beginning to its end, when nothing else runs at its
    [await]s. *)
Definition complete (begin : World -> World * Await) (file : Settled string)
    (project : Settled unit) (w : World) : World * Await :=
  let (w, a) := begin w in
  let (w, a) := continue a file project w in
  continue a file project w.

End Create.

End DefaultSceneCreate.


(* ===================================================================== *)
(** ** The rendering inspector's content ([inspectors/rendering-inspector.tsx]) *)
(* ===================================================================== *)

Module RenderingInspectorView.

(** The flags of the engine's [DefaultRenderingPipeline] the inspector
    reads. *)
Record DefaultRenderingPipeline : Type := {
  imageProcessingEnabled : bool;
  bloomEnabled : bool;
  sharpenEnabled : bool;
  depthOfFieldEnabled : bool;
  chromaticAberrationEnabled : bool
}.

(** What the inspector finds in [SceneSettings]: the answers of the four
    [Is...Enabled()] and the four pipeline objects, each of them
    [Nullable]. *)
Record SceneSettings : Type := {
  enabled : RenderingInspector.SceneSettings;
  IsDefaultPipelineEnabled : bool;
  SSAOPipeline : option unit;
  MotionBlurPostProcess : option unit;
  ScreenSpaceReflectionsPostProcess : option unit;
  DefaultPipeline : option DefaultRenderingPipeline
}.

(** The objects the controls are bound to. *)
Inductive Target : Type :=
| this_state
| this_state_default
| SceneSettings_SSAOPipeline
| SceneSettings_MotionBlurPostProcess
| SceneSettings_ScreenSpaceReflectionsPostProcess
| SceneSettings_DefaultPipeline
| SceneSettings_DefaultPipeline_imageProcessing
| SceneSettings_DefaultPipeline_sharpen
| SceneSettings_DefaultPipeline_depthOfField
| SceneSettings_DefaultPipeline_chromaticAberration.

(** The change handlers: one that works on the state and the settings of
    a section, the default pipeline's (lines 187 to 190),
    [() => this._updateDefaultState()], and [() => this.forceUpdate()]. *)
Inductive Callback : Type :=
| handler (onChange : bool -> Js.State RenderingInspector.World unit)
| default_onChange
| updateDefaultState
| forceUpdate.

Inductive DepthOfFieldEffectBlurLevel : Type :=
| Low
| Medium
| High.

Inductive Element : Type :=
| InspectorNumber (object : Target) (property label : string) (step : float)
    (min max : option float)
| InspectorBoolean (object : Target) (property label : string)
    (onChange : option Callback)
| InspectorVector2 (object : Target) (property label : string) (step : float)
| InspectorList (object : Target) (property label : string)
    (items : list (string * DepthOfFieldEffectBlurLevel)) (onChange : option Callback)
| InspectorSection (title : string) (children : list Element)
| Fragment (children : list Element).

(** An [enable] checkbox of the first three sections, from the element's
    properties. *)
Definition enable_of (e : RenderingInspector.InspectorBoolean) : Element :=
  InspectorBoolean this_state (RenderingInspector.property e) (RenderingInspector.label e)
    (Some (handler (RenderingInspector.onChange e))).

(** [_getSSAO2Inspector()]. *)
Definition _getSSAO2Inspector (state : RenderingInspector.IRendererInspectorState)
    (settings : SceneSettings) : Element :=
  let enable := enable_of RenderingInspector._getSSAO2Inspector_enable in
  if negb (RenderingInspector.ssao2Enabled state)
     || negb (bool_decide (is_Some (SSAOPipeline settings)))
  then InspectorSection "SSAO 2" [enable]
  else
    InspectorSection "SSAO 2"
      [enable;
       InspectorNumber SceneSettings_SSAOPipeline "radius" "Radius" 0.01 None None;
       InspectorNumber SceneSettings_SSAOPipeline "totalStrength" "Strength" 0.01 None None;
       InspectorNumber SceneSettings_SSAOPipeline "samples" "Samples" 1 (Some 1%float)
         (Some 32%float);
       InspectorNumber SceneSettings_SSAOPipeline "maxZ" "Max Z" 0.01 None None;
       InspectorBoolean SceneSettings_SSAOPipeline "expensiveBlur" "Expansive Blur" None].

(** [_getMotionBlurInspector()]. *)
Definition _getMotionBlurInspector (state : RenderingInspector.IRendererInspectorState)
    (settings : SceneSettings) : Element :=
  let enable := enable_of RenderingInspector._getMotionBlurInspector_enable in
  if negb (RenderingInspector.motionBlurEnabled state)
     || negb (bool_decide (is_Some (MotionBlurPostProcess settings)))
  then InspectorSection "Motion Blur" [enable]
  else
    InspectorSection "Motion Blur"
      [enable;
       InspectorNumber SceneSettings_MotionBlurPostProcess "motionStrength" "Strength"
         0.01 None None;
       InspectorNumber SceneSettings_MotionBlurPostProcess "motionBlurSamples" "Samples"
         1 (Some 1%float) (Some 64%float);
       InspectorBoolean SceneSettings_MotionBlurPostProcess "isObjectBased" "Object Based"
         None].

(** [_getSSRInspector()]. *)
Definition _getSSRInspector (state : RenderingInspector.IRendererInspectorState)
    (settings : SceneSettings) : Element :=
  let enable := enable_of RenderingInspector._getSSRInspector_enable in
  if negb (RenderingInspector.ssrEnabled state)
     || negb (bool_decide (is_Some (ScreenSpaceReflectionsPostProcess settings)))
  then InspectorSection "Screen Space Reflections" [enable]
  else
    InspectorSection "Screen Space Reflections"
      [enable;
       InspectorNumber SceneSettings_ScreenSpaceReflectionsPostProcess "strength"
         "Strength" 0.01 None None;
       InspectorNumber SceneSettings_ScreenSpaceReflectionsPostProcess "threshold"
         "Threshold" 0.01 None None;
       InspectorNumber SceneSettings_ScreenSpaceReflectionsPostProcess "step" "Step"
         0.001 None None;
       InspectorNumber SceneSettings_ScreenSpaceReflectionsPostProcess
         "reflectionSpecularFalloffExponent" "Specular Exponent" 0.001 None None;
       InspectorNumber SceneSettings_ScreenSpaceReflectionsPostProcess "reflectionSamples"
         "Samples" 1 (Some 1%float) (Some 512%float);
       InspectorNumber SceneSettings_ScreenSpaceReflectionsPostProcess "roughnessFactor"
         "Roughness Factor" 0.01 (Some 0%float) (Some 10%float);
       InspectorSection "Smooth"
         [InspectorBoolean SceneSettings_ScreenSpaceReflectionsPostProcess
            "enableSmoothReflections" "Enable" None;
          InspectorNumber SceneSettings_ScreenSpaceReflectionsPostProcess "smoothSteps"
            "Steps" 1 (Some 0%float) (Some 32%float)]].

(** [_getDefaultInspector()]. *)
Definition _getDefaultInspector (state : RenderingInspector.IRendererInspectorState)
    (settings : SceneSettings) : Element :=
  let default := RenderingInspector.default state in
  let enable :=
    InspectorBoolean this_state_default "enabled" "Enabled" (Some default_onChange) in
  if negb (RenderingInspector.enabled default)
     || negb (bool_decide (is_Some (DefaultPipeline settings)))
  then InspectorSection "Default Pipeline" [enable]
  else
    let imageProcessingEnable :=
      InspectorBoolean SceneSettings_DefaultPipeline "imageProcessingEnabled" "Enabled"
        (Some updateDefaultState) in
    let imageProcessing :=
      if RenderingInspector.imageProcessingEnabled default then
        InspectorSection "Image Processing"
          [imageProcessingEnable;
           InspectorNumber SceneSettings_DefaultPipeline_imageProcessing "exposure"
             "Exposure" 0.01 None None;
           InspectorNumber SceneSettings_DefaultPipeline_imageProcessing "contrast"
             "Contrast" 0.01 None None;
           InspectorBoolean SceneSettings_DefaultPipeline_imageProcessing
             "toneMappingEnabled" "Tone Mapping Enabled" None;
           InspectorBoolean SceneSettings_DefaultPipeline_imageProcessing
             "fromLinearSpace" "From Linear Space" None]
      else InspectorSection "Image Processing" [imageProcessingEnable] in
    let bloomEnable :=
      InspectorBoolean SceneSettings_DefaultPipeline "bloomEnabled" "Enabled"
        (Some updateDefaultState) in
    let bloom :=
      if RenderingInspector.bloomEnabled default then
        InspectorSection "Bloom"
          [bloomEnable;
           InspectorNumber SceneSettings_DefaultPipeline "bloomKernel" "Kernel" 1
             (Some 1%float) (Some 512%float);
           InspectorNumber SceneSettings_DefaultPipeline "bloomWeight" "Weight" 0.01
             (Some 0%float) (Some 1%float);
           InspectorNumber SceneSettings_DefaultPipeline "bloomThreshold" "Threshold" 0.01
             (Some 0%float) (Some 1%float);
           InspectorNumber SceneSettings_DefaultPipeline "bloomScale" "Scale" 0.01
             (Some 0%float) (Some 1%float)]
      else InspectorSection "Bloom" [bloomEnable] in
    let sharpenEnable :=
      InspectorBoolean SceneSettings_DefaultPipeline "sharpenEnabled" "Enabled"
        (Some updateDefaultState) in
    let sharpen :=
      if RenderingInspector.sharpenEnabled default then
        InspectorSection "Sharpen"
          [sharpenEnable;
           InspectorNumber SceneSettings_DefaultPipeline_sharpen "edgeAmount"
             "Edge Amount" 0.01 (Some 0%float) (Some 2%float);
           InspectorNumber SceneSettings_DefaultPipeline_sharpen "colorAmount"
             "Color Amount" 0.01 (Some 0%float) (Some 2%float)]
      else InspectorSection "Sharpen" [sharpenEnable] in
    let depthOfFieldEnable :=
      InspectorBoolean SceneSettings_DefaultPipeline "depthOfFieldEnabled" "Enabled"
        (Some updateDefaultState) in
    let depthOfField :=
      if RenderingInspector.depthOfFieldEnabled default then
        InspectorSection "Depth Of Field"
          [depthOfFieldEnable;
           InspectorNumber SceneSettings_DefaultPipeline_depthOfField "focusDistance"
             "Focus Distance" 1 (Some 0%float) None;
           InspectorNumber SceneSettings_DefaultPipeline_depthOfField "fStop" "F-Stop"
             0.01 (Some 0%float) None;
           InspectorNumber SceneSettings_DefaultPipeline_depthOfField "focalLength"
             "Focal Length" 0.01 (Some 0%float) None;
           InspectorList SceneSettings_DefaultPipeline "depthOfFieldBlurLevel"
             "Blur Level" [("Low", Low); ("Medium", Medium); ("High", High)]
             (Some forceUpdate)]
      else InspectorSection "Depth Of Field" [depthOfFieldEnable] in
    let chromaticAberrationEnable :=
      InspectorBoolean SceneSettings_DefaultPipeline "chromaticAberrationEnabled"
        "Enabled" (Some updateDefaultState) in
    let chromaticAberraction :=
      if RenderingInspector.chromaticAberrationEnabled default then
        InspectorSection "Chromatic Aberration"
          [chromaticAberrationEnable;
           InspectorNumber SceneSettings_DefaultPipeline_chromaticAberration
             "aberrationAmount" "Amount" 0.01 None None;
           InspectorNumber SceneSettings_DefaultPipeline_chromaticAberration
             "radialIntensity" "Radial Intensity" 0.01 None None;
           InspectorVector2 SceneSettings_DefaultPipeline_chromaticAberration "direction"
             "Direction" 0.01;
           InspectorVector2 SceneSettings_DefaultPipeline_chromaticAberration
             "centerPosition" "Center" 0.01]
      else InspectorSection "Chromatic Aberration" [chromaticAberrationEnable] in
    InspectorSection "Default Pipeline"
      [enable;
       InspectorSection "Anti Aliasing"
         [InspectorBoolean SceneSettings_DefaultPipeline "fxaaEnabled" "FXAA Enabled" None;
          InspectorNumber SceneSettings_DefaultPipeline "samples" "Samples" 1
            (Some 1%float) (Some 32%float)];
       imageProcessing;
       bloom;
       sharpen;
       depthOfField;
       chromaticAberraction].

(** [renderContent()]. *)
Definition renderContent (state : RenderingInspector.IRendererInspectorState)
    (settings : SceneSettings) : Element :=
  Fragment
    [_getSSAO2Inspector state settings;
     _getMotionBlurInspector state settings;
     _getSSRInspector state settings;
     _getDefaultInspector state settings].

(** [_getDefaultState()]: [p?.flag ?? false] for each flag of the
    pipeline. *)
Definition _getDefaultState (settings : SceneSettings) : RenderingInspector.DefaultState :=
  let flag (f : DefaultRenderingPipeline -> bool) : bool :=
    default false (f <$> DefaultPipeline settings) in
  {| RenderingInspector.enabled := IsDefaultPipelineEnabled settings;
     RenderingInspector.imageProcessingEnabled := flag imageProcessingEnabled;
     RenderingInspector.bloomEnabled := flag bloomEnabled;
     RenderingInspector.sharpenEnabled := flag sharpenEnabled;
     RenderingInspector.depthOfFieldEnabled := flag depthOfFieldEnabled;
     RenderingInspector.chromaticAberrationEnabled := flag chromaticAberrationEnabled |}.

(** [new RenderingInspector(props)]: the initial state (lines 69 to 74). *)
Definition constructor (settings : SceneSettings)
  : RenderingInspector.IRendererInspectorState :=
  {| RenderingInspector.ssao2Enabled := RenderingInspector.IsSSAOEnabled (enabled settings);
     RenderingInspector.motionBlurEnabled :=
       RenderingInspector.IsMotionBlurEnabled (enabled settings);
     RenderingInspector.ssrEnabled :=
       RenderingInspector.IsScreenSpaceReflectionsEnabled (enabled settings);
     RenderingInspector.default := _getDefaultState settings |}.

(** [{ ...a, ...b }] for two default states: [b] has all the six
    properties, and so each of them is [b]'s. *)
Definition spread (a b : RenderingInspector.DefaultState) : RenderingInspector.DefaultState :=
  {| RenderingInspector.enabled := RenderingInspector.enabled b;
     RenderingInspector.imageProcessingEnabled := RenderingInspector.imageProcessingEnabled b;
     RenderingInspector.bloomEnabled := RenderingInspector.bloomEnabled b;
     RenderingInspector.sharpenEnabled := RenderingInspector.sharpenEnabled b;
     RenderingInspector.depthOfFieldEnabled := RenderingInspector.depthOfFieldEnabled b;
     RenderingInspector.chromaticAberrationEnabled :=
       RenderingInspector.chromaticAberrationEnabled b |}.

(** [_updateDefaultState()]: the state after the [setState]. *)
Definition _updateDefaultState (settings : SceneSettings)
    (state : RenderingInspector.IRendererInspectorState)
  : RenderingInspector.IRendererInspectorState :=
  {| RenderingInspector.ssao2Enabled := RenderingInspector.ssao2Enabled state;
     RenderingInspector.motionBlurEnabled := RenderingInspector.motionBlurEnabled state;
     RenderingInspector.ssrEnabled := RenderingInspector.ssrEnabled state;
     RenderingInspector.default :=
       spread (RenderingInspector.default state) (_getDefaultState settings) |}.

End RenderingInspectorView.

(* ===================================================================== *)
(** * Vocabulary of the statements *)
(* ===================================================================== *)

(** What the callback of [moveFile] makes of a texture object. *)
Definition moved `{PathModule} (dir from to : string) (o : VideoMove.BaseTexture)
  : VideoMove.BaseTexture :=
  if String.eqb (join [dir; VideoMove.name o]) from
  then VideoMove.set_name (Js.replace to (join [dir; "/"]) "") o
  else o.

(** A scene with two video textures and an ordinary one; the assets are
    under [/home/assets]. *)
Definition sampleScene : VideoMove.World :=
  {| VideoMove.editor :=
       {| VideoMove.scene := Some {| VideoMove.textures := [0; 1; 2] |};
          VideoMove.assetsBrowser :=
            {| VideoMove.assetsDirectory := "/home/assets" |} |};
     VideoMove.heap :=
       {[ 0 := {| VideoMove.instanceofVideoTexture := true;
                  VideoMove.name := "videos/intro.mp4" |};
          1 := {| VideoMove.instanceofVideoTexture := false;
                  VideoMove.name := "videos/intro.mp4" |};
          2 := {| VideoMove.instanceofVideoTexture := true;
                  VideoMove.name := "videos/outro.webm" |} ]} |}.

(** The calls by which [CreateLabel] builds the rectangle [label] named
    [str] and hands it to the texture [gui], in the order of the source. *)
Definition rectangleCalls (gui label : DefaultScene.Ref) (str width height : string)
    : list DefaultScene.Call :=
  [DefaultScene.New DefaultScene.Rectangle (Some str) label;
   DefaultScene.Assign label "background" (Js.VString "black");
   DefaultScene.Assign label "height" (Js.VString height);
   DefaultScene.Assign label "alpha" (Js.VNumber 0.5);
   DefaultScene.Assign label "width" (Js.VString width);
   DefaultScene.Assign label "cornerRadius" (Js.VNumber 20);
   DefaultScene.Assign label "thickness" (Js.VNumber 1);
   DefaultScene.Assign label "linkOffsetY" (Js.VNumber 30);
   DefaultScene.Assign label "top" (Js.VString "0%");
   DefaultScene.Assign label "zIndex" (Js.VNumber 5);
   DefaultScene.Assign label "verticalAlignment"
     (Js.VStatic "Control.VERTICAL_ALIGNMENT_TOP");
   DefaultScene.Assign label "horizontalAlignment"
     (Js.VStatic "Control.HORIZONTAL_ALIGNMENT_RIGHT");
   DefaultScene.AddControl gui label].

(** The calls for the white text block displaying [str], put in the
    rectangle. *)
Definition textCalls (label text : DefaultScene.Ref) (str : string)
    : list DefaultScene.Call :=
  [DefaultScene.New DefaultScene.TextBlock None text;
   DefaultScene.Assign text "text" (Js.VString str);
   DefaultScene.Assign text "color" (Js.VString "white");
   DefaultScene.AddControl label text].

(** The calls for the dashed line, handed to the texture, linked with
    [mesh] and connected to [label]. *)
Definition lineCalls (gui mesh label line : DefaultScene.Ref) : list DefaultScene.Call :=
  [DefaultScene.New DefaultScene.Line None line;
   DefaultScene.Assign line "alpha" (Js.VNumber 0.5);
   DefaultScene.Assign line "lineWidth" (Js.VNumber 5);
   DefaultScene.Assign line "dash" (Js.VArray [Js.VNumber 5; Js.VNumber 10]);
   DefaultScene.AddControl gui line;
   DefaultScene.LinkWithMesh line mesh;
   DefaultScene.Assign line "connectedControl" (Js.VRef label)].

(** The controls handed to [container.addControl], in the order of the
    calls. *)
Fixpoint added (container : DefaultScene.Ref) (calls : list DefaultScene.Call)
    : list DefaultScene.Ref :=
  match calls with
  | [] => []
  | DefaultScene.AddControl p c :: rest =>
      if Nat.eqb p container then c :: added container rest else added container rest
  | _ :: rest => added container rest
  end.

(** The controls on which [linkWithMesh] is called, each with the mesh, in
    the order of the calls. *)
Fixpoint linked (calls : list DefaultScene.Call)
    : list (DefaultScene.Ref * DefaultScene.Ref) :=
  match calls with
  | [] => []
  | DefaultScene.LinkWithMesh c m :: rest => (c, m) :: linked rest
  | _ :: rest => linked rest
  end.

(** The objects created, each with its class and the argument of the
    constructor, in the order of the calls. *)
Fixpoint news (calls : list DefaultScene.Call)
    : list (DefaultScene.Ref * DefaultScene.Class * option string) :=
  match calls with
  | [] => []
  | DefaultScene.New c n r :: rest => (r, c, n) :: news rest
  | _ :: rest => news rest
  end.

(** The objects a call names: the one it is made on, and those it is
    given. *)
Definition objects (c : DefaultScene.Call) : list DefaultScene.Ref :=
  match c with
  | DefaultScene.New _ _ r => [r]
  | DefaultScene.Assign r _ (Js.VRef r') => [r; r']
  | DefaultScene.Assign r _ _ => [r]
  | DefaultScene.AddControl p c => [p; c]
  | DefaultScene.LinkWithMesh c m => [c; m]
  end.

(** An engine in which a GUI texture, [0], and a mesh, [1], exist and that
    has received no call yet. *)
Definition sampleGui : DefaultScene.Engine :=
  {| DefaultScene.created := 2; DefaultScene.calls := [] |}.

(** The types of exported values the script inspector has a widget for. *)
Definition supportedTypes : list string :=
  ["number"; "string"; "boolean"; "Vector2"; "Vector3"; "Color3"; "Color4"].

(** The types whose values are objects. *)
Definition objectTypes : list string :=
  ["Vector2"; "Vector3"; "Color3"; "Color4"].

(** The default value of a vector or a colour is an object when it is
    present. *)
Definition objectDefault (iv : Sandbox.IExportedInspectorValue) : Prop :=
  Sandbox.type iv ∈ objectTypes ->
  Js.nullish (Sandbox.defaultValue iv) = true
  \/ exists fields, Sandbox.defaultValue iv = Js.VObject fields.

(** The label of a widget: [iv.name ?? iv.propertyKey]. *)
Definition labelOf (iv : Sandbox.IExportedInspectorValue) : string :=
  default (Sandbox.propertyKey iv) (Sandbox.name iv).

(** The widget of an exported value, by its declared type. *)
Definition widgetFor (iv : Sandbox.IExportedInspectorValue) : ScriptInspector.ReactNode :=
  let key := Sandbox.propertyKey iv in
  let ty := Sandbox.type iv in
  if String.eqb ty "number" then ScriptInspector.InspectorNumber key "value" (labelOf iv) 0.01
  else if String.eqb ty "string" then ScriptInspector.InspectorString key "value" (labelOf iv)
  else if String.eqb ty "boolean" then ScriptInspector.InspectorBoolean key "value" (labelOf iv)
  else if String.eqb ty "Vector2" then ScriptInspector.InspectorVector2 key "value" (labelOf iv) 0.01
  else if String.eqb ty "Vector3" then ScriptInspector.InspectorVector3 key "value" (labelOf iv) 0.01
  else ScriptInspector.InspectorColor key "value" (labelOf iv) 0.01.

(** The zero of a type: [0], the empty string, [false], the zero vector,
    black, with alpha [1] for [Color4] only. *)
Definition zeroOf (ty : string) : Js.Value :=
  if String.eqb ty "number" then Js.VNumber 0
  else if String.eqb ty "string" then Js.VString ""
  else if String.eqb ty "boolean" then Js.VBoolean false
  else if String.eqb ty "Vector2" then
    Js.VObject [("x", Js.VNumber 0); ("y", Js.VNumber 0)]
  else if String.eqb ty "Vector3" then
    Js.VObject [("x", Js.VNumber 0); ("y", Js.VNumber 0); ("z", Js.VNumber 0)]
  else if String.eqb ty "Color4" then
    Js.VObject [("r", Js.VNumber 0); ("g", Js.VNumber 0); ("b", Js.VNumber 0);
                ("a", Js.VNumber 1)]
  else
    Js.VObject [("r", Js.VNumber 0); ("g", Js.VNumber 0); ("b", Js.VNumber 0);
                ("a", Js.VUndefined)].

(** The declared default as it is stored: a number, a string or a boolean
    as it is, a vector by its components ([x], [y] of a [Vector2]; [_x],
    [_y], [_z] of a [Vector3]), a colour by [r], [g], [b], [a]. *)
Definition storedDefault (ty : string) (d : Js.Value) : Js.Value :=
  if String.eqb ty "Vector2" then
    Js.VObject [("x", Js.get d "x"); ("y", Js.get d "y")]
  else if String.eqb ty "Vector3" then
    Js.VObject [("x", Js.get d "_x"); ("y", Js.get d "_y"); ("z", Js.get d "_z")]
  else if String.eqb ty "Color3" || String.eqb ty "Color4" then
    Js.VObject [("r", Js.get d "r"); ("g", Js.get d "g"); ("b", Js.get d "b");
                ("a", Js.get d "a")]
  else d.

(** The value a property without a stored value is initialised to: the
    declared default when it is present, the zero of the type otherwise. *)
Definition initialValue (iv : Sandbox.IExportedInspectorValue) : Js.Value :=
  if Js.nullish (Sandbox.defaultValue iv)
  then zeroOf (Sandbox.type iv)
  else storedDefault (Sandbox.type iv) (Sandbox.defaultValue iv).


(** A component with a script attached and three exported values: a speed
    with a default, a tint without one, and a name. *)
Definition sampleInspector : ScriptInspector.ScriptInspector :=
  {| ScriptInspector.state :=
       {| ScriptInspector.refresing := false;
          ScriptInspector.scripts := ["src/game.ts"];
          ScriptInspector.inspectorValues :=
            [ {| Sandbox.propertyKey := "_speed"; Sandbox.name := Some "Speed";
                 Sandbox.defaultValue := Js.VNumber 2.5; Sandbox.type := "number" |};
              {| Sandbox.propertyKey := "_tint"; Sandbox.name := None;
                 Sandbox.defaultValue := Js.VUndefined; Sandbox.type := "Color4" |};
              {| Sandbox.propertyKey := "_title"; Sandbox.name := Some "Title";
                 Sandbox.defaultValue := Js.VNull; Sandbox.type := "string" |} ] |};
     ScriptInspector.script :=
       {| ScriptInspector.name := "src/game.ts"; ScriptInspector.properties := None |};
     ScriptInspector.isMounted := true;
     ScriptInspector._scriptWatcher := None;
     ScriptInspector.Object_prototype := ∅ |}.

(** The properties and the inherited values once line 186 has made sure
    that [properties[iv.propertyKey]] is defined:
    [properties[iv.propertyKey] ??= { type: iv.type }]. *)
Definition ensured (heap : gmap string ScriptInspector.Property * gmap string Js.Value)
    (iv : Sandbox.IExportedInspectorValue)
  : gmap string ScriptInspector.Property * gmap string Js.Value :=
  (match ScriptInspector.find (fst heap) (snd heap) (Sandbox.propertyKey iv) with
   | ScriptInspector.NotFound =>
       <[Sandbox.propertyKey iv :=
           {| ScriptInspector.type := Sandbox.type iv;
              ScriptInspector.value := Js.VUndefined |}]> (fst heap)
   | _ => fst heap
   end,
   snd heap).




Definition sampleToString : ScriptInspector.ScriptInspector :=
  {| ScriptInspector.state :=
       {| ScriptInspector.refresing := false;
          ScriptInspector.scripts := ["src/game.ts"];
          ScriptInspector.inspectorValues :=
            [ {| Sandbox.propertyKey := "toString"; Sandbox.name := None;
                 Sandbox.defaultValue := Js.VString "ship"; Sandbox.type := "string" |} ] |};
     ScriptInspector.script :=
       {| ScriptInspector.name := "src/game.ts"; ScriptInspector.properties := None |};
     ScriptInspector.isMounted := true;
     ScriptInspector._scriptWatcher := None;
     ScriptInspector.Object_prototype := ∅ |}.

(** The options [_refreshDecorators] gives the compiler. *)
Definition decoratorsOptions : TypeScript.CompilerOptions :=
  {| TypeScript.module := TypeScript.ModuleKind_None;
     TypeScript.target := TypeScript.ES5;
     TypeScript.experimentalDecorators := true |}.

(** A stand-in for the TypeScript compiler in the examples, none of which
    depends on the code the compiler produces. *)
Definition sampleCompiler : TypeScriptModule :=
  {| transpile := fun source _ => source |}.

(** The sample component in an editor installed under [/opt/editor], with
    the workspace [/home/project]; no refresh has run yet. *)
Definition sampleWorld : ScriptInspector.World :=
  {| ScriptInspector.this := sampleInspector;
     ScriptInspector.watchers := [];
     ScriptInspector.tasks := [];
     ScriptInspector.AppPath := "/opt/editor";
     ScriptInspector.DirPath := "/home/project";
     ScriptInspector.unwatchable := [] |}.

(** What a step of a refresh leaves alone: the tasks of the other
    refreshes, the two paths, the selected object's script and the file
    system. *)
Definition sameSetting (w w' : ScriptInspector.World) : Prop :=
  ScriptInspector.tasks w' = ScriptInspector.tasks w
  /\ ScriptInspector.AppPath w' = ScriptInspector.AppPath w
  /\ ScriptInspector.DirPath w' = ScriptInspector.DirPath w
  /\ ScriptInspector.script (ScriptInspector.this w')
     = ScriptInspector.script (ScriptInspector.this w)
  /\ ScriptInspector.unwatchable w' = ScriptInspector.unwatchable w.

(** The calls of [_refreshDecorators]. *)
Definition decoratorsCall (e : ScriptInspector.Event) : bool :=
  match e with
  | ScriptInspector.Call (ScriptInspector.readFile _ _)
  | ScriptInspector.Call (ScriptInspector.ExecuteCode _ _) => true
  | _ => false
  end.

(** *** The order of a refresh *)

(** [k] unsuccessful polls for the compiled script, each followed by a wait
    of 500 ms. *)
Fixpoint polls (jsPath : string) (k : nat) : list ScriptInspector.Event :=
  match k with
  | O => []
  | S k' =>
      polls jsPath k'
      ++ [ScriptInspector.Call (ScriptInspector.pathExists jsPath);
          ScriptInspector.Settled (ScriptInspector.Exists false);
          ScriptInspector.Call (ScriptInspector.Wait 500);
          ScriptInspector.Settled ScriptInspector.Done]
  end.

(** The watcher [previous] found in [_scriptWatcher], if any, is closed. *)
Definition previousStopped (previous : option nat) : list ScriptInspector.Event :=
  match previous with
  | Some r => [ScriptInspector.Call (ScriptInspector.close r)]
  | None => []
  end.

(** The log of a refresh from its call to the reading of the decorators:
    the watcher [previous] found in [_scriptWatcher], if any, is closed, the
    state is set to refreshing, and the decorators' file, under the
    application's path, is read. *)
Definition refreshStarted `{PathModule} (appPath : string)
    (previous : option nat) : list ScriptInspector.Event :=
  previousStopped previous
  ++ [ScriptInspector.Call
        (ScriptInspector.setState
           {| ScriptInspector.patch_refresing := Some true;
              ScriptInspector.patch_inspectorValues := None |});
      ScriptInspector.Call
        (ScriptInspector.readFile
           (join [appPath; "assets"; "scripts"; "decorators.ts"])
           "utf-8")].

(** The decorators are transpiled and executed. *)
Definition decoratorsExecuted `{TypeScriptModule} (decorators : string)
  : list ScriptInspector.Event :=
  [ScriptInspector.Settled (ScriptInspector.File decorators);
   ScriptInspector.Call
     (ScriptInspector.ExecuteCode (transpile decorators decoratorsOptions)
        "__editor__decorators__.js")].

(** The three steps in the order of the specification: the compiled script
    is waited for, polled every 500 ms until it exists; a watcher [r] is
    installed on it; the sandbox is asked for its exported values. *)
Definition waitedWatchedAsked (jsPath : string) (k r : nat) : list ScriptInspector.Event :=
  polls jsPath k
  ++ [ScriptInspector.Call (ScriptInspector.pathExists jsPath);
      ScriptInspector.Settled (ScriptInspector.Exists true);
      ScriptInspector.Call (ScriptInspector.watch jsPath "utf-8" (Some r));
      ScriptInspector.Call (ScriptInspector.GetInspectorValues jsPath)].

(** The sandbox's answer is stored in the component's state. *)
Definition resultStored (values : option (list Sandbox.IExportedInspectorValue))
  : list ScriptInspector.Event :=
  [ScriptInspector.Settled (ScriptInspector.Values values);
   ScriptInspector.Call
     (ScriptInspector.setState
        {| ScriptInspector.patch_refresing := Some false;
           ScriptInspector.patch_inspectorValues := Some (default [] values) |})].

(** A log in which every question to the sandbox comes right after the
    installation of a watcher on the same file, itself right after a
    successful poll for that file. *)
Definition waitsWatchesThenAsks (l : list ScriptInspector.Event) : Prop :=
  forall l1 l2 jsPath,
    l = l1 ++ ScriptInspector.Call (ScriptInspector.GetInspectorValues jsPath) :: l2 ->
    exists l0 r,
      l1 = l0 ++ [ScriptInspector.Call (ScriptInspector.pathExists jsPath);
                  ScriptInspector.Settled (ScriptInspector.Exists true);
                  ScriptInspector.Call (ScriptInspector.watch jsPath "utf-8" (Some r))].

(** The questions to the sandbox about a script's exported values. *)
Definition isAsk (e : ScriptInspector.Event) : bool :=
  match e with
  | ScriptInspector.Call (ScriptInspector.GetInspectorValues _) => true
  | _ => false
  end.

(** The refreshes that have returned. *)
Definition finished (ts : list ScriptInspector.Task) : Prop :=
  Forall (fun t => ScriptInspector.at_ t = ScriptInspector.Returned) ts.

(** The actions of a run in which no second refresh starts: answers to the
    refresh in progress, the unmounting of the component, and changes of
    the file system. *)
Definition undisturbed (a : ScriptInspector.Action) : Prop :=
  match a with
  | ScriptInspector.Settle _ _ | ScriptInspector.Unmount
  | ScriptInspector.FileSystem _ => True
  | _ => False
  end.

(** The log of a refresh when the decorators have been executed. *)
Definition decoratorsDone `{PathModule} `{TypeScriptModule} (appPath : string)
    (previous : option nat) (decorators : string) : list ScriptInspector.Event :=
  refreshStarted appPath previous
  ++ decoratorsExecuted decorators
  ++ [ScriptInspector.Settled ScriptInspector.Done].

(** The logs of a refresh, by the [await] it is suspended at and, when it
    has returned, by the way it has ended; [skipped] tells whether the
    refresh has found a watcher in [_scriptWatcher] at line 281 and so
    skipped the wait and the installation. *)
Inductive refreshLog `{PathModule} `{TypeScriptModule} (appPath : string)
  : bool -> ScriptInspector.Await -> list ScriptInspector.Event -> Prop :=
| log_no_script (previous : option nat) :
    (* line 267: no script is attached *)
    refreshLog appPath false ScriptInspector.Returned
      (previousStopped previous ++ [ScriptInspector.Call ScriptInspector.forceUpdate])
| log_reading (previous : option nat) :
    refreshLog appPath false ScriptInspector.AwaitReadFile
      (refreshStarted appPath previous)
| log_not_read (previous : option nat) (reason : string) :
    (* the decorators' file cannot be read *)
    refreshLog appPath false ScriptInspector.Returned
      (refreshStarted appPath previous
       ++ [ScriptInspector.Settled (ScriptInspector.Rejection reason)])
| log_executing (previous : option nat) (decorators : string) :
    refreshLog appPath false ScriptInspector.AwaitExecuteCode
      (refreshStarted appPath previous ++ decoratorsExecuted decorators)
| log_not_executed (previous : option nat) (decorators reason : string) :
    (* the sandbox fails to execute the decorators *)
    refreshLog appPath false ScriptInspector.Returned
      (refreshStarted appPath previous ++ decoratorsExecuted decorators
       ++ [ScriptInspector.Settled (ScriptInspector.Rejection reason)])
| log_polling (previous : option nat) (decorators jsPath : string) (k : nat) :
    refreshLog appPath false (ScriptInspector.AwaitPathExists jsPath)
      (decoratorsDone appPath previous decorators
       ++ polls jsPath k
       ++ [ScriptInspector.Call (ScriptInspector.pathExists jsPath)])
| log_waiting (previous : option nat) (decorators jsPath : string) (k : nat) :
    refreshLog appPath false (ScriptInspector.AwaitWait jsPath)
      (decoratorsDone appPath previous decorators
       ++ polls jsPath k
       ++ [ScriptInspector.Call (ScriptInspector.pathExists jsPath);
           ScriptInspector.Settled (ScriptInspector.Exists false);
           ScriptInspector.Call (ScriptInspector.Wait 500)])
| log_left (previous : option nat) (decorators jsPath : string) (k : nat) :
    (* line 276: the name has no extension ([k] is 0); or line 286: the
       component is found unmounted by the loop's condition *)
    refreshLog appPath false ScriptInspector.Returned
      (decoratorsDone appPath previous decorators ++ polls jsPath k)
| log_found_unmounted (previous : option nat) (decorators jsPath : string) (k : nat) :
    (* line 286: the component is unmounted when the file is found *)
    refreshLog appPath false ScriptInspector.Returned
      (decoratorsDone appPath previous decorators
       ++ polls jsPath k
       ++ [ScriptInspector.Call (ScriptInspector.pathExists jsPath);
           ScriptInspector.Settled (ScriptInspector.Exists true)])
| log_not_watched (previous : option nat) (decorators jsPath : string) (k : nat) :
    (* line 288: [watch] throws *)
    refreshLog appPath false ScriptInspector.Returned
      (decoratorsDone appPath previous decorators
       ++ polls jsPath k
       ++ [ScriptInspector.Call (ScriptInspector.pathExists jsPath);
           ScriptInspector.Settled (ScriptInspector.Exists true);
           ScriptInspector.Call (ScriptInspector.watch jsPath "utf-8" None)])
| log_asking (previous : option nat) (decorators jsPath : string) (k r : nat) :
    refreshLog appPath false (ScriptInspector.AwaitGetInspectorValues jsPath)
      (decoratorsDone appPath previous decorators ++ waitedWatchedAsked jsPath k r)
| log_stored (previous : option nat) (decorators jsPath : string) (k r : nat)
    (values : option (list Sandbox.IExportedInspectorValue)) :
    refreshLog appPath false ScriptInspector.Returned
      (decoratorsDone appPath previous decorators ++ waitedWatchedAsked jsPath k r
       ++ resultStored values)
| log_not_answered (previous : option nat) (decorators jsPath : string) (k r : nat)
    (reason : string) :
    (* the sandbox fails to extract the values *)
    refreshLog appPath false ScriptInspector.Returned
      (decoratorsDone appPath previous decorators ++ waitedWatchedAsked jsPath k r
       ++ [ScriptInspector.Settled (ScriptInspector.Rejection reason)])
| log_asking_at_once (previous : option nat) (decorators jsPath : string) :
    refreshLog appPath true (ScriptInspector.AwaitGetInspectorValues jsPath)
      (decoratorsDone appPath previous decorators
       ++ [ScriptInspector.Call (ScriptInspector.GetInspectorValues jsPath)])
| log_stored_at_once (previous : option nat) (decorators jsPath : string)
    (values : option (list Sandbox.IExportedInspectorValue)) :
    refreshLog appPath true ScriptInspector.Returned
      (decoratorsDone appPath previous decorators
       ++ [ScriptInspector.Call (ScriptInspector.GetInspectorValues jsPath)]
       ++ resultStored values)
| log_not_answered_at_once (previous : option nat) (decorators jsPath reason : string) :
    refreshLog appPath true ScriptInspector.Returned
      (decoratorsDone appPath previous decorators
       ++ [ScriptInspector.Call (ScriptInspector.GetInspectorValues jsPath)]
       ++ [ScriptInspector.Settled (ScriptInspector.Rejection reason)]).

(** Whether the action [a], done in [w], takes the refresh numbered [i]
    to line 281 with a watcher in [_scriptWatcher]: the execution of the
    decorators, which the refresh awaits, ends; the script's name has an
    extension (else line 276 returns); and [_scriptWatcher] is not
    [null]. *)
Definition findsWatcher `{PathModule} (i : nat) (a : ScriptInspector.Action)
    (w : ScriptInspector.World) : bool :=
  match a with
  | ScriptInspector.Settle j ScriptInspector.Done =>
      Nat.eqb j i
      && match ScriptInspector.at_ <$> ScriptInspector.tasks w !! i with
         | Some ScriptInspector.AwaitExecuteCode => true
         | _ => false
         end
      && match ScriptInspector.jsPathOf w with Some _ => true | None => false end
      && match ScriptInspector._scriptWatcher (ScriptInspector.this w) with
         | Some _ => true
         | None => false
         end
  | _ => false
  end.

(** Whether, in the run of [actions] from [w], the refresh numbered [i]
    finds a watcher at line 281. *)
Fixpoint skips `{PathModule} `{TypeScriptModule} (i : nat)
    (actions : list ScriptInspector.Action) (w : ScriptInspector.World) : bool :=
  match actions with
  | [] => false
  | a :: rest => findsWatcher i a w || skips i rest (ScriptInspector.act a w)
  end.

(** What the log of a refresh says of its decorators: the refresh has
    stopped at once for want of a script; or it has read the decorators'
    file under the application's path, as UTF-8, and awaits it; or the file
    could not be read, and the refresh has ended; or the file's contents
    have been transpiled with the options of [decoratorsOptions] and
    executed under the name [__editor__decorators__.js], after which the
    refresh reads no file and executes no code. *)
Definition decoratorsRefreshed `{PathModule} `{TypeScriptModule}
    (appPath : string) (t : ScriptInspector.Task) : Prop :=
  exists previous : option nat,
    (ScriptInspector.at_ t = ScriptInspector.Returned
     /\ ScriptInspector.log t
        = previousStopped previous ++ [ScriptInspector.Call ScriptInspector.forceUpdate])
    \/ (ScriptInspector.at_ t = ScriptInspector.AwaitReadFile
        /\ ScriptInspector.log t = refreshStarted appPath previous)
    \/ (exists reason,
          ScriptInspector.at_ t = ScriptInspector.Returned
          /\ ScriptInspector.log t
             = refreshStarted appPath previous
               ++ [ScriptInspector.Settled (ScriptInspector.Rejection reason)])
    \/ (exists decorators rest,
          ScriptInspector.at_ t <> ScriptInspector.AwaitReadFile
          /\ ScriptInspector.log t
             = refreshStarted appPath previous
               ++ [ScriptInspector.Settled (ScriptInspector.File decorators);
                   ScriptInspector.Call
                     (ScriptInspector.ExecuteCode
                        (transpile decorators
                           {| TypeScript.module := TypeScript.ModuleKind_None;
                              TypeScript.target := TypeScript.ES5;
                              TypeScript.experimentalDecorators := true |})
                        "__editor__decorators__.js")]
               ++ rest
          /\ Forall (fun e => decoratorsCall e = false) rest).

(** *** Sample runs *)

(** A refresh that polls twice before the compiled script exists, and whose
    question the sandbox does not answer with a list. *)
Definition quietRefresh : list ScriptInspector.Action :=
  [ScriptInspector.Settle 0 (ScriptInspector.File "export function visibleInInspector() {}");
   ScriptInspector.Settle 0 ScriptInspector.Done;
   ScriptInspector.Settle 0 (ScriptInspector.Exists false);
   ScriptInspector.Settle 0 ScriptInspector.Done;
   ScriptInspector.Settle 0 (ScriptInspector.Exists true);
   ScriptInspector.Settle 0 (ScriptInspector.Values None)].

(** A second refresh starts while the first one polls for the compiled
    [src/game.js]; that file appears while the second refresh reads the
    decorators. *)
Definition refreshWhilePolling : list ScriptInspector.Action :=
  [ScriptInspector.Refresh;
   ScriptInspector.Settle 0 (ScriptInspector.File "");
   ScriptInspector.Settle 0 ScriptInspector.Done;
   ScriptInspector.Refresh;
   ScriptInspector.Settle 0 (ScriptInspector.Exists true);
   ScriptInspector.Settle 1 (ScriptInspector.File "");
   ScriptInspector.Settle 1 ScriptInspector.Done].

(** The same run, the second refresh coming from the user picking another
    script in the list. *)
Definition scriptChangedWhilePolling : list ScriptInspector.Action :=
  [ScriptInspector.Refresh;
   ScriptInspector.Settle 0 (ScriptInspector.File "");
   ScriptInspector.Settle 0 ScriptInspector.Done;
   ScriptInspector.ListChange "src/menu.ts";
   ScriptInspector.Settle 0 (ScriptInspector.Exists true);
   ScriptInspector.Settle 1 (ScriptInspector.File "");
   ScriptInspector.Settle 1 ScriptInspector.Done].

(** A second refresh starts while the first one polls; both find the
    compiled script; then the component is unmounted. *)
Definition refreshTwiceThenUnmount : list ScriptInspector.Action :=
  [ScriptInspector.Refresh;
   ScriptInspector.Settle 0 (ScriptInspector.File "");
   ScriptInspector.Settle 0 ScriptInspector.Done;
   ScriptInspector.Refresh;
   ScriptInspector.Settle 1 (ScriptInspector.File "");
   ScriptInspector.Settle 1 ScriptInspector.Done;
   ScriptInspector.Settle 0 (ScriptInspector.Exists true);
   ScriptInspector.Settle 1 (ScriptInspector.Exists true);
   ScriptInspector.Unmount].

(** The compiled script changes while the first refresh awaits the
    sandbox: the watcher's event starts a second refresh, which closes the
    watcher, waits, installs a watcher of its own and asks in its turn. *)
Definition changeWhileAsking : list ScriptInspector.Action :=
  [ScriptInspector.Refresh;
   ScriptInspector.Settle 0 (ScriptInspector.File "");
   ScriptInspector.Settle 0 ScriptInspector.Done;
   ScriptInspector.Settle 0 (ScriptInspector.Exists true);
   ScriptInspector.WatchEvent 0 "change";
   ScriptInspector.Settle 1 (ScriptInspector.File "");
   ScriptInspector.Settle 1 ScriptInspector.Done;
   ScriptInspector.Settle 1 (ScriptInspector.Exists true);
   ScriptInspector.Settle 0 (ScriptInspector.Values None);
   ScriptInspector.Settle 1 (ScriptInspector.Values None)].

(** *** Watchers and the component's life *)

(** A refresh suspended in the loop that polls for [jsPath] (lines 282 to
    284). *)
Definition polling (a : ScriptInspector.Await) (jsPath : string) : Prop :=
  a = ScriptInspector.AwaitPathExists jsPath \/ a = ScriptInspector.AwaitWait jsPath.

(** The installation of a watcher and the question to the sandbox. *)
Definition installsOrAsks (e : ScriptInspector.Event) : bool :=
  match e with
  | ScriptInspector.Call (ScriptInspector.watch _ _ _)
  | ScriptInspector.Call (ScriptInspector.GetInspectorValues _) => true
  | _ => false
  end.


(** Every open watcher is the one [_scriptWatcher] refers to, and belongs
    to a mounted component. *)
Definition watcherOwned (w : ScriptInspector.World) : Prop :=
  forall r fw,
    ScriptInspector.watchers w !! r = Some fw ->
    ScriptInspector.closed fw = false ->
    ScriptInspector._scriptWatcher (ScriptInspector.this w) = Some r
    /\ ScriptInspector.isMounted (ScriptInspector.this w) = true.


(** The answers that take the refresh numbered [i] through all its steps:
    the decorators' file, the end of their execution, [k] polls that do
    not find the compiled script, each followed by the end of the wait, the
    poll that finds it, and the sandbox's answer. *)
Definition answered (i : nat) (decorators : string) (k : nat)
    (values : option (list Sandbox.IExportedInspectorValue))
  : list ScriptInspector.Action :=
  [ScriptInspector.Settle i (ScriptInspector.File decorators);
   ScriptInspector.Settle i ScriptInspector.Done]
  ++ concat (replicate k [ScriptInspector.Settle i (ScriptInspector.Exists false);
                          ScriptInspector.Settle i ScriptInspector.Done])
  ++ [ScriptInspector.Settle i (ScriptInspector.Exists true);
      ScriptInspector.Settle i (ScriptInspector.Values values)].

(** The watchers once a refresh has closed the one [_scriptWatcher]
    referred to. *)
Definition previousClosed (w : ScriptInspector.World) : list ScriptInspector.FSWatcher :=
  match ScriptInspector._scriptWatcher (ScriptInspector.this w) with
  | Some r => ScriptInspector.closeWatcher r (ScriptInspector.watchers w)
  | None => ScriptInspector.watchers w
  end.

(** The refresh started in [w0] is suspended at [a] with the log [l]; the
    component is mounted, no watcher is installed and the file system is
    as it was. *)
Definition refreshAt (w0 w : ScriptInspector.World) (a : ScriptInspector.Await)
    (l : list ScriptInspector.Event) : Prop :=
  ScriptInspector.tasks w
  = ScriptInspector.tasks w0 ++ [{| ScriptInspector.at_ := a; ScriptInspector.log := l |}]
  /\ ScriptInspector.isMounted (ScriptInspector.this w) = true
  /\ ScriptInspector.script (ScriptInspector.this w)
     = ScriptInspector.script (ScriptInspector.this w0)
  /\ ScriptInspector.DirPath w = ScriptInspector.DirPath w0
  /\ ScriptInspector._scriptWatcher (ScriptInspector.this w) = None
  /\ ScriptInspector.watchers w = previousClosed w0
  /\ ScriptInspector.unwatchable w = ScriptInspector.unwatchable w0.

(** *** Watchers over whole runs *)

(** The watchers [ws'] are the watchers [ws], some of them closed
    meanwhile: none was added, none watches another file, none was
    opened again. *)
Definition watchersKept (ws ws' : list ScriptInspector.FSWatcher) : Prop :=
  Forall2 (fun fw fw' =>
             ScriptInspector.filename fw' = ScriptInspector.filename fw
             /\ (ScriptInspector.closed fw = true -> ScriptInspector.closed fw' = true))
          ws ws'.



(** *** The content of the script inspector *)

(** The name of the script attached to the selected object, ["None"] when
    the object has no metadata, no script or no name. *)
Definition nameOf (c : ScriptInspectorView.Component) : string :=
  match ScriptInspectorView.metadata c with
  | Some {| ScriptInspectorView.script :=
              Some {| ScriptInspectorView.name := Some n |} |} => n
  | _ => "None"
  end.

(** The stored properties of the selected object's script, if any. *)
Definition propertiesOf (c : ScriptInspectorView.Component)
  : option (gmap string ScriptInspector.Property) :=
  match ScriptInspectorView.metadata c with
  | Some {| ScriptInspectorView.script := Some s |} => ScriptInspectorView.properties s
  | _ => None
  end.

(** The component [renderContent] works on once the metadata has its
    defaults. *)
Definition attached (c : ScriptInspectorView.Component) : ScriptInspector.ScriptInspector :=
  {| ScriptInspector.state := ScriptInspectorView.state c;
     ScriptInspector.script :=
       {| ScriptInspector.name := nameOf c;
          ScriptInspector.properties := propertiesOf c |};
     ScriptInspector.isMounted := ScriptInspectorView.isMounted c;
     ScriptInspector._scriptWatcher := ScriptInspectorView._scriptWatcher c;
     ScriptInspector.Object_prototype := ScriptInspectorView.Object_prototype c |}.

(** The selected object with its metadata filled in: the script named [n]
    with the properties [ps]. *)
Definition withScript (c : ScriptInspectorView.Component) (n : string)
    (ps : option (gmap string ScriptInspector.Property)) : ScriptInspectorView.Component :=
  {| ScriptInspectorView.state := ScriptInspectorView.state c;
     ScriptInspectorView.metadata :=
       Some {| ScriptInspectorView.script :=
                 Some {| ScriptInspectorView.name := Some n;
                         ScriptInspectorView.properties := ps |} |};
     ScriptInspectorView.isMounted := ScriptInspectorView.isMounted c;
     ScriptInspectorView._scriptWatcher := ScriptInspectorView._scriptWatcher c;
     ScriptInspectorView.Object_prototype := ScriptInspectorView.Object_prototype c |}.

(** The component once [Object.prototype] holds the values [prototype]. *)
Definition withPrototype (c : ScriptInspectorView.Component)
    (prototype : gmap string Js.Value) : ScriptInspectorView.Component :=
  {| ScriptInspectorView.state := ScriptInspectorView.state c;
     ScriptInspectorView.metadata := ScriptInspectorView.metadata c;
     ScriptInspectorView.isMounted := ScriptInspectorView.isMounted c;
     ScriptInspectorView._scriptWatcher := ScriptInspectorView._scriptWatcher c;
     ScriptInspectorView.Object_prototype := prototype |}.

(** A freshly created object, without metadata, in a new inspector. *)
Definition sampleComponent : ScriptInspectorView.Component :=
  ScriptInspectorView.constructor None ∅.

(** *** The content of the rendering inspector *)

(** The controls of a content: the object each is bound to and the
    property it edits, in the order of the content. *)
Fixpoint bound (e : RenderingInspectorView.Element)
  : list (RenderingInspectorView.Target * string) :=
  match e with
  | RenderingInspectorView.InspectorNumber o p _ _ _ _
  | RenderingInspectorView.InspectorBoolean o p _ _
  | RenderingInspectorView.InspectorVector2 o p _ _
  | RenderingInspectorView.InspectorList o p _ _ _ => [(o, p)]
  | RenderingInspectorView.InspectorSection _ children
  | RenderingInspectorView.Fragment children => List.flat_map bound children
  end.

#[global] Instance Target_eq_dec : EqDecision RenderingInspectorView.Target.
Proof. solve_decision. Defined.

(** When an object may have controls: the inspector's own state always;
    a post-process when the state has it enabled and the object exists; a
    part of the default pipeline when moreover the state has the part
    enabled. *)
Definition editable (state : RenderingInspector.IRendererInspectorState)
    (settings : RenderingInspectorView.SceneSettings)
    (o : RenderingInspectorView.Target) : Prop :=
  let default := RenderingInspector.default state in
  let pipeline :=
    RenderingInspector.enabled default = true
    /\ is_Some (RenderingInspectorView.DefaultPipeline settings) in
  match o with
  | RenderingInspectorView.this_state
  | RenderingInspectorView.this_state_default => True
  | RenderingInspectorView.SceneSettings_SSAOPipeline =>
      RenderingInspector.ssao2Enabled state = true
      /\ is_Some (RenderingInspectorView.SSAOPipeline settings)
  | RenderingInspectorView.SceneSettings_MotionBlurPostProcess =>
      RenderingInspector.motionBlurEnabled state = true
      /\ is_Some (RenderingInspectorView.MotionBlurPostProcess settings)
  | RenderingInspectorView.SceneSettings_ScreenSpaceReflectionsPostProcess =>
      RenderingInspector.ssrEnabled state = true
      /\ is_Some (RenderingInspectorView.ScreenSpaceReflectionsPostProcess settings)
  | RenderingInspectorView.SceneSettings_DefaultPipeline => pipeline
  | RenderingInspectorView.SceneSettings_DefaultPipeline_imageProcessing =>
      pipeline /\ RenderingInspector.imageProcessingEnabled default = true
  | RenderingInspectorView.SceneSettings_DefaultPipeline_sharpen =>
      pipeline /\ RenderingInspector.sharpenEnabled default = true
  | RenderingInspectorView.SceneSettings_DefaultPipeline_depthOfField =>
      pipeline /\ RenderingInspector.depthOfFieldEnabled default = true
  | RenderingInspectorView.SceneSettings_DefaultPipeline_chromaticAberration =>
      pipeline /\ RenderingInspector.chromaticAberrationEnabled default = true
  end.

(** The controls of the five parts of the default pipeline, the part's
    own checkbox apart. *)
Definition imageProcessingControls : list (RenderingInspectorView.Target * string) :=
  [(RenderingInspectorView.SceneSettings_DefaultPipeline_imageProcessing, "exposure");
   (RenderingInspectorView.SceneSettings_DefaultPipeline_imageProcessing, "contrast");
   (RenderingInspectorView.SceneSettings_DefaultPipeline_imageProcessing,
    "toneMappingEnabled");
   (RenderingInspectorView.SceneSettings_DefaultPipeline_imageProcessing,
    "fromLinearSpace")].

Definition bloomControls : list (RenderingInspectorView.Target * string) :=
  [(RenderingInspectorView.SceneSettings_DefaultPipeline, "bloomKernel");
   (RenderingInspectorView.SceneSettings_DefaultPipeline, "bloomWeight");
   (RenderingInspectorView.SceneSettings_DefaultPipeline, "bloomThreshold");
   (RenderingInspectorView.SceneSettings_DefaultPipeline, "bloomScale")].

Definition sharpenControls : list (RenderingInspectorView.Target * string) :=
  [(RenderingInspectorView.SceneSettings_DefaultPipeline_sharpen, "edgeAmount");
   (RenderingInspectorView.SceneSettings_DefaultPipeline_sharpen, "colorAmount")].

Definition depthOfFieldControls : list (RenderingInspectorView.Target * string) :=
  [(RenderingInspectorView.SceneSettings_DefaultPipeline_depthOfField, "focusDistance");
   (RenderingInspectorView.SceneSettings_DefaultPipeline_depthOfField, "fStop");
   (RenderingInspectorView.SceneSettings_DefaultPipeline_depthOfField, "focalLength");
   (RenderingInspectorView.SceneSettings_DefaultPipeline, "depthOfFieldBlurLevel")].

Definition chromaticAberrationControls : list (RenderingInspectorView.Target * string) :=
  [(RenderingInspectorView.SceneSettings_DefaultPipeline_chromaticAberration,
    "aberrationAmount");
   (RenderingInspectorView.SceneSettings_DefaultPipeline_chromaticAberration,
    "radialIntensity");
   (RenderingInspectorView.SceneSettings_DefaultPipeline_chromaticAberration, "direction");
   (RenderingInspectorView.SceneSettings_DefaultPipeline_chromaticAberration,
    "centerPosition")].

(** An engine with the default pipeline alone, bloom and sharpen on. *)
Definition sampleSettings : RenderingInspectorView.SceneSettings :=
  {| RenderingInspectorView.enabled :=
       {| RenderingInspector.IsSSAOEnabled := false;
          RenderingInspector.IsMotionBlurEnabled := false;
          RenderingInspector.IsScreenSpaceReflectionsEnabled := false |};
     RenderingInspectorView.IsDefaultPipelineEnabled := true;
     RenderingInspectorView.SSAOPipeline := None;
     RenderingInspectorView.MotionBlurPostProcess := None;
     RenderingInspectorView.ScreenSpaceReflectionsPostProcess := None;
     RenderingInspectorView.DefaultPipeline :=
       Some {| RenderingInspectorView.imageProcessingEnabled := false;
               RenderingInspectorView.bloomEnabled := true;
               RenderingInspectorView.sharpenEnabled := true;
               RenderingInspectorView.depthOfFieldEnabled := false;
               RenderingInspectorView.chromaticAberrationEnabled := false |} |}.

(** *** Paths outside the assets directory *)

(** [s.includes(pat)]: whether [pat] occurs in [s]. *)
Fixpoint includes (pat s : string) : bool :=
  Js.startsWith pat s
  || match s with
     | "" => false
     | String _ s' => includes pat s'
     end.

(* ===================================================================== *)
(** * Properties *)
(* ===================================================================== *)

(** ** Strings *)

Lemma startsWith_app (p s : string) : Js.startsWith p (p +:+ s) = true.
Proof.
  induction p as [|a p IH]; simpl; [reflexivity|].
  rewrite Ascii.eqb_refl. exact IH.
Qed.

Lemma drop_app (p s : string) : Js.drop (String.length p) (p +:+ s) = s.
Proof. induction p as [|a p IH]; simpl; [by destruct s | exact IH]. Qed.

(** Replacing a prefix by the empty string leaves what follows it. *)
Lemma replace_prefix (p s : string) : Js.replace (p +:+ s) p "" = s.
Proof.
  destruct p as [|a p].
  - simpl. destruct s; reflexivity.
  - change (Js.replace (String a p +:+ s) (String a p) "")
      with (if Js.startsWith (String a p) (String a p +:+ s)
            then "" +:+ Js.drop (String.length (String a p)) (String a p +:+ s)
            else String a (Js.replace (p +:+ s) (String a p) "")).
    rewrite startsWith_app, drop_app. reflexivity.
Qed.

Lemma startsWith_refl (s : string) : Js.startsWith s s = true.
Proof. induction s as [|a s IH]; cbn; [done|]. by rewrite Ascii.eqb_refl. Qed.

Lemma take_app (p s : string) : Js.take (String.length p) (p +:+ s) = p.
Proof.
  induction p as [|a p IH]; [by destruct s|].
  change (String a (Js.take (String.length p) (p +:+ s)) = String a p).
  by rewrite IH.
Qed.

Lemma length_append (p s : string) :
  String.length (p +:+ s) = String.length p + String.length s.
Proof.
  induction p as [|a p IH]; [done|].
  change (S (String.length (p +:+ s)) = S (String.length p + String.length s)).
  by rewrite IH.
Qed.

(** The last occurrence of a suffix is where the suffix starts. *)
Lemma lastIndexOf_suffix (stem ext : string) :
  Js.lastIndexOf (stem +:+ ext) ext = Z.of_nat (String.length stem).
Proof.
  unfold Js.lastIndexOf. rewrite length_append.
  replace (Nat.leb (String.length ext) (String.length stem + String.length ext))
    with true by (symmetry; apply Nat.leb_le; lia).
  replace (String.length stem + String.length ext - String.length ext)
    with (String.length stem) by lia.
  assert (E : Js.startsWith ext (Js.drop (String.length stem) (stem +:+ ext)) = true)
    by (rewrite drop_app; apply startsWith_refl).
  destruct (String.length stem); cbn [Js.lastIndexOf_from]; by rewrite E.
Qed.

(** ** The video move handler *)

Section VideoMoveFacts.
Context `{PathModule}.
Import VideoMove.

Lemma moved_idem dir from to o :
  moved dir from to (moved dir from to o) = moved dir from to o.
Proof.
  unfold moved. destruct (String.eqb (join [dir; name o]) from) eqn:E; simpl.
  - match goal with |- context [String.eqb ?a from] => destruct (String.eqb a from) end;
      reflexivity.
  - by rewrite E.
Qed.

Lemma moveTexture_editor this from to w tex :
  editor (moveTexture this from to w tex) = editor w.
Proof.
  unfold moveTexture, _editor. cbv beta. destruct (heap w !! tex); [|done].
  by destruct (String.eqb _ from).
Qed.

Lemma moveTexture_lookup this from to w tex r :
  heap (moveTexture this from to w tex) !! r =
    if decide (r = tex)
    then moved (assetsDirectory (assetsBrowser (editor w))) from to <$> heap w !! r
    else heap w !! r.
Proof.
  unfold moveTexture, moved, _editor. cbv beta. case_decide as E.
  - subst r. destruct (heap w !! tex) as [o|] eqn:L; [|by rewrite L].
    simpl. destruct (String.eqb _ from); simpl.
    + by rewrite lookup_insert_eq.
    + by rewrite L.
  - destruct (heap w !! tex) as [o|]; [|done].
    destruct (String.eqb _ from); simpl; [|done].
    by rewrite lookup_insert_ne.
Qed.

Lemma forEach_editor this from to l : forall w,
  editor (foldl (moveTexture this from to) w l) = editor w.
Proof.
  induction l as [|a l IH]; intros w; simpl; [done|].
  by rewrite IH, moveTexture_editor.
Qed.

(** The store after the [forEach] of [moveFile] over the references [l]. *)
Lemma forEach_lookup this from to l : forall w r,
  heap (foldl (moveTexture this from to) w l) !! r =
    if decide (r ∈ l)
    then moved (assetsDirectory (assetsBrowser (editor w))) from to <$> heap w !! r
    else heap w !! r.
Proof.
  induction l as [|a l IH]; intros w r; simpl.
  - reflexivity.
  - rewrite IH, moveTexture_editor, moveTexture_lookup.
    repeat case_decide; subst; try done;
      try (exfalso;
           match goal with
           | Hn : ¬ _ ∈ _ :: _ |- _ => apply Hn, elem_of_cons; by auto
           | Hi : _ ∈ _ :: _ |- _ => apply elem_of_cons in Hi; by destruct Hi
           end).
    destruct (heap w !! a); simpl; [|done]. by rewrite moved_idem.
Qed.

(** The store after [moveFile]. *)
Lemma moveFile_lookup this from to w sc r :
  scene (editor w) = Some sc ->
  heap (snd (moveFile this from to w)) !! r =
    if decide (r ∈ textures sc /\ isVideo (heap w) r = true)
    then moved (assetsDirectory (assetsBrowser (editor w))) from to <$> heap w !! r
    else heap w !! r.
Proof.
  intros Hsc. unfold moveFile, _editor. rewrite Hsc. simpl.
  rewrite forEach_lookup.
  destruct (decide (r ∈ List.filter (isVideo (heap w)) (textures sc))) as [Hin|Hnin].
  - rewrite decide_True; [done|].
    apply list_elem_of_In, filter_In in Hin. by rewrite list_elem_of_In.
  - rewrite decide_False; [done|]. intros [Hin Hv]. apply Hnin.
    apply list_elem_of_In, filter_In. by rewrite <- list_elem_of_In.
Qed.

(** C1. After [moveFile(from, to)] with a scene loaded, every texture of
    the scene that is a [VideoTexture] and whose name joined onto the
    assets directory equals [from] has the name [to.replace(join(dir,
    "/"), "")]; when [to] starts with the assets directory and its
    separator, that name is [to] without this prefix. *)
Theorem moveFile_renames_matching_videos
    (this : AssetsBrowserVideoMoveHandler) (from to : string) (w : World)
    (sc : Scene) (r : Ref) (t : BaseTexture) :
  scene (editor w) = Some sc ->
  r ∈ textures sc ->
  heap w !! r = Some t ->
  instanceofVideoTexture t = true ->
  join [assetsDirectory (assetsBrowser (editor w)); name t] = from ->
  let prefix := join [assetsDirectory (assetsBrowser (editor w)); "/"] in
  heap (snd (moveFile this from to w)) !! r
    = Some (set_name (Js.replace to prefix "") t)
  /\ (forall rel, to = prefix +:+ rel ->
        heap (snd (moveFile this from to w)) !! r = Some (set_name rel t)).
Proof.
  intros Hsc Hin Hr Hv Hfrom prefix.
  assert (E : heap (snd (moveFile this from to w)) !! r
              = Some (set_name (Js.replace to prefix "") t)).
  { rewrite (moveFile_lookup _ _ _ _ sc) by done.
    rewrite decide_True.
    - rewrite Hr. simpl. unfold moved. rewrite Hfrom, String.eqb_refl. done.
    - split; [done|]. unfold isVideo. by rewrite Hr. }
  split; [exact E|].
  intros rel ->. rewrite E. unfold prefix. by rewrite replace_prefix.
Qed.

(** C4. With a scene loaded, [isFileUsed(path)] resolves to [true] exactly
    when some texture of the scene is a [VideoTexture] whose name is
    [path.replace(join(dir, "/"), "")], and it leaves the editor, the
    scene and every texture as they were. *)
Theorem isFileUsed_iff_video_named
    (this : AssetsBrowserVideoMoveHandler) (path : string) (w : World) (sc : Scene) :
  scene (editor w) = Some sc ->
  let relativePath :=
    Js.replace path (join [assetsDirectory (assetsBrowser (editor w)); "/"]) "" in
  exists b : bool,
    isFileUsed this path w = (Js.Resolved b, w)
    /\ (b = true <->
         exists r t, r ∈ textures sc /\ heap w !! r = Some t
                     /\ instanceofVideoTexture t = true /\ name t = relativePath)
    /\ (forall rel,
          path = join [assetsDirectory (assetsBrowser (editor w)); "/"] +:+ rel ->
          relativePath = rel).
Proof.
  intros Hsc relativePath. unfold isFileUsed, _editor. cbv beta. rewrite Hsc.
  fold relativePath.
  set (p := fun t : Ref =>
              match heap w !! t with
              | Some o => instanceofVideoTexture o && String.eqb (name o) relativePath
              | None => false
              end).
  destruct (List.find p (textures sc)) as [r|] eqn:F.
  - exists true. split; [done|]. split.
    + split; [|done]. intros _. apply find_some in F as [Hin Hp].
      unfold p in Hp. destruct (heap w !! r) as [t|] eqn:L; [|done].
      apply andb_true_iff in Hp as [Hv Hn]. apply String.eqb_eq in Hn.
      exists r, t. by rewrite list_elem_of_In.
    + intros rel ->. unfold relativePath. apply replace_prefix.
  - exists false. split; [done|]. split.
    + split; [done|]. intros (r & t & Hin & L & Hv & Hn).
      apply list_elem_of_In in Hin.
      pose proof (find_none _ _ F r Hin) as Hp. unfold p in Hp.
      rewrite L, Hv, Hn, String.eqb_refl in Hp. done.
    + intros rel ->. unfold relativePath. apply replace_prefix.
Qed.

(** C5. [moveFile(from, to)] changes nothing but the names of the matching
    video textures: the editor and its scene, with the list of textures,
    are as before; no texture object appears or disappears; a texture
    that is not a [VideoTexture], or whose name joined onto the assets
    directory differs from [from], or that is not in the scene's list, is
    unchanged; and a texture that changes keeps its class. *)
Theorem moveFile_changes_only_matching_names
    (this : AssetsBrowserVideoMoveHandler) (from to : string) (w : World) (sc : Scene) :
  scene (editor w) = Some sc ->
  let w' := snd (moveFile this from to w) in
  editor w' = editor w
  /\ scene (editor w') = Some sc
  /\ dom (heap w') = dom (heap w)
  /\ (forall r t, heap w !! r = Some t ->
        instanceofVideoTexture t = false
        \/ join [assetsDirectory (assetsBrowser (editor w)); name t] <> from
        \/ r ∉ textures sc ->
        heap w' !! r = Some t)
  /\ (forall r t', heap w' !! r = Some t' ->
        exists t, heap w !! r = Some t
                  /\ instanceofVideoTexture t' = instanceofVideoTexture t).
Proof.
  intros Hsc w'.
  assert (He : editor w' = editor w).
  { unfold w', moveFile, _editor. rewrite Hsc. simpl. apply forEach_editor. }
  split; [exact He|]. split; [by rewrite He|]. split; [|split].
  - apply set_eq. intros r. rewrite !elem_of_dom. unfold w'.
    rewrite (moveFile_lookup _ _ _ _ sc) by done.
    case_decide; [|done]. by rewrite fmap_is_Some.
  - intros r t L Hcase. unfold w'. rewrite (moveFile_lookup _ _ _ _ sc) by done.
    case_decide as D; [|done]. destruct D as [Hin Hv]. rewrite L. simpl.
    unfold isVideo in Hv. rewrite L in Hv. unfold moved.
    destruct Hcase as [Hc|[Hc|Hc]]; [congruence| |done].
    destruct (String.eqb _ from) eqn:E; [|done].
    apply String.eqb_eq in E. done.
  - intros r t' L. unfold w' in L. rewrite (moveFile_lookup _ _ _ _ sc) in L by done.
    case_decide; [|by exists t'].
    destruct (heap w !! r) as [t|]; [|done]. simpl in L. exists t. split; [done|].
    injection L as <-. unfold moved. by destruct (String.eqb _ from).
Qed.

(** C9. Both handlers need a scene: with [editor.scene] set they resolve,
    [isFileUsed] to a boolean and [moveFile] to nothing; with
    [editor.scene] null both reject with the [TypeError] of reading
    [textures] of null, and return no result. *)
Theorem handlers_presuppose_scene
    (this : AssetsBrowserVideoMoveHandler) (path from to : string)
    (ab : AssetsBrowser) (h : gmap Ref BaseTexture) :
  (forall sc : Scene,
      let w := {| editor := {| scene := Some sc; assetsBrowser := ab |}; heap := h |} in
      (exists b : bool, fst (isFileUsed this path w) = Js.Resolved b)
      /\ fst (moveFile this from to w) = Js.Resolved tt)
  /\ (let w := {| editor := {| scene := None; assetsBrowser := ab |}; heap := h |} in
      isFileUsed this path w = (Js.Rejected Js.TypeError, w)
      /\ moveFile this from to w = (Js.Rejected Js.TypeError, w)).
Proof.
  split.
  - intros sc w. split; [|reflexivity].
    unfold isFileUsed, _editor. simpl. eauto.
  - split; reflexivity.
Qed.

End VideoMoveFacts.

Lemma moveFile_renames_matching_videos_witness :
  VideoMove.heap
    (snd (VideoMove.moveFile (H := Posix.path) VideoMove.constructor
            "/home/assets/videos/intro.mp4" "/home/assets/movies/intro.mp4"
            sampleScene)) !! 0
  = Some {| VideoMove.instanceofVideoTexture := true;
            VideoMove.name := "movies/intro.mp4" |}.
Proof.
  refine (proj2 (@moveFile_renames_matching_videos Posix.path VideoMove.constructor
                   "/home/assets/videos/intro.mp4" "/home/assets/movies/intro.mp4"
                   sampleScene {| VideoMove.textures := [0; 1; 2] |} 0
                   {| VideoMove.instanceofVideoTexture := true;
                      VideoMove.name := "videos/intro.mp4" |}
                   _ _ _ _ _) "movies/intro.mp4" _).
  - reflexivity.
  - apply list_elem_of_here.
  - vm_compute. reflexivity.
  - reflexivity.
  - vm_compute. reflexivity.
  - vm_compute. reflexivity.
Defined.

Lemma isFileUsed_iff_video_named_witness :
  exists b : bool,
    VideoMove.isFileUsed (H := Posix.path) VideoMove.constructor
      "/home/assets/videos/outro.webm" sampleScene = (Js.Resolved b, sampleScene)
    /\ (b = true <->
         exists r t, r ∈ [0; 1; 2] /\ VideoMove.heap sampleScene !! r = Some t
                     /\ VideoMove.instanceofVideoTexture t = true
                     /\ VideoMove.name t = "videos/outro.webm").
Proof.
  destruct (@isFileUsed_iff_video_named Posix.path VideoMove.constructor
              "/home/assets/videos/outro.webm" sampleScene
              {| VideoMove.textures := [0; 1; 2] |} eq_refl)
    as (b & Hrun & Hiff & _).
  exists b. split; [exact Hrun | exact Hiff].
Defined.

Lemma moveFile_changes_only_matching_names_witness :
  VideoMove.scene
    (VideoMove.editor
       (snd (VideoMove.moveFile (H := Posix.path) VideoMove.constructor
               "/home/assets/videos/intro.mp4" "/home/assets/movies/intro.mp4"
               sampleScene)))
  = Some {| VideoMove.textures := [0; 1; 2] |}.
Proof.
  exact (proj1 (proj2 (@moveFile_changes_only_matching_names Posix.path
                         VideoMove.constructor
                         "/home/assets/videos/intro.mp4" "/home/assets/movies/intro.mp4"
                         sampleScene {| VideoMove.textures := [0; 1; 2] |} eq_refl))).
Defined.


(** ** Floating labels *)

Section DefaultSceneFacts.
Import DefaultScene.

Lemma added_app (container : Ref) (l k : list Call) :
  added container (l ++ k) = added container l ++ added container k.
Proof.
  induction l as [|c l IH]; [reflexivity|].
  destruct c as [? ? ?|? ? ?|p c|? ?]; cbn; try exact IH.
  destruct (Nat.eqb p container); cbn; by rewrite IH.
Qed.

(** The engine [CreateLabel] leaves and the rectangle it returns. *)
Lemma CreateLabel_calls
    (gui mesh : Ref) (str : string) (lines : bool) (width height : string) (e : Engine) :
  CreateLabel gui mesh str lines width height e =
    (created e,
     {| created := (if lines then 3 else 2) + created e;
        calls := calls e
                 ++ rectangleCalls gui (created e) str width height
                 ++ textCalls (created e) (S (created e)) str
                 ++ (if lines
                     then lineCalls gui mesh (created e) (S (S (created e)))
                     else [LinkWithMesh (created e) mesh]) |}).
Proof.
  destruct e as [n cs].
  destruct lines; cbn; rewrite <- ?app_assoc; reflexivity.
Qed.

(** C7. [CreateLabel(gui, mesh, str, lines, width, height)] creates a
    rectangle with [str] as its name, assigns its properties, and hands it
    to the GUI texture's [addControl]; it creates a text block, assigns it
    the text [str] and the colour white, and hands it to the rectangle's
    [addControl]; it returns the rectangle.  When [lines] is false it then
    calls [linkWithMesh] on the rectangle and creates nothing else.  When
    [lines] is true it creates a line, assigns it its dash, hands it to the
    texture's [addControl], calls [linkWithMesh] on the line and assigns
    the rectangle to its [connectedControl]; [linkWithMesh] is then not
    called on the rectangle.  These are all its calls, in this order; the
    rectangle, the text block and the line are new objects; the texture is
    handed the rectangle and the line and nothing else; the rectangle is
    handed the text block and nothing else; and [linkWithMesh] is called
    once, on a control the texture has been handed before. *)
Theorem CreateLabel_builds_label
    (gui mesh : Ref) (str : string) (lines : bool) (width height : string) (e : Engine) :
  gui < created e ->
  mesh < created e ->
  exists (label text line : Ref) (e' : Engine) (new : list Call),
    CreateLabel gui mesh str lines width height e = (label, e')
    /\ calls e' = calls e ++ new
    /\ gui < label /\ mesh < label /\ label < text /\ text < line
    /\ created e <= label
    /\ created e' = (if lines then S line else S text)
    /\ new =
         [New Rectangle (Some str) label;
          Assign label "background" (Js.VString "black");
          Assign label "height" (Js.VString height);
          Assign label "alpha" (Js.VNumber 0.5);
          Assign label "width" (Js.VString width);
          Assign label "cornerRadius" (Js.VNumber 20);
          Assign label "thickness" (Js.VNumber 1);
          Assign label "linkOffsetY" (Js.VNumber 30);
          Assign label "top" (Js.VString "0%");
          Assign label "zIndex" (Js.VNumber 5);
          Assign label "verticalAlignment" (Js.VStatic "Control.VERTICAL_ALIGNMENT_TOP");
          Assign label "horizontalAlignment" (Js.VStatic "Control.HORIZONTAL_ALIGNMENT_RIGHT");
          AddControl gui label;
          New TextBlock None text;
          Assign text "text" (Js.VString str);
          Assign text "color" (Js.VString "white");
          AddControl label text]
         ++ (if lines then
               [New Line None line;
                Assign line "alpha" (Js.VNumber 0.5);
                Assign line "lineWidth" (Js.VNumber 5);
                Assign line "dash" (Js.VArray [Js.VNumber 5; Js.VNumber 10]);
                AddControl gui line;
                LinkWithMesh line mesh;
                Assign line "connectedControl" (Js.VRef label)]
             else
               [LinkWithMesh label mesh])
    /\ news new
       = [(label, Rectangle, Some str); (text, TextBlock, None)]
         ++ (if lines then [(line, Line, None)] else [])
    /\ added gui new = label :: (if lines then [line] else [])
    /\ added label new = [text]
    /\ linked new = [(if lines then line else label, mesh)]
    /\ (forall before after control m,
          new = before ++ LinkWithMesh control m :: after ->
          In control (added gui before)).
Proof.
  intros Hgui Hmesh.
  exists (created e), (S (created e)), (S (S (created e))).
  eexists. eexists.
  split; [apply CreateLabel_calls|].
  split; [cbn [calls]; reflexivity|].
  assert (Eg : Nat.eqb (created e) gui = false) by (apply Nat.eqb_neq; lia).
  assert (Egg : Nat.eqb gui gui = true) by apply Nat.eqb_refl.
  assert (Ell : Nat.eqb (created e) (created e) = true) by apply Nat.eqb_refl.
  assert (Egl : Nat.eqb gui (created e) = false) by (apply Nat.eqb_neq; lia).
  do 5 (split; [lia|]).
  split; [by destruct lines|].
  split; [by destruct lines|].
  split; [by destruct lines|].
  split; [destruct lines; cbn; rewrite ?Egg, ?Eg; reflexivity|].
  split; [destruct lines; cbn; rewrite ?Ell, ?Egl; reflexivity|].
  split; [by destruct lines|].
  intros before after control m E.
  assert (L : linked (before ++ LinkWithMesh control m :: after)
              = [(if lines then S (S (created e)) else created e, mesh)])
    by (rewrite <- E; by destruct lines).
  destruct lines; cbn in E.
  - do 22 (destruct before as [|? before]; [discriminate E|];
           injection E as <- E; cbn [app] in E).
    destruct before as [|? before].
    + inversion E; subst. cbn. rewrite ?Egg, ?Eg. cbn. by right; left.
    + injection E as <- E. cbn [app] in E.
      destruct before as [|? before]; [discriminate E|].
      injection E as <- E. by destruct before.
  - do 17 (destruct before as [|? before]; [discriminate E|];
           injection E as <- E; cbn [app] in E).
    destruct before as [|? before].
    + inversion E; subst. cbn. rewrite ?Egg, ?Eg. cbn. by left.
    + injection E as <- E. by destruct before.
Qed.

End DefaultSceneFacts.

Lemma CreateLabel_builds_label_witness :
  exists (label text line : DefaultScene.Ref) (e' : DefaultScene.Engine)
         (new : list DefaultScene.Call),
    DefaultScene.CreateLabel 0 1 "PBR" true "200px" "40px" sampleGui = (label, e')
    /\ DefaultScene.calls e' = [] ++ new
    /\ 0 < label /\ 1 < label /\ label < text /\ text < line
    /\ 2 <= label
    /\ DefaultScene.created e' = S line
    /\ new =
         [DefaultScene.New DefaultScene.Rectangle (Some "PBR") label;
          DefaultScene.Assign label "background" (Js.VString "black");
          DefaultScene.Assign label "height" (Js.VString "40px");
          DefaultScene.Assign label "alpha" (Js.VNumber 0.5);
          DefaultScene.Assign label "width" (Js.VString "200px");
          DefaultScene.Assign label "cornerRadius" (Js.VNumber 20);
          DefaultScene.Assign label "thickness" (Js.VNumber 1);
          DefaultScene.Assign label "linkOffsetY" (Js.VNumber 30);
          DefaultScene.Assign label "top" (Js.VString "0%");
          DefaultScene.Assign label "zIndex" (Js.VNumber 5);
          DefaultScene.Assign label "verticalAlignment"
            (Js.VStatic "Control.VERTICAL_ALIGNMENT_TOP");
          DefaultScene.Assign label "horizontalAlignment"
            (Js.VStatic "Control.HORIZONTAL_ALIGNMENT_RIGHT");
          DefaultScene.AddControl 0 label;
          DefaultScene.New DefaultScene.TextBlock None text;
          DefaultScene.Assign text "text" (Js.VString "PBR");
          DefaultScene.Assign text "color" (Js.VString "white");
          DefaultScene.AddControl label text]
         ++ [DefaultScene.New DefaultScene.Line None line;
             DefaultScene.Assign line "alpha" (Js.VNumber 0.5);
             DefaultScene.Assign line "lineWidth" (Js.VNumber 5);
             DefaultScene.Assign line "dash" (Js.VArray [Js.VNumber 5; Js.VNumber 10]);
             DefaultScene.AddControl 0 line;
             DefaultScene.LinkWithMesh line 1;
             DefaultScene.Assign line "connectedControl" (Js.VRef label)]
    /\ news new
       = [(label, DefaultScene.Rectangle, Some "PBR"); (text, DefaultScene.TextBlock, None)]
         ++ [(line, DefaultScene.Line, None)]
    /\ added 0 new = label :: [line]
    /\ added label new = [text]
    /\ linked new = [(line, 1)]
    /\ (forall before after control m,
          new = before ++ DefaultScene.LinkWithMesh control m :: after ->
          In control (added 0 before)).
Proof.
  exact (CreateLabel_builds_label 0 1 "PBR" true "200px" "40px" sampleGui
           ltac:(cbn; lia) ltac:(cbn; lia)).
Defined.

(** ** The rendering inspector *)

Section RenderingInspectorFacts.
Import RenderingInspector.

(** A change handler passes the setter the value it finds in [this.state],
    whatever [v] it is called with. *)
Lemma onChange_reads_state (w : World) (v : bool) :
  calls (snd (onChange _getSSAO2Inspector_enable v w))
    = calls w ++ [SetSSAOEnabled (ssao2Enabled (state w));
                  setState (write "ssao2Enabled" v (state w))]
  /\ calls (snd (onChange _getMotionBlurInspector_enable v w))
      = calls w ++ [SetMotionBlurEnabled (motionBlurEnabled (state w));
                    setState (write "motionBlurEnabled" v (state w))]
  /\ calls (snd (onChange _getSSRInspector_enable v w))
      = calls w ++ [SetScreenSpaceReflectionsEnabled (ssrEnabled (state w));
                    setState (write "ssrEnabled" v (state w))].
Proof.
  repeat split; simpl; by rewrite <- app_assoc.
Qed.

(** C2. When the user sets the [Enabled] checkbox of the SSAO 2, Motion Blur
    or Screen Space Reflections section to [v], the section's setter
    ([SetSSAOEnabled], [SetMotionBlurEnabled],
    [SetScreenSpaceReflectionsEnabled]) is called with [v] and then the
    state is set; afterwards the post-process's enabled state and the
    control's state are both [v]. *)
Theorem enabled_checkbox_calls_setter_with_new_value (w : World) (v : bool) :
  (let w' := snd (InspectorBoolean_change _getSSAO2Inspector_enable v w) in
   calls w' = calls w ++ [SetSSAOEnabled v; setState (state w')]
   /\ IsSSAOEnabled (settings w') = v
   /\ ssao2Enabled (state w') = v)
  /\ (let w' := snd (InspectorBoolean_change _getMotionBlurInspector_enable v w) in
      calls w' = calls w ++ [SetMotionBlurEnabled v; setState (state w')]
      /\ IsMotionBlurEnabled (settings w') = v
      /\ motionBlurEnabled (state w') = v)
  /\ (let w' := snd (InspectorBoolean_change _getSSRInspector_enable v w) in
      calls w' = calls w ++ [SetScreenSpaceReflectionsEnabled v; setState (state w')]
      /\ IsScreenSpaceReflectionsEnabled (settings w') = v
      /\ ssrEnabled (state w') = v).
Proof.
  repeat split; simpl; by rewrite <- app_assoc.
Qed.

End RenderingInspectorFacts.

(** ** The script inspector: exported values *)

Section ExportedValuesFacts.
Import ScriptInspector.

Lemma supported_cases (ty : string) :
  ty ∈ supportedTypes ->
  ty = "number" \/ ty = "string" \/ ty = "boolean" \/ ty = "Vector2"
  \/ ty = "Vector3" \/ ty = "Color3" \/ ty = "Color4".
Proof.
  unfold supportedTypes. rewrite !elem_of_cons, elem_of_nil. tauto.
Qed.


(** *** Reading and writing through the prototype *)

Lemma find_own (ps : gmap string Property) (bs : gmap string Js.Value) (k : string)
    (p : Property) :
  ps !! k = Some p -> find ps bs k = Own p.
Proof. intros L. unfold find. by rewrite L. Qed.

Lemma find_own_inv (ps : gmap string Property) (bs : gmap string Js.Value) (k : string)
    (p : Property) :
  find ps bs k = Own p -> ps !! k = Some p.
Proof.
  unfold find. destruct (ps !! k); [congruence|].
  destruct (isInherited k); [discriminate|].
  by destruct (String.eqb k "value" && negb (Js.nullish (inheritedValue bs)))%bool.
Qed.

Lemma find_inherited_inv (ps : gmap string Property) (bs : gmap string Js.Value)
    (k : string) :
  find ps bs k = Inherited -> ps !! k = None /\ isInherited k = true.
Proof.
  unfold find. destruct (ps !! k); [discriminate|].
  destruct (isInherited k); [done|].
  by destruct (String.eqb k "value" && negb (Js.nullish (inheritedValue bs)))%bool.
Qed.

Lemma find_inheritedValue_inv (ps : gmap string Property) (bs : gmap string Js.Value)
    (k : string) (v : Js.Value) :
  find ps bs k = InheritedValue v ->
  ps !! k = None /\ isInherited k = false /\ k = "value"
  /\ v = inheritedValue bs /\ Js.nullish v = false.
Proof.
  unfold find. destruct (ps !! k); [discriminate|].
  destruct (isInherited k); [discriminate|].
  destruct (String.eqb k "value") eqn:E; [|discriminate]. apply String.eqb_eq in E.
  destruct (Js.nullish (inheritedValue bs)) eqn:N; [discriminate|].
  cbn. intros F. injection F as <-. done.
Qed.


Lemma isInherited_proto : isInherited "__proto__" = true.
Proof. reflexivity. Qed.

Lemma isInherited_value : isInherited "value" = false.
Proof. reflexivity. Qed.

Lemma inheritedValue_insert_ne (bs : gmap string Js.Value) (k : string) (e : Js.Value) :
  k <> "__proto__" -> inheritedValue (<[k := e]> bs) = inheritedValue bs.
Proof. intros Hne. unfold inheritedValue. by rewrite lookup_insert_ne. Qed.

Lemma inheritedValue_insert (bs : gmap string Js.Value) (e : Js.Value) :
  inheritedValue (<["__proto__" := e]> bs) = e.
Proof. unfold inheritedValue. by rewrite lookup_insert_eq. Qed.

Lemma hasField_setField (k : string) (e : Js.Value) (fields : list (string * Js.Value)) :
  hasField k (setField k e fields) = hasField k fields.
Proof.
  induction fields as [|[k' v] fields IH]; [done|]. cbn.
  destruct (String.eqb k' k) eqn:E; cbn; rewrite E; [done|]. exact IH.
Qed.

Lemma lookupField_setField (k : string) (e : Js.Value) (fields : list (string * Js.Value)) :
  hasField k fields = true -> Js.lookupField k (setField k e fields) = e.
Proof.
  induction fields as [|[k' v] fields IH]; [done|]. cbn.
  destruct (String.eqb k' k) eqn:E; cbn; rewrite E; [done|]. exact IH.
Qed.

(** The value an entry reads. *)
Lemma readValue_own (ps : gmap string Property) (bs : gmap string Js.Value) (k : string)
    (p : Property) :
  ps !! k = Some p ->
  readValue ps bs k
  = match value p with Js.VUndefined => inheritedValue bs | v => v end.
Proof. intros L. unfold readValue. by rewrite (find_own ps bs k p L). Qed.


(** [property.value ??= e] with the value read as the first choice. *)
Lemma assign_coalesce (ps : gmap string Property) (bs : gmap string Js.Value)
    (k : string) (e : Js.Value) :
  assignIfNullish ps bs k (Js.coalesce (readValue ps bs k) e)
  = assignIfNullish ps bs k e.
Proof.
  unfold assignIfNullish, Js.coalesce.
  by destruct (Js.nullish (readValue ps bs k)).
Qed.

(** *** The callback *)

(** Decides the tests of the [switch] one after the other. *)
Ltac switch_cases :=
  repeat match goal with
         | |- context [if (?a || ?b)%bool then _ else _] =>
             let E := fresh "E" in destruct (a || b)%bool eqn:E
         | |- context [if String.eqb ?a ?b then _ else _] =>
             let E := fresh "E" in destruct (String.eqb a b) eqn:E
         end.

Lemma case_supported (ty s : string) :
  String.eqb ty s = true -> s ∈ supportedTypes -> ty ∈ supportedTypes.
Proof. intros E Hs. apply String.eqb_eq in E. by subst. Qed.

(** Proves that the type of the case at hand is a supported one. *)
Ltac supported :=
  repeat match goal with
         | E : (_ || _)%bool = true |- _ => apply orb_true_iff in E as [E|E]
         end;
  try discriminate;
  (eapply case_supported;
   [eassumption | unfold supportedTypes; rewrite !elem_of_cons; tauto]).

Lemma unsupported_cases (ty : string) :
  ty ∉ supportedTypes ->
  String.eqb ty "number" = false /\ String.eqb ty "string" = false
  /\ String.eqb ty "boolean" = false /\ String.eqb ty "Vector2" = false
  /\ String.eqb ty "Vector3" = false
  /\ (String.eqb ty "Color3" || String.eqb ty "Color4")%bool = false.
Proof.
  intros Hn. repeat split;
    match goal with
    | |- ?b = false => destruct b eqn:E; [|done]
    end; exfalso; apply Hn; supported.
Qed.

Lemma objectDefault_truthy (iv : Sandbox.IExportedInspectorValue) :
  objectDefault iv ->
  Sandbox.type iv ∈ objectTypes ->
  Js.truthy (Sandbox.defaultValue iv) = negb (Js.nullish (Sandbox.defaultValue iv)).
Proof.
  intros Hd Hin. destruct (Hd Hin) as [N|[fields ->]]; [|done].
  destruct (Sandbox.defaultValue iv); done.
Qed.

(** The callback in one equation: line 186, then, for a type the [switch]
    has a case for, [property.value ??= e] for a value [e] that is the
    declared default or the zero of the type, and the widget of the
    type. *)
Lemma exportValue_step (h : gmap string Property * gmap string Js.Value)
    (iv : Sandbox.IExportedInspectorValue) :
  exists e : Js.Value,
    Js.nullish e = false
    /\ (objectDefault iv -> Sandbox.type iv ∈ supportedTypes -> e = initialValue iv)
    /\ exportValue h iv
       = if decide (Sandbox.type iv ∈ supportedTypes)
         then (assignIfNullish (fst (ensured h iv)) (snd h) (Sandbox.propertyKey iv) e,
               [widgetFor iv])
         else (ensured h iv, []).
Proof.
  unfold exportValue. cbv zeta.
  change (match find (fst h) (snd h) (Sandbox.propertyKey iv) with
          | NotFound =>
              <[Sandbox.propertyKey iv :=
                  {| type := Sandbox.type iv; value := Js.VUndefined |}]> (fst h)
          | _ => fst h
          end) with (fst (ensured h iv)).
  set (ps := fst (ensured h iv)).
  destruct (decide (Sandbox.type iv ∈ supportedTypes)) as [D|D].
  - assert (Hd : forall z, Js.nullish z = false ->
              Js.nullish (Js.coalesce (Sandbox.defaultValue iv) z) = false).
    { intros z Nz. unfold Js.coalesce.
      by destruct (Js.nullish (Sandbox.defaultValue iv)) eqn:Nd. }
    pose proof (objectDefault_truthy iv) as Ht.
    apply supported_cases in D.
    destruct D as [E|[E|[E|[E|[E|[E|E]]]]]]; rewrite E in *; cbn [String.eqb Ascii.eqb Bool.eqb orb];
      rewrite assign_coalesce; eexists;
      (split; [|split; [|unfold widgetFor, labelOf; rewrite E; reflexivity]]).
    all: try (apply Hd; reflexivity).
    all: try (by destruct (Js.truthy (Sandbox.defaultValue iv))).
    all: intros Hobj _; unfold initialValue, zeroOf, storedDefault, Js.coalesce; rewrite E;
      cbn [String.eqb Ascii.eqb Bool.eqb orb]; try reflexivity.
    all: rewrite (Ht Hobj) by (unfold objectTypes; rewrite !elem_of_cons; tauto);
      by destruct (Js.nullish (Sandbox.defaultValue iv)).
  - exists (Js.VNumber 0). split; [done|]. split; [done|].
    apply unsupported_cases in D as (E1 & E2 & E3 & E4 & E5 & E6).
    rewrite E1, E2, E3, E4, E5, E6. unfold ensured. reflexivity.
Qed.

(** What the callback pushes. *)
Lemma exportValue_widgets (h : gmap string Property * gmap string Js.Value)
    (iv : Sandbox.IExportedInspectorValue) :
  snd (exportValue h iv)
  = if decide (Sandbox.type iv ∈ supportedTypes) then [widgetFor iv] else [].
Proof.
  destruct (exportValue_step h iv) as (e & _ & _ & ->). by case_decide.
Qed.

(** *** Line 186 *)

Lemma ensured_snd (h : gmap string Property * gmap string Js.Value)
    (iv : Sandbox.IExportedInspectorValue) :
  snd (ensured h iv) = snd h.
Proof. reflexivity. Qed.

Lemma ensured_found (h : gmap string Property * gmap string Js.Value)
    (iv : Sandbox.IExportedInspectorValue) :
  find (fst h) (snd h) (Sandbox.propertyKey iv) <> NotFound ->
  ensured h iv = h.
Proof.
  intros F. unfold ensured. destruct h as [ps bs]. cbn [fst snd] in *.
  by destruct (find ps bs (Sandbox.propertyKey iv)).
Qed.

Lemma ensured_other (h : gmap string Property * gmap string Js.Value)
    (iv : Sandbox.IExportedInspectorValue) (k : string) :
  k <> Sandbox.propertyKey iv ->
  fst (ensured h iv) !! k = fst h !! k.
Proof.
  intros Hne. unfold ensured. cbn [fst].
  destruct (find (fst h) (snd h) (Sandbox.propertyKey iv)); try done.
  by rewrite lookup_insert_ne.
Qed.


(** After line 186, [properties[iv.propertyKey]] is defined. *)
Lemma ensured_finds (h : gmap string Property * gmap string Js.Value)
    (iv : Sandbox.IExportedInspectorValue) :
  find (fst (ensured h iv)) (snd h) (Sandbox.propertyKey iv) <> NotFound.
Proof.
  unfold ensured. cbn [fst].
  destruct (find (fst h) (snd h) (Sandbox.propertyKey iv)) eqn:F; try (by rewrite F).
  by rewrite (find_own _ _ _ _ (lookup_insert_eq _ _ _)).
Qed.


(** *** [property.value ??= e] *)




(** *** What the callback leaves alone *)




(** *** What the assignment does, case by case *)

Lemma find_ext (ps ps' : gmap string Property) (bs bs' : gmap string Js.Value)
    (k : string) :
  ps' !! k = ps !! k ->
  inheritedValue bs' = inheritedValue bs ->
  find ps' bs' k = find ps bs k.
Proof. intros E1 E2. unfold find. by rewrite E1, E2. Qed.

Lemma readValue_ext (ps ps' : gmap string Property) (bs bs' : gmap string Js.Value)
    (k : string) :
  ps' !! k = ps !! k ->
  inheritedValue bs' = inheritedValue bs ->
  bs' !! k = bs !! k ->
  readValue ps' bs' k = readValue ps bs k.
Proof.
  intros E1 E2 E3. unfold readValue. by rewrite (find_ext ps ps' bs bs' k E1 E2), E2, E3.
Qed.

Lemma inheritedValue_read (bs : gmap string Js.Value) :
  default (inheritedValue bs) (bs !! "__proto__") = inheritedValue bs.
Proof. unfold inheritedValue. by destruct (bs !! "__proto__"). Qed.

(** The assignment leaves everything as it is, the value being there; or
    sets the value of the entry; or that of the inherited method, or of
    [Object.prototype]; or that of the object [Object.prototype.value]
    holds. *)
Lemma assign_cases (ps : gmap string Property) (bs : gmap string Js.Value)
    (k : string) (e : Js.Value) :
  (assignIfNullish ps bs k e = (ps, bs)
   /\ (find ps bs k <> NotFound -> Js.nullish (readValue ps bs k) = false))
  \/ (exists p, ps !! k = Some p
                /\ Js.nullish (readValue ps bs k) = true
                /\ assignIfNullish ps bs k e
                   = (<[k := {| type := type p; value := e |}]> ps, bs))
  \/ (ps !! k = None /\ isInherited k = true
      /\ Js.nullish (default (inheritedValue bs) (bs !! k)) = true
      /\ assignIfNullish ps bs k e = (ps, <[k := e]> bs))
  \/ (exists fields, k = "value" /\ ps !! k = None
                     /\ inheritedValue bs = Js.VObject fields
                     /\ hasField "value" fields = true
                     /\ Js.nullish (Js.lookupField "value" fields) = true
                     /\ assignIfNullish ps bs k e
                        = (ps, <["__proto__" := Js.VObject (setField "value" e fields)]> bs)).
Proof.
  unfold assignIfNullish.
  destruct (Js.nullish (readValue ps bs k)) eqn:N; [|by left].
  unfold writeValue. unfold readValue in N.
  destruct (find ps bs k) as [p| |v|] eqn:F.
  - right. left. exists p. split; [by apply find_own_inv in F|]. done.
  - right. right. left. apply find_inherited_inv in F as [L I]. done.
  - apply find_inheritedValue_inv in F as (L & I & -> & Ev & Nv).
    destruct v as [| | | | |fields| | |];
      try (exfalso; rewrite <- Ev in N; cbn in *; congruence).
    destruct (hasField "value" fields) eqn:Hf;
      [|exfalso; rewrite <- Ev in N; cbn in *; congruence].
    right. right. right. exists fields. done.
  - left. done.
Qed.


(** What is defined stays defined. *)
Lemma assign_stays_found (ps : gmap string Property) (bs : gmap string Js.Value)
    (k k0 : string) (e : Js.Value) :
  find ps bs k0 <> NotFound ->
  find (fst (assignIfNullish ps bs k e)) (snd (assignIfNullish ps bs k e)) k0 <> NotFound.
Proof.
  intros F.
  destruct (assign_cases ps bs k e)
    as [[-> _]|[(p & L & _ & ->)|[(L & I & Nk & ->)|(fields & -> & L & Ev & _ & _ & ->)]]];
    cbn [fst snd]; try done.
  - destruct (decide (k0 = k)) as [->|Hne].
    + by rewrite (find_own _ _ _ _ (lookup_insert_eq _ _ _)).
    + rewrite (find_ext ps _ bs bs k0); [done| |done]. by rewrite lookup_insert_ne.
  - destruct (decide (k = "__proto__")) as [->|Hne].
    + rewrite inheritedValue_read in Nk.
      destruct (find ps bs k0) as [p0| |v|] eqn:F0; try done.
      * by rewrite (find_own _ _ _ _ (find_own_inv _ _ _ _ F0)).
      * apply find_inherited_inv in F0 as [L0 I0]. unfold find. by rewrite L0, I0.
      * apply find_inheritedValue_inv in F0 as (_ & _ & _ & -> & Nv). congruence.
    + rewrite (find_ext ps ps bs _ k0); [done|done|]. by apply inheritedValue_insert_ne.
  - destruct (find ps bs k0) as [p0| |v|] eqn:F0; try done.
    + by rewrite (find_own _ _ _ _ (find_own_inv _ _ _ _ F0)).
    + apply find_inherited_inv in F0 as [L0 I0]. unfold find. by rewrite L0, I0.
    + apply find_inheritedValue_inv in F0 as (L0 & I0 & -> & _ & _).
      unfold find. rewrite L0, I0, inheritedValue_insert. done.
Qed.

(** A value that is there stays there. *)
Lemma assign_stays_valued (ps : gmap string Property) (bs : gmap string Js.Value)
    (k k0 : string) (e : Js.Value) :
  find ps bs k0 <> NotFound ->
  Js.nullish (readValue ps bs k0) = false ->
  Js.nullish (readValue (fst (assignIfNullish ps bs k e))
                        (snd (assignIfNullish ps bs k e)) k0) = false.
Proof.
  intros F N.
  destruct (assign_cases ps bs k e)
    as [[-> _]|[(p & L & Nk & ->)|[(L & I & Nk & ->)|(fields & -> & L & Ev & Hf & Nf & ->)]]];
    cbn [fst snd]; try done.
  - destruct (decide (k0 = k)) as [->|Hne]; [congruence|].
    rewrite (readValue_ext ps _ bs bs k0); [done| |done|done]. by rewrite lookup_insert_ne.
  - destruct (decide (k0 = k)) as [->|Hne].
    { unfold readValue in N. unfold find in N. rewrite L, I in N. congruence. }
    destruct (decide (k = "__proto__")) as [->|Hp].
    + rewrite inheritedValue_read in Nk.
      unfold readValue in *.
      destruct (find ps bs k0) as [p0| |v|] eqn:F0; try done.
      * rewrite (find_own _ _ _ _ (find_own_inv _ _ _ _ F0)).
        destruct (value p0); try done. congruence.
      * apply find_inherited_inv in F0 as [L0 I0]. unfold find. rewrite L0, I0.
        rewrite lookup_insert_ne by done.
        destruct (bs !! k0); [done|]. cbn in N. congruence.
      * apply find_inheritedValue_inv in F0 as (_ & _ & _ & -> & Nv). congruence.
    + rewrite (readValue_ext ps ps bs _ k0); [done|done| |].
      * by apply inheritedValue_insert_ne.
      * by rewrite lookup_insert_ne.
  - unfold readValue in *.
    destruct (find ps bs k0) as [p0| |v|] eqn:F0; try done.
    + rewrite (find_own _ _ _ _ (find_own_inv _ _ _ _ F0)), inheritedValue_insert.
      by destruct (value p0).
    + apply find_inherited_inv in F0 as [L0 I0]. unfold find. rewrite L0, I0.
      rewrite inheritedValue_insert.
      destruct (decide (k0 = "__proto__")) as [->|Hp].
      * by rewrite lookup_insert_eq.
      * rewrite lookup_insert_ne by done. by destruct (bs !! k0).
    + apply find_inheritedValue_inv in F0 as (L0 & I0 & -> & -> & _).
      rewrite Ev, Hf in N. congruence.
Qed.

(** The assignment leaves a value behind. *)
Lemma assign_valued (ps : gmap string Property) (bs : gmap string Js.Value)
    (k : string) (e : Js.Value) :
  find ps bs k <> NotFound ->
  Js.nullish e = false ->
  Js.nullish (readValue (fst (assignIfNullish ps bs k e))
                        (snd (assignIfNullish ps bs k e)) k) = false.
Proof.
  intros F Ne.
  destruct (assign_cases ps bs k e)
    as [[-> Hn]|[(p & L & Nk & ->)|[(L & I & Nk & ->)|(fields & -> & L & Ev & Hf & Nf & ->)]]];
    cbn [fst snd].
  - by apply Hn.
  - rewrite (readValue_own _ _ _ _ (lookup_insert_eq _ _ _)). cbn [value].
    by destruct e.
  - unfold readValue, find. by rewrite L, I, lookup_insert_eq.
  - unfold readValue, find. rewrite L, isInherited_value, inheritedValue_insert. cbn.
    by rewrite hasField_setField, Hf, lookupField_setField.
Qed.





(** *** The callback, over what is there *)

Lemma exportValue_stays_found (h : gmap string Property * gmap string Js.Value)
    (iv : Sandbox.IExportedInspectorValue) (k0 : string) :
  find (fst h) (snd h) k0 <> NotFound ->
  find (fst (fst (exportValue h iv))) (snd (fst (exportValue h iv))) k0 <> NotFound.
Proof.
  intros F. destruct (exportValue_step h iv) as (e & _ & _ & ->).
  assert (F1 : find (fst (ensured h iv)) (snd h) k0 <> NotFound).
  { destruct (decide (k0 = Sandbox.propertyKey iv)) as [->|Hne].
    - by rewrite ensured_found.
    - rewrite (find_ext (fst h) _ (snd h) (snd h) k0); [done| |done].
      by apply ensured_other. }
  case_decide; cbn [fst snd]; [|done].
  by apply assign_stays_found.
Qed.

Lemma exportValue_stays_valued (h : gmap string Property * gmap string Js.Value)
    (iv : Sandbox.IExportedInspectorValue) (k0 : string) :
  find (fst h) (snd h) k0 <> NotFound ->
  Js.nullish (readValue (fst h) (snd h) k0) = false ->
  Js.nullish (readValue (fst (fst (exportValue h iv))) (snd (fst (exportValue h iv))) k0)
  = false.
Proof.
  intros F N. destruct (exportValue_step h iv) as (e & _ & _ & ->).
  assert (F1 : find (fst (ensured h iv)) (snd h) k0 <> NotFound
               /\ Js.nullish (readValue (fst (ensured h iv)) (snd h) k0) = false).
  { destruct (decide (k0 = Sandbox.propertyKey iv)) as [->|Hne].
    - by rewrite ensured_found.
    - rewrite (find_ext (fst h) _ (snd h) (snd h) k0),
              (readValue_ext (fst h) _ (snd h) (snd h) k0);
        try done; by apply ensured_other. }
  destruct F1 as [F1 N1].
  case_decide; cbn [fst snd]; [|done].
  by apply assign_stays_valued.
Qed.

(** After the callback [properties[iv.propertyKey]] is defined, and has a
    value if the type has a widget. *)
Lemma exportValue_settles (h : gmap string Property * gmap string Js.Value)
    (iv : Sandbox.IExportedInspectorValue) :
  find (fst (fst (exportValue h iv))) (snd (fst (exportValue h iv)))
       (Sandbox.propertyKey iv) <> NotFound
  /\ (Sandbox.type iv ∈ supportedTypes ->
      Js.nullish (readValue (fst (fst (exportValue h iv))) (snd (fst (exportValue h iv)))
                            (Sandbox.propertyKey iv)) = false).
Proof.
  destruct (exportValue_step h iv) as (e & Ne & _ & ->).
  pose proof (ensured_finds h iv) as F.
  case_decide; cbn [fst snd]; [|done].
  split; [by apply assign_stays_found|]. intros _. by apply assign_valued.
Qed.

(** Over properties that are defined and have their values the callback
    changes nothing. *)
Lemma exportValue_settled (h : gmap string Property * gmap string Js.Value)
    (iv : Sandbox.IExportedInspectorValue) :
  find (fst h) (snd h) (Sandbox.propertyKey iv) <> NotFound ->
  (Sandbox.type iv ∈ supportedTypes ->
   Js.nullish (readValue (fst h) (snd h) (Sandbox.propertyKey iv)) = false) ->
  fst (exportValue h iv) = h.
Proof.
  intros F N. destruct (exportValue_step h iv) as (e & _ & _ & ->).
  rewrite (ensured_found h iv F).
  case_decide as D; cbn [fst]; [|done].
  unfold assignIfNullish. rewrite (N D). by destruct h.
Qed.




(** *** The whole pass *)

Lemma exportValues_acc (ivs : list Sandbox.IExportedInspectorValue) :
  forall (h : gmap string Property * gmap string Js.Value) (ws : list ReactNode),
    foldl (fun acc iv =>
             let (heap', widgets) := exportValue (fst acc) iv in
             (heap', snd acc ++ widgets))
          (h, ws) ivs
    = (fst (exportValues h ivs), ws ++ snd (exportValues h ivs)).
Proof.
  unfold exportValues.
  induction ivs as [|iv ivs IH]; intros h ws; cbn [foldl fst snd].
  - by rewrite app_nil_r.
  - destruct (exportValue h iv) as [h' w] eqn:E.
    rewrite (IH h' (ws ++ w)), (IH h' ([] ++ w)).
    cbn [fst snd]. by rewrite app_assoc.
Qed.

(** The [forEach] handles the values one after the other. *)
Lemma exportValues_cons (h : gmap string Property * gmap string Js.Value)
    (iv : Sandbox.IExportedInspectorValue) (ivs : list Sandbox.IExportedInspectorValue) :
  exportValues h (iv :: ivs)
  = (fst (exportValues (fst (exportValue h iv)) ivs),
     snd (exportValue h iv) ++ snd (exportValues (fst (exportValue h iv)) ivs)).
Proof.
  unfold exportValues at 1. cbn [foldl fst snd].
  destruct (exportValue h iv) as [h' w]. by rewrite exportValues_acc.
Qed.









End ExportedValuesFacts.


(** The declared default of a colour is stored by its components, and the
    value read afterwards is that colour. *)
Example colour_default_is_stored :
  let tint :=
    {| Sandbox.propertyKey := "_tint"; Sandbox.name := None;
       Sandbox.defaultValue :=
         Js.VObject [("r", Js.VNumber 1); ("g", Js.VNumber 0.5); ("b", Js.VNumber 0)];
       Sandbox.type := "Color3" |} in
  let after := fst (ScriptInspector.exportValue (∅, ∅) tint) in
  fst after !! "_tint"
  = Some {| ScriptInspector.type := "Color3";
            ScriptInspector.value :=
              Js.VObject [("r", Js.VNumber 1); ("g", Js.VNumber 0.5);
                          ("b", Js.VNumber 0); ("a", Js.VUndefined)] |}
  /\ snd after = ∅
  /\ ScriptInspector.readValue (fst after) (snd after) "_tint"
     = Js.VObject [("r", Js.VNumber 1); ("g", Js.VNumber 0.5);
                   ("b", Js.VNumber 0); ("a", Js.VUndefined)].
Proof. vm_compute. repeat split. Qed.


(** A property named [toString] is exported: no entry is stored for it;
    its default is assigned to the [value] of the method every object
    inherits. *)
Example inherited_key_gets_no_entry :
  exists (this' : ScriptInspector.ScriptInspector)
         (properties' : gmap string ScriptInspector.Property),
    ScriptInspector._getInspectorValues sampleToString
    = (Some (ScriptInspector.InspectorSection "Exported Values"
               [ScriptInspector.InspectorString "toString" "value" "toString"]),
       this')
    /\ ScriptInspector.properties (ScriptInspector.script this') = Some properties'
    /\ properties' = ∅
    /\ ScriptInspector.Object_prototype this' !! "toString" = Some (Js.VString "ship")
    /\ ScriptInspector.readValue properties' (ScriptInspector.Object_prototype this')
         "toString"
       = Js.VString "ship".
Proof.
  eexists. eexists. vm_compute. repeat split.
Qed.

(** ** The script inspector: refreshing the visible properties *)

Section RefreshFacts.
Context `{PathModule} `{TypeScriptModule}.
Import ScriptInspector.

(** *** What a step leaves alone *)

Lemma sameSetting_refl (w : World) : sameSetting w w.
Proof. by repeat split. Qed.

Lemma afterLoop_setting (jsPath : string) (w : World) :
  sameSetting w (fst (afterLoop jsPath w)).
Proof.
  unfold afterLoop. destruct (isMounted (this w)); cbn; [|by repeat split].
  destruct (existsb (String.eqb jsPath) (unwatchable w)); by repeat split.
Qed.

Lemma loopHead_setting (jsPath : string) (w : World) :
  sameSetting w (fst (loopHead jsPath w)).
Proof.
  unfold loopHead. destruct (isMounted (this w)) eqn:M; [by repeat split|].
  apply afterLoop_setting.
Qed.

Lemma afterDecorators_setting (w : World) :
  sameSetting w (fst (afterDecorators w)).
Proof.
  unfold afterDecorators. destruct (jsPathOf w); [|by repeat split].
  destruct (_scriptWatcher (this w)); [by repeat split|].
  apply loopHead_setting.
Qed.

Lemma applyPatch_script (p : Patch) (c : ScriptInspector) :
  script (applyPatch p c) = script c.
Proof. unfold applyPatch. by destruct (isMounted c). Qed.

Lemma applyPatch_isMounted (p : Patch) (c : ScriptInspector) :
  isMounted (applyPatch p c) = isMounted c.
Proof. unfold applyPatch. destruct (isMounted c) eqn:M; cbn; by rewrite ?M. Qed.

Lemma applyPatch_scriptWatcher (p : Patch) (c : ScriptInspector) :
  _scriptWatcher (applyPatch p c) = _scriptWatcher c.
Proof. unfold applyPatch. by destruct (isMounted c). Qed.

Lemma start_setting (w : World) : sameSetting w (fst (start w)).
Proof.
  unfold start.
  destruct (_scriptWatcher (this w)); cbn;
    destruct (String.eqb (name (script (this w))) "None"); cbn;
    repeat split; try done;
    unfold set_this, set_watchers; cbn [this]; by rewrite applyPatch_script.
Qed.

Lemma continue_setting (a : Await) (r : Answer) (step : Step) (w : World) :
  continue a r = Some step -> sameSetting w (fst (step w)).
Proof.
  destruct a as [| |jsPath|jsPath|jsPath|], r as [decorators| |b|values|reason];
    cbn; intros E; try discriminate; injection E as <-; try (by repeat split).
  - pose proof (afterDecorators_setting w) as S.
    by destruct (afterDecorators w) as [w' [a evs]].
  - destruct b; cbn; [|by repeat split].
    pose proof (afterLoop_setting jsPath w) as S.
    by destruct (afterLoop jsPath w) as [w' [a evs]].
  - pose proof (loopHead_setting jsPath w) as S.
    by destruct (loopHead jsPath w) as [w' [a evs]].
  - repeat split; try done. unfold set_this; cbn [fst this]. by rewrite applyPatch_script.
Qed.

(** *** The tasks of a run *)

Lemma updateScriptVisibleProperties_tasks (w : World) :
  tasks (_updateScriptVisibleProperties w)
  = tasks w ++ [{| at_ := fst (snd (start w)); log := snd (snd (start w)) |}]
  /\ AppPath (_updateScriptVisibleProperties w) = AppPath w.
Proof.
  unfold _updateScriptVisibleProperties.
  pose proof (start_setting w) as (St & Sa & _).
  destruct (start w) as [w' [a evs]]. cbn in *. by rewrite St, Sa.
Qed.

Lemma run_app (l1 l2 : list Action) (w : World) :
  run (l1 ++ l2) w = run l2 (run l1 w).
Proof. unfold run. apply foldl_app. Qed.

(** What an action does to the tasks: nothing, or it starts one, or it
    lets one continue. *)
Lemma act_tasks (a : Action) (w : World) :
  AppPath (act a w) = AppPath w
  /\ ((tasks (act a w) = tasks w /\ forall i, findsWatcher i a w = false)
      \/ (exists w1, AppPath w1 = AppPath w
                     /\ (forall i, findsWatcher i a w = false)
                     /\ tasks (act a w)
                        = tasks w ++ [{| at_ := fst (snd (start w1));
                                         log := snd (snd (start w1)) |}])
      \/ (exists i r t step,
            a = Settle i r
            /\ tasks w !! i = Some t
            /\ continue (at_ t) r = Some step
            /\ tasks (act a w)
               = <[i := {| at_ := fst (snd (step w));
                           log := log t ++ snd (snd (step w)) |}]> (tasks w))).
Proof.
  assert (Hnew : forall w1 : World, AppPath w1 = AppPath w -> tasks w1 = tasks w ->
            (forall i, findsWatcher i a w = false) ->
            AppPath (_updateScriptVisibleProperties w1) = AppPath w
            /\ ((tasks (_updateScriptVisibleProperties w1) = tasks w
                 /\ forall i, findsWatcher i a w = false)
                \/ (exists w2, AppPath w2 = AppPath w
                               /\ (forall i, findsWatcher i a w = false)
                               /\ tasks (_updateScriptVisibleProperties w1)
                                  = tasks w ++ [{| at_ := fst (snd (start w2));
                                                   log := snd (snd (start w2)) |}])
                \/ (exists i r t step,
                      a = Settle i r
                      /\ tasks w !! i = Some t
                      /\ continue (at_ t) r = Some step
                      /\ tasks (_updateScriptVisibleProperties w1)
                         = <[i := {| at_ := fst (snd (step w));
                                     log := log t ++ snd (snd (step w)) |}]> (tasks w)))).
  { intros w1 Ea Et Hf. destruct (updateScriptVisibleProperties_tasks w1) as [-> ->].
    split; [done|]. right. left. exists w1. by rewrite Et. }
  destruct a as [|n|i r|wr ev| |files]; cbn [act].
  - by apply Hnew.
  - unfold InspectorList_change. by apply Hnew.
  - unfold settle. destruct (tasks w !! i) as [t|] eqn:Lt.
    + destruct (continue (at_ t) r) as [step|] eqn:Ec.
      * pose proof (continue_setting _ _ _ w Ec) as (St & Sa & _).
        destruct (step w) as [w' [a evs]] eqn:Es. cbn in *. rewrite Sa, St.
        split; [done|]. right. right. exists i, r, t, step. rewrite Es. done.
      * split; [done|]. left. split; [done|]. intros j. cbn.
        destruct r; try done. destruct (Nat.eqb_spec i j) as [->|]; [|done].
        rewrite Lt. cbn. by destruct (at_ t).
    + split; [done|]. left. split; [done|]. intros j. cbn.
      destruct r; try done. destruct (Nat.eqb_spec i j) as [->|]; [|done].
      by rewrite Lt.
  - destruct (watchers w !! wr) as [fw|]; [|by split; [|left]].
    destruct (closed fw); [by split; [|left]|]. unfold watchCallback.
    destruct (String.eqb ev "change"); [by apply Hnew|by split; [|left]].
  - unfold componentWillUnmount, super_componentWillUnmount.
    destruct (_scriptWatcher (this (set_this (set_isMounted false) w)));
      by split; [|left].
  - by split; [|left].
Qed.

Lemma run_AppPath (actions : list Action) (w : World) :
  AppPath (run actions w) = AppPath w.
Proof.
  revert w. unfold run. induction actions as [|a actions IH]; intros w; [done|].
  cbn [foldl]. rewrite IH. apply act_tasks.
Qed.

Lemma act_tasks_length (a : Action) (w : World) :
  length (tasks w) <= length (tasks (act a w)).
Proof.
  destruct (act_tasks a w)
    as [_ [[-> _]|[(w1 & _ & _ & ->)|(i & r & t & step & _ & _ & _ & ->)]]].
  - done.
  - rewrite length_app. lia.
  - by rewrite length_insert.
Qed.

Lemma run_tasks_length (actions : list Action) (w : World) :
  length (tasks w) <= length (tasks (run actions w)).
Proof.
  revert w. unfold run. induction actions as [|a actions IH]; intros w; [done|].
  cbn [foldl]. etransitivity; [apply act_tasks_length|apply IH].
Qed.

(** *** The log of a refresh *)

Lemma refreshLog_eq (appPath : string) (b : bool) (a : Await) (l l' : list Event) :
  refreshLog appPath b a l -> l = l' -> refreshLog appPath b a l'.
Proof. by intros Hl <-. Qed.

(** Brings a log to the form of a sequence of its parts. *)
Ltac flatten :=
  unfold decoratorsDone, waitedWatchedAsked, resultStored;
  cbn [polls]; rewrite <- ?app_assoc; cbn [app]; reflexivity.

(** A refresh starts by closing the watcher, if any; it then stops for
    want of a script, or reads the decorators. *)
Lemma start_refreshLog (w : World) :
  refreshLog (AppPath w) false (fst (snd (start w))) (snd (snd (start w))).
Proof.
  unfold start.
  destruct (_scriptWatcher (this w)) as [r|] eqn:W; cbn;
    destruct (String.eqb (name (script (this w))) "None"); cbn.
  - apply (log_no_script _ (Some r)).
  - apply (log_reading _ (Some r)).
  - apply (log_no_script _ None).
  - apply (log_reading _ None).
Qed.

(** An answer takes the refresh from one shape of log to the next. *)
Lemma continue_refreshLog (appPath : string) (b : bool) (a : Await) (l : list Event)
    (r : Answer) (step : Step) (w : World) :
  refreshLog appPath b a l ->
  continue a r = Some step ->
  refreshLog appPath
    (b || match a, r, jsPathOf w, _scriptWatcher (this w) with
          | AwaitExecuteCode, Done, Some _, Some _ => true
          | _, _, _, _ => false
          end)
    (fst (snd (step w))) (l ++ snd (snd (step w))).
Proof.
  intros Hl Ec.
  destruct a as [| |jsPath|jsPath|jsPath|], r as [decorators| |b0|values|reason];
    cbn in Ec; try discriminate; injection Ec as <-;
    inversion Hl as [previous|previous|previous reason'|previous d|previous d reason'
                    |previous d p k|previous d p k|previous d p k|previous d p k
                    |previous d p k|previous d p k r0|previous d p k r0 v
                    |previous d p k r0 reason'|previous d p|previous d p v
                    |previous d p reason']; subst; cbn [orb fst snd].
  - (* the decorators' file has been read *)
    apply (log_executing _ previous decorators).
  - (* the file cannot be read *)
    apply (log_not_read _ previous reason).
  - (* the decorators have been executed: line 281 *)
    unfold afterDecorators. destruct (jsPathOf w) as [jsPath|] eqn:Ej.
    + destruct (_scriptWatcher (this w)) as [r|] eqn:W.
      * cbn. eapply refreshLog_eq; [apply (log_asking_at_once _ previous d jsPath)|flatten].
      * unfold loopHead, afterLoop. destruct (isMounted (this w)) eqn:M; cbn.
        -- eapply refreshLog_eq; [apply (log_polling _ previous d jsPath 0)|flatten].
        -- eapply refreshLog_eq; [apply (log_left _ previous d jsPath 0)|flatten].
    + cbn. eapply refreshLog_eq; [apply (log_left _ previous d "" 0)|flatten].
  - (* the decorators cannot be executed *)
    eapply refreshLog_eq; [apply (log_not_executed _ previous d reason)|flatten].
  - (* the poll is answered *)
    destruct b0; cbn [negb].
    + unfold afterLoop. destruct (isMounted (this w)) eqn:M; cbn [negb].
      * destruct (existsb (String.eqb jsPath) (unwatchable w)); cbn.
        -- eapply refreshLog_eq; [apply (log_not_watched _ previous d jsPath k)|flatten].
        -- eapply refreshLog_eq;
             [apply (log_asking _ previous d jsPath k (length (watchers w)))|flatten].
      * cbn. eapply refreshLog_eq;
               [apply (log_found_unmounted _ previous d jsPath k)|flatten].
    + cbn. eapply refreshLog_eq; [apply (log_waiting _ previous d jsPath k)|flatten].
  - (* the wait is over *)
    unfold loopHead, afterLoop. destruct (isMounted (this w)) eqn:M; cbn.
    + eapply refreshLog_eq; [apply (log_polling _ previous d jsPath (S k))|flatten].
    + eapply refreshLog_eq; [apply (log_left _ previous d jsPath (S k))|flatten].
  - (* the sandbox has answered *)
    eapply refreshLog_eq; [apply (log_stored _ previous d jsPath k r0 values)|flatten].
  - eapply refreshLog_eq; [apply (log_stored_at_once _ previous d jsPath values)|flatten].
  - (* the sandbox has failed *)
    eapply refreshLog_eq;
      [apply (log_not_answered _ previous d jsPath k r0 reason)|flatten].
  - eapply refreshLog_eq;
      [apply (log_not_answered_at_once _ previous d jsPath reason)|flatten].
Qed.

(** *** Whether a refresh finds a watcher at line 281 *)

Lemma skips_app (i : nat) (l1 l2 : list Action) (w : World) :
  skips i (l1 ++ l2) w = (skips i l1 w || skips i l2 (run l1 w))%bool.
Proof.
  revert w. induction l1 as [|a l1 IH]; intros w; [done|].
  cbn [app skips]. rewrite IH. unfold run. cbn [foldl]. by rewrite orb_assoc.
Qed.

Lemma findsWatcher_absent (i : nat) (a : Action) (w : World) :
  length (tasks w) <= i -> findsWatcher i a w = false.
Proof.
  intros Hle. destruct a as [|n|j r|wr ev| |files]; try done.
  cbn. destruct r; try done.
  rewrite (lookup_ge_None_2 (tasks w) i Hle). cbn. by rewrite andb_false_r.
Qed.

(** A refresh that has not started has found nothing. *)
Lemma skips_absent (i : nat) (actions : list Action) : forall w : World,
  length (tasks (run actions w)) <= i -> skips i actions w = false.
Proof.
  induction actions as [|a actions IH]; intros w Hle; [done|].
  cbn [skips]. unfold run in Hle. cbn [foldl] in Hle.
  rewrite IH by exact Hle.
  rewrite findsWatcher_absent; [done|].
  pose proof (act_tasks_length a w). pose proof (run_tasks_length actions (act a w)).
  unfold run in *. lia.
Qed.

(** The log of every refresh of every run: it has one of the shapes of
    [refreshLog], and it is one of those of a refresh that asks at once
    exactly when the refresh has found a watcher at line 281. *)
Lemma run_refreshLog (actions : list Action) (w0 : World) (i : nat) (t : Task) :
  length (tasks w0) <= i ->
  tasks (run actions w0) !! i = Some t ->
  refreshLog (AppPath w0) (skips i actions w0) (at_ t) (log t).
Proof.
  intros Hi. revert t.
  induction actions as [|a actions IH] using rev_ind; intros t Lt.
  { apply lookup_lt_Some in Lt. cbn in Lt. lia. }
  rewrite run_app in Lt. unfold run at 1 in Lt. cbn [foldl] in Lt.
  rewrite skips_app. cbn [skips]. rewrite orb_false_r.
  set (w := run actions w0) in *.
  assert (Ea : AppPath w = AppPath w0) by apply run_AppPath.
  destruct (act_tasks a w)
    as [_ [[Et Hf]|[(w1 & Ea1 & Hf & Et)|(j & r & t0 & step & -> & L0 & Ec & Et)]]].
  - rewrite Et in Lt. rewrite Hf, orb_false_r. by apply IH.
  - rewrite Et in Lt. rewrite Hf, orb_false_r.
    apply lookup_app_Some in Lt as [Lt|[Hle Lt]]; [by apply IH|].
    destruct (i - length (tasks w)) as [|n] eqn:D; [|by destruct n].
    injection Lt as <-. cbn [at_ log].
    rewrite (skips_absent i actions w0) by (fold w; lia).
    rewrite <- Ea, <- Ea1. apply start_refreshLog.
  - rewrite Et in Lt.
    destruct (decide (j = i)) as [->|Hne].
    + rewrite list_lookup_insert_eq in Lt by (by apply lookup_lt_Some in L0).
      injection Lt as <-. cbn [at_ log].
      replace (findsWatcher i (Settle i r) w)
        with (match at_ t0, r, jsPathOf w, _scriptWatcher (this w) with
              | AwaitExecuteCode, Done, Some _, Some _ => true
              | _, _, _, _ => false
              end).
      * apply continue_refreshLog; [by apply IH|done].
      * cbn. destruct r; try (by destruct (at_ t0)).
        rewrite Nat.eqb_refl, L0. cbn.
        destruct (at_ t0); try done.
        by destruct (jsPathOf w), (_scriptWatcher (this w)).
    + rewrite list_lookup_insert_ne in Lt by done.
      replace (findsWatcher i (Settle j r) w) with false; [rewrite orb_false_r; by apply IH|].
      cbn. destruct r; try done. by rewrite (proj2 (Nat.eqb_neq j i) Hne).
Qed.

(** *** The decorators *)

Lemma polls_no_decorators (jsPath : string) (k : nat) :
  Forall (fun e => decoratorsCall e = false) (polls jsPath k).
Proof.
  induction k as [|k IH]; cbn [polls]; [constructor|].
  apply Forall_app. split; [done|]. repeat constructor.
Qed.

(** What every shape of log says of the decorators. *)
Lemma refreshLog_decorators (appPath : string) (b : bool) (t : Task) :
  refreshLog appPath b (at_ t) (log t) -> decoratorsRefreshed appPath t.
Proof.
  destruct t as [a l]. cbn [at_ log]. unfold decoratorsRefreshed. cbn [at_ log].
  assert (Hrest : forall previous d rest,
            Forall (fun e => decoratorsCall e = false) rest ->
            a <> AwaitReadFile ->
            l = refreshStarted appPath previous ++ decoratorsExecuted d ++ rest ->
            exists previous : option nat,
              (a = Returned /\ l = previousStopped previous ++ [Call forceUpdate])
              \/ (a = AwaitReadFile /\ l = refreshStarted appPath previous)
              \/ (exists reason,
                    a = Returned
                    /\ l = refreshStarted appPath previous ++ [Settled (Rejection reason)])
              \/ (exists decorators rest,
                    a <> AwaitReadFile
                    /\ l = refreshStarted appPath previous
                           ++ [Settled (File decorators);
                               Call (ExecuteCode
                                       (transpile decorators
                                          {| TypeScript.module := TypeScript.ModuleKind_None;
                                             TypeScript.target := TypeScript.ES5;
                                             TypeScript.experimentalDecorators := true |})
                                       "__editor__decorators__.js")]
                           ++ rest
                    /\ Forall (fun e => decoratorsCall e = false) rest)).
  { intros previous d rest Hr Ha ->. exists previous. right. right. right.
    exists d, rest. done. }
  intros Hl.
  inversion Hl as [previous|previous|previous reason'|previous d|previous d reason'
                  |previous d p k|previous d p k|previous d p k|previous d p k
                  |previous d p k|previous d p k r0|previous d p k r0 v
                  |previous d p k r0 reason'|previous d p|previous d p v
                  |previous d p reason']; subst.
  - exists previous. by left.
  - exists previous. right. by left.
  - exists previous. right. right. left. by exists reason'.
  - apply (Hrest previous d []); [constructor|done|by rewrite app_nil_r].
  - apply (Hrest previous d [Settled (Rejection reason')]); [repeat constructor|done|done].
  - apply (Hrest previous d ([Settled Done] ++ polls p k ++ [Call (pathExists p)]));
      [|done|flatten].
    repeat (apply Forall_app; split); try apply polls_no_decorators; repeat constructor.
  - apply (Hrest previous d
             ([Settled Done] ++ polls p k
              ++ [Call (pathExists p); Settled (Exists false); Call (Wait 500)]));
      [|done|flatten].
    repeat (apply Forall_app; split); try apply polls_no_decorators; repeat constructor.
  - apply (Hrest previous d ([Settled Done] ++ polls p k)); [|done|flatten].
    repeat (apply Forall_app; split); try apply polls_no_decorators; repeat constructor.
  - apply (Hrest previous d
             ([Settled Done] ++ polls p k
              ++ [Call (pathExists p); Settled (Exists true)]));
      [|done|flatten].
    repeat (apply Forall_app; split); try apply polls_no_decorators; repeat constructor.
  - apply (Hrest previous d
             ([Settled Done] ++ polls p k
              ++ [Call (pathExists p); Settled (Exists true);
                  Call (watch p "utf-8" None)]));
      [|done|flatten].
    repeat (apply Forall_app; split); try apply polls_no_decorators; repeat constructor.
  - apply (Hrest previous d ([Settled Done] ++ waitedWatchedAsked p k r0));
      [|done|flatten].
    unfold waitedWatchedAsked.
    repeat (apply Forall_app; split); try apply polls_no_decorators; repeat constructor.
  - apply (Hrest previous d
             ([Settled Done] ++ waitedWatchedAsked p k r0 ++ resultStored v));
      [|done|flatten].
    unfold waitedWatchedAsked, resultStored.
    repeat (apply Forall_app; split); try apply polls_no_decorators; repeat constructor.
  - apply (Hrest previous d
             ([Settled Done] ++ waitedWatchedAsked p k r0
              ++ [Settled (Rejection reason')]));
      [|done|flatten].
    unfold waitedWatchedAsked.
    repeat (apply Forall_app; split); try apply polls_no_decorators; repeat constructor.
  - apply (Hrest previous d ([Settled Done] ++ [Call (GetInspectorValues p)]));
      [repeat constructor|done|flatten].
  - apply (Hrest previous d
             ([Settled Done] ++ [Call (GetInspectorValues p)] ++ resultStored v));
      [repeat constructor|done|flatten].
  - apply (Hrest previous d
             ([Settled Done] ++ [Call (GetInspectorValues p)]
              ++ [Settled (Rejection reason')]));
      [repeat constructor|done|flatten].
Qed.

(** A task continues where it is in the list of tasks. *)
Lemma settle_tasks (w : World) (i : nat) (r : Answer) (t : Task) (step : Step) :
  tasks w !! i = Some t ->
  continue (at_ t) r = Some step ->
  tasks (settle i r w)
  = <[i := {| at_ := fst (snd (step w)); log := log t ++ snd (snd (step w)) |}]> (tasks w).
Proof.
  intros L Ec. unfold settle. rewrite L, Ec.
  pose proof (continue_setting _ _ _ w Ec) as (St & _).
  destruct (step w) as [w' [a evs]]. cbn in *. by rewrite St.
Qed.

(** C8. Every refresh of every run, whatever is selected and whichever
    script is attached or picked meanwhile, either stops at once for want
    of a script, or reads [assets/scripts/decorators.ts] under the
    application's path, as UTF-8; when the file's contents arrive it
    transpiles them with module kind [None], target ES5 and experimental
    decorators, and executes the result in the sandbox under the name
    [__editor__decorators__.js]; after that it reads no file and executes
    no code.  A refresh stops at once exactly when the script's name is
    ["None"]; and the contents are transpiled and executed whatever they
    are and whatever the component has become meanwhile. *)
Theorem decorators_refresh_is_fixed
    (actions : list Action) (w0 : World) (i : nat) (t : Task) :
  length (tasks w0) <= i ->
  tasks (run actions w0) !! i = Some t ->
  decoratorsRefreshed (AppPath w0) t
  /\ (forall w : World,
        tasks (_updateScriptVisibleProperties w)
        = tasks w
          ++ [if String.eqb (name (script (this w))) "None"
              then {| at_ := Returned;
                      log := previousStopped (_scriptWatcher (this w))
                             ++ [Call forceUpdate] |}
              else {| at_ := AwaitReadFile;
                      log := previousStopped (_scriptWatcher (this w))
                             ++ [Call (setState {| patch_refresing := Some true;
                                                   patch_inspectorValues := None |});
                                 Call (readFile
                                         (join [AppPath w; "assets"; "scripts";
                                                "decorators.ts"])
                                         "utf-8")] |}])
  /\ (forall (w : World) (j : nat) (t0 : Task) (decorators : string),
        tasks w !! j = Some t0 ->
        at_ t0 = AwaitReadFile ->
        tasks (settle j (File decorators) w)
        = <[j := {| at_ := AwaitExecuteCode;
                    log := log t0
                           ++ [Settled (File decorators);
                               Call (ExecuteCode
                                       (transpile decorators
                                          {| TypeScript.module := TypeScript.ModuleKind_None;
                                             TypeScript.target := TypeScript.ES5;
                                             TypeScript.experimentalDecorators := true |})
                                       "__editor__decorators__.js")] |}]> (tasks w)).
Proof.
  intros Hi Lt. split; [|split].
  - apply (refreshLog_decorators _ (skips i actions w0)). by apply run_refreshLog.
  - intros w. destruct (updateScriptVisibleProperties_tasks w) as [-> _].
    f_equal. f_equal. unfold start.
    destruct (_scriptWatcher (this w)) as [r|]; cbn;
      destruct (String.eqb (name (script (this w))) "None"); reflexivity.
  - intros w j t0 decorators L Ea.
    rewrite (settle_tasks w j (File decorators) t0
               (fun w => (w, (AwaitExecuteCode, _refreshDecorators_transpile decorators)))
               L); [done|].
    by rewrite Ea.
Qed.

(** *** The order of a refresh *)

(** An event that occurs once in a list splits the list in one way. *)
Lemma split_at_only (A : Type) (P : A -> bool) (l1 l2 k1 k2 : list A) (x y : A) :
  Forall (fun e => P e = false) k1 ->
  Forall (fun e => P e = false) k2 ->
  P x = true -> P y = true ->
  l1 ++ x :: l2 = k1 ++ y :: k2 ->
  l1 = k1 /\ x = y /\ l2 = k2.
Proof.
  revert k1. induction l1 as [|a l1 IH]; intros k1 Hk1 Hk2 Px Py E.
  - destruct k1 as [|b k1]; cbn in E.
    + by injection E as -> ->.
    + injection E as -> _. apply Forall_cons in Hk1 as [Hb _]. congruence.
  - destruct k1 as [|b k1]; cbn in E.
    + injection E as -> E. rewrite <- E in Hk2.
      apply Forall_app in Hk2 as [_ Hk2]. apply Forall_cons in Hk2 as [Hx _]. congruence.
    + injection E as -> E. apply Forall_cons in Hk1 as [_ Hk1].
      destruct (IH k1 Hk1 Hk2 Px Py E) as (-> & -> & ->). done.
Qed.

Lemma polls_no_ask (jsPath : string) (k : nat) :
  Forall (fun e => isAsk e = false) (polls jsPath k).
Proof.
  induction k as [|k IH]; cbn [polls]; [constructor|].
  apply Forall_app. split; [done|]. repeat constructor.
Qed.

Lemma refreshStarted_no_ask (appPath : string) (previous : option nat) :
  Forall (fun e => isAsk e = false) (refreshStarted appPath previous).
Proof.
  unfold refreshStarted, previousStopped. destruct previous; repeat constructor.
Qed.

Lemma decoratorsExecuted_no_ask (decorators : string) :
  Forall (fun e => isAsk e = false) (decoratorsExecuted decorators).
Proof. repeat constructor. Qed.

Lemma decoratorsDone_no_ask (appPath : string) (previous : option nat) (d : string) :
  Forall (fun e => isAsk e = false) (decoratorsDone appPath previous d).
Proof.
  unfold decoratorsDone. apply Forall_app. split; [apply refreshStarted_no_ask|].
  repeat constructor.
Qed.

Lemma no_ask_splits (l : list Event) :
  Forall (fun e => isAsk e = false) l -> waitsWatchesThenAsks l.
Proof.
  intros Hl l1 l2 jsPath E. rewrite E in Hl.
  apply Forall_app in Hl as [_ Hl]. apply Forall_cons in Hl as [Hl _]. discriminate.
Qed.

(** The log of the three steps, with anything that is not a question after
    it, is in the order of the specification. *)
Lemma waitedWatchedAsked_ordered (pre post : list Event) (jsPath : string) (k r : nat) :
  Forall (fun e => isAsk e = false) pre ->
  Forall (fun e => isAsk e = false) post ->
  waitsWatchesThenAsks (pre ++ waitedWatchedAsked jsPath k r ++ post).
Proof.
  intros Hpre Hpost l1 l2 p E. unfold waitedWatchedAsked in E.
  set (front := pre ++ polls jsPath k
                ++ [Call (pathExists jsPath); Settled (Exists true);
                    Call (watch jsPath "utf-8" (Some r))]).
  assert (E' : l1 ++ Call (GetInspectorValues p) :: l2
               = front ++ Call (GetInspectorValues jsPath) :: post).
  { rewrite <- E. unfold front. by rewrite <- !app_assoc. }
  assert (Hfront : Forall (fun e => isAsk e = false) front).
  { unfold front. apply Forall_app. split; [done|]. apply Forall_app.
    split; [apply polls_no_ask | repeat constructor]. }
  destruct (split_at_only _ isAsk l1 l2 front post
              (Call (GetInspectorValues p)) (Call (GetInspectorValues jsPath))
              Hfront Hpost eq_refl eq_refl E')
    as (-> & Ex & ->).
  injection Ex as ->. exists (pre ++ polls jsPath k), r. unfold front.
  by rewrite <- app_assoc.
Qed.

(** Proves that a log made of the parts above holds no question. *)
Ltac no_ask :=
  repeat match goal with
         | |- Forall _ (decoratorsDone _ _ _) => apply decoratorsDone_no_ask
         | |- Forall _ (refreshStarted _ _) => apply refreshStarted_no_ask
         | |- Forall _ (decoratorsExecuted _) => apply decoratorsExecuted_no_ask
         | |- Forall _ (polls _ _) => apply polls_no_ask
         | |- Forall _ (previousStopped ?p) => destruct p; cbn [previousStopped]
         | |- Forall _ (_ ++ _) => apply Forall_app; split
         | |- Forall _ (_ :: _) => constructor; [reflexivity|]
         | |- Forall _ [] => constructor
         end.

(** A refresh that has found no watcher at line 281 has asked the sandbox,
    if at all, after a successful poll and the installation of a
    watcher. *)
Lemma refreshLog_ordered (appPath : string) (a : Await) (l : list Event) :
  refreshLog appPath false a l -> waitsWatchesThenAsks l.
Proof.
  intros Hl.
  inversion Hl as [previous|previous|previous reason'|previous d|previous d reason'
                  |previous d p k|previous d p k|previous d p k|previous d p k
                  |previous d p k|previous d p k r0|previous d p k r0 v
                  |previous d p k r0 reason'|previous d p|previous d p v
                  |previous d p reason']; subst;
    try (apply no_ask_splits; no_ask; fail).
  - rewrite <- (app_nil_r (waitedWatchedAsked p k r0)).
    apply waitedWatchedAsked_ordered; no_ask.
  - apply waitedWatchedAsked_ordered; unfold resultStored; no_ask.
  - apply waitedWatchedAsked_ordered; no_ask.
Qed.

(** A refresh that has found one has asked right after the decorators. *)
Lemma refreshLog_asked_at_once (appPath : string) (a : Await) (l : list Event) :
  refreshLog appPath true a l -> ~ waitsWatchesThenAsks l.
Proof.
  intros Hl Ho.
  assert (Hlast : forall previous d l0 (r : nat) (p : string),
            decoratorsDone appPath previous d
            = l0 ++ [Call (pathExists p); Settled (Exists true);
                     Call (watch p "utf-8" (Some r))] -> False).
  { intros previous d l0 r p E. unfold decoratorsDone in E.
    apply (f_equal last) in E.
    change (l0 ++ [Call (pathExists p); Settled (Exists true);
                   Call (watch p "utf-8" (Some r))])
      with (l0 ++ [Call (pathExists p); Settled (Exists true)]
               ++ [Call (watch p "utf-8" (Some r))]) in E.
    rewrite !app_assoc, !last_snoc in E. discriminate. }
  inversion Hl as [previous|previous|previous reason'|previous d|previous d reason'
                  |previous d p k|previous d p k|previous d p k|previous d p k
                  |previous d p k|previous d p k r0|previous d p k r0 v
                  |previous d p k r0 reason'|previous d p|previous d p v
                  |previous d p reason']; subst.
  - destruct (Ho (decoratorsDone appPath previous d) [] p eq_refl) as (l0 & r & E).
    by apply (Hlast _ _ _ _ _ E).
  - destruct (Ho (decoratorsDone appPath previous d) (resultStored v) p eq_refl)
      as (l0 & r & E).
    by apply (Hlast _ _ _ _ _ E).
  - destruct (Ho (decoratorsDone appPath previous d) [Settled (Rejection reason')] p
                eq_refl) as (l0 & r & E).
    by apply (Hlast _ _ _ _ _ E).
Qed.

(** The compiled script is the script with its extension replaced by
    [.js], under the workspace's [build] directory. *)
Lemma jsPathOf_replaces_extension (w : World) (stem : string) :
  name (script (this w)) = stem +:+ extname (name (script (this w))) ->
  jsPathOf w = Some (join [DirPath w; "build"; normalize (stem +:+ ".js")]).
Proof.
  intros E. unfold jsPathOf.
  remember (extname (name (script (this w)))) as ext eqn:Eext. rewrite E.
  rewrite lastIndexOf_suffix.
  replace (Z.eqb (Z.of_nat (String.length stem)) (-1)) with false
    by (symmetry; apply Z.eqb_neq; lia).
  unfold Js.substr0. by rewrite Nat2Z.id, take_app.
Qed.

Lemma jsPathOf_same (w0 w : World) :
  script (this w) = script (this w0) -> DirPath w = DirPath w0 ->
  jsPathOf w = jsPathOf w0.
Proof. intros Es Ed. unfold jsPathOf. by rewrite Es, Ed. Qed.

(** An answer wakes no refresh that has returned, and none that does not
    exist. *)
Lemma settle_other (old : list Task) (w : World) (t : Task) (i : nat) (r : Answer) :
  finished old ->
  tasks w = old ++ [t] ->
  i <> length old ->
  settle i r w = w.
Proof.
  intros Hold Ht Hne. unfold settle. rewrite Ht.
  destruct ((old ++ [t]) !! i) as [t0|] eqn:L; [|done].
  apply lookup_app_Some in L as [L|[Hle L]].
  - unfold finished in Hold. rewrite Forall_lookup in Hold.
    by rewrite (Hold i t0 L).
  - destruct (i - length old) as [|n] eqn:D; [lia|]. by destruct n.
Qed.

(** *** A refresh that is answered runs through all its steps *)

Lemma settle_at (w0 w : World) (a : Await) (l : list Event) (r : Answer) (step : Step) :
  tasks w = tasks w0 ++ [{| at_ := a; log := l |}] ->
  continue a r = Some step ->
  settle (length (tasks w0)) r w
  = set_tasks (fun _ => tasks w0 ++ [{| at_ := fst (snd (step w));
                                        log := l ++ snd (snd (step w)) |}])
      (fst (step w)).
Proof.
  intros Ht Ec. unfold settle. rewrite Ht, list_lookup_middle by done.
  cbn [at_ log]. rewrite Ec.
  pose proof (continue_setting _ _ _ w Ec) as (St & _).
  destruct (step w) as [w' [a' evs]]. cbn [fst snd] in *.
  unfold set_tasks. rewrite St, Ht.
  rewrite insert_app_r_alt by done. by rewrite Nat.sub_diag.
Qed.

Lemma refreshAt_step (w0 w : World) (a a' : Await) (l evs : list Event) (r : Answer) :
  refreshAt w0 w a l ->
  continue a r = Some (fun w => (w, (a', evs))) ->
  refreshAt w0 (settle (length (tasks w0)) r w) a' (l ++ evs).
Proof.
  intros (Ht & M & Es & Ed & Hw & Hws & Hu) Ec.
  rewrite (settle_at w0 w a l r _ Ht Ec). by repeat split.
Qed.

Lemma start_refreshAt (w0 : World) :
  name (script (this w0)) <> "None" ->
  isMounted (this w0) = true ->
  refreshAt w0 (_updateScriptVisibleProperties w0) AwaitReadFile
    (refreshStarted (AppPath w0) (_scriptWatcher (this w0))).
Proof.
  intros Hn M. apply String.eqb_neq in Hn.
  unfold refreshAt, previousClosed, _updateScriptVisibleProperties, start.
  destruct (_scriptWatcher (this w0)) as [r|] eqn:W; cbn; rewrite Hn; cbn;
    unfold applyPatch; cbn; rewrite M; cbn; by repeat split.
Qed.

(** [k] polls that do not find the compiled script. *)
Lemma polls_refreshAt (jsPath : string) (base : list Event) (w0 : World) (k : nat) :
  forall (w : World) (k0 : nat),
    refreshAt w0 w (AwaitPathExists jsPath)
      (base ++ polls jsPath k0 ++ [Call (pathExists jsPath)]) ->
    refreshAt w0
      (run (concat (replicate k [Settle (length (tasks w0)) (Exists false);
                                 Settle (length (tasks w0)) Done])) w)
      (AwaitPathExists jsPath)
      (base ++ polls jsPath (k + k0) ++ [Call (pathExists jsPath)]).
Proof.
  induction k as [|k IH]; intros w k0 Hat; [done|].
  cbn [replicate concat]. rewrite run_app.
  replace (S k + k0) with (k + S k0) by lia. apply IH.
  unfold run. cbn [foldl act].
  pose proof (refreshAt_step w0 w _ (AwaitWait jsPath) _
                [Settled (Exists false); Call (Wait 500)] (Exists false) Hat eq_refl)
    as Hwait.
  destruct Hwait as (Ht & M & Es & Ed & Hw & Hws & Hu).
  rewrite (settle_at w0 _ _ _ Done _ Ht eq_refl).
  unfold loopHead. rewrite M. cbn [fst snd].
  split; [|by repeat split].
  cbn [set_tasks tasks polls]. rewrite <- !app_assoc. reflexivity.
Qed.

(** Answered as in [answered], a refresh of an attached script in a
    mounted component, whose compiled script can be watched, runs through
    all its steps, in the order of the specification. *)
Lemma answered_refresh_completes (w0 : World) (decorators jsPath : string) (k : nat)
    (values : option (list Sandbox.IExportedInspectorValue)) :
  name (script (this w0)) <> "None" ->
  isMounted (this w0) = true ->
  jsPathOf w0 = Some jsPath ->
  existsb (String.eqb jsPath) (unwatchable w0) = false ->
  let w := run (Refresh :: answered (length (tasks w0)) decorators k values) w0 in
  tasks w
  = tasks w0
    ++ [{| at_ := Returned;
           log := refreshStarted (AppPath w0) (_scriptWatcher (this w0))
                  ++ decoratorsExecuted decorators
                  ++ [Settled Done]
                  ++ waitedWatchedAsked jsPath k (length (watchers w0))
                  ++ resultStored values |}]
  /\ watchers w = previousClosed w0 ++ [{| filename := jsPath; closed := false |}]
  /\ _scriptWatcher (this w) = Some (length (watchers w0))
  /\ inspectorValues (state (this w)) = default [] values
  /\ refresing (state (this w)) = false.
Proof.
  intros Hn M Ej Hu w.
  set (n := length (tasks w0)).
  assert (Hlen : length (previousClosed w0) = length (watchers w0)).
  { unfold previousClosed, closeWatcher. destruct (_scriptWatcher (this w0)) as [r|]; [|done].
    destruct (watchers w0 !! r); [|done]. apply length_insert. }
  (* the decorators *)
  pose proof (start_refreshAt w0 Hn M) as H1.
  pose proof (refreshAt_step w0 _ _ AwaitExecuteCode _ (decoratorsExecuted decorators)
                (File decorators) H1 eq_refl) as H2.
  (* the first poll *)
  assert (H3 : refreshAt w0
                 (settle n Done
                    (settle n (File decorators) (_updateScriptVisibleProperties w0)))
                 (AwaitPathExists jsPath)
                 ((refreshStarted (AppPath w0) (_scriptWatcher (this w0))
                   ++ decoratorsExecuted decorators ++ [Settled Done])
                  ++ polls jsPath 0 ++ [Call (pathExists jsPath)])).
  { destruct H2 as (Ht & M2 & Es & Ed & Hw & Hws & Hu2).
    unfold n. rewrite (settle_at w0 _ _ _ Done _ Ht eq_refl).
    unfold afterDecorators. rewrite (jsPathOf_same w0 _ Es Ed), Ej, Hw.
    unfold loopHead. rewrite M2. cbn [fst snd].
    split; [|by repeat split].
    cbn [set_tasks tasks polls]. rewrite <- !app_assoc. reflexivity. }
  (* the polls that fail *)
  pose proof (polls_refreshAt jsPath _ w0 k _ 0 H3) as H4.
  rewrite Nat.add_0_r in H4.
  (* the poll that succeeds, and the question *)
  destruct H4 as (Ht & M4 & Es & Ed & Hw & Hws & Hu4).
  set (w4 := run (concat _) _) in *.
  assert (Ew : w = settle n (Values values) (settle n (Exists true) w4)).
  { unfold w, w4, answered. fold n.
    change (Refresh :: [Settle n (File decorators); Settle n Done]
                       ++ concat (replicate k [Settle n (Exists false); Settle n Done])
                       ++ [Settle n (Exists true); Settle n (Values values)])
      with ([Refresh; Settle n (File decorators); Settle n Done]
            ++ concat (replicate k [Settle n (Exists false); Settle n Done])
            ++ [Settle n (Exists true); Settle n (Values values)]).
    by rewrite !run_app. }
  rewrite Ew. clear Ew. unfold n.
  rewrite (settle_at w0 w4 _ _ (Exists true) _ Ht eq_refl).
  cbv beta iota delta [negb]. unfold afterLoop. rewrite M4, Hu4, Hu.
  cbv beta iota delta [negb]. unfold query. cbv beta iota. cbn [fst snd].
  erewrite (settle_at w0 _ _ _ (Values values)); [|reflexivity|reflexivity].
  cbn [fst snd set_tasks tasks watchers set_this set_watchers this _scriptWatcher
       set_scriptWatcher]. unfold applyPatch.
  cbn [isMounted set_scriptWatcher]. rewrite M4.
  cbn [state inspectorValues refresing default _scriptWatcher patch_refresing
       patch_inspectorValues].
  rewrite Hws, Hlen. split; [|by repeat split].
  unfold waitedWatchedAsked, resultStored. rewrite <- !app_assoc. reflexivity.
Qed.

(** The sandbox's answer is stored in the state of a mounted component,
    and dropped otherwise. *)
Lemma settle_values (w : World) (i : nat) (t : Task) (jsPath : string)
    (values : option (list Sandbox.IExportedInspectorValue)) :
  tasks w !! i = Some t ->
  at_ t = AwaitGetInspectorValues jsPath ->
  state (this (settle i (Values values) w))
  = if isMounted (this w)
    then {| refresing := false;
            scripts := scripts (state (this w));
            inspectorValues := default [] values |}
    else state (this w).
Proof.
  intros L Ea. unfold settle. rewrite L, Ea. cbn. unfold applyPatch.
  by destruct (isMounted (this w)).
Qed.

(** C3, as amended. When a script is attached and the inspector refreshes
    its visible properties, the refresh closes the previous watcher and
    reads and executes the decorators; it then reads [_scriptWatcher]
    (line 281).  If it finds no watcher there, the steps occur in the order
    of the specification: it waits for the compiled script, polling every
    500 ms; then it installs a watcher on that file; and only then it asks
    the sandbox for the exported values.  If it finds a watcher, which
    another refresh has installed since this one started, it asks the
    sandbox at once, without waiting and without installing a watcher.
    This holds of every refresh of every run, whatever the answers,
    whenever the component is unmounted and however the refreshes overlap:
    the log of the refresh is one of those of [refreshLog], and each
    question to the sandbox comes right after the installation of a
    watcher on the same file, itself right after a successful poll for
    that file, exactly when the refresh has found no watcher at line 281.
    When the component stays mounted, the compiled script can be watched
    and every step is answered, the refresh runs through all the steps,
    for any number of polls, and the sandbox's answer is stored in the
    component's state; the answer is stored only if the component is
    mounted when it arrives.  The compiled script is the script with its
    extension replaced by [.js] under the workspace's [build] directory,
    and a [change] event of an open watcher runs the same refresh
    again. *)
Theorem refresh_waits_watches_then_asks
    (actions : list Action) (w0 : World) (i : nat) (t : Task) :
  length (tasks w0) <= i ->
  tasks (run actions w0) !! i = Some t ->
  (skips i actions w0 = false <-> waitsWatchesThenAsks (log t))
  /\ refreshLog (AppPath w0) (skips i actions w0) (at_ t) (log t)
  /\ (forall (decorators jsPath : string) (k : nat)
             (values : option (list Sandbox.IExportedInspectorValue)),
        name (script (this w0)) <> "None" ->
        isMounted (this w0) = true ->
        jsPathOf w0 = Some jsPath ->
        existsb (String.eqb jsPath) (unwatchable w0) = false ->
        let w := run (Refresh :: answered (length (tasks w0)) decorators k values) w0 in
        tasks w
        = tasks w0
          ++ [{| at_ := Returned;
                 log := refreshStarted (AppPath w0) (_scriptWatcher (this w0))
                        ++ decoratorsExecuted decorators
                        ++ [Settled Done]
                        ++ waitedWatchedAsked jsPath k (length (watchers w0))
                        ++ resultStored values |}]
        /\ watchers w = previousClosed w0 ++ [{| filename := jsPath; closed := false |}]
        /\ _scriptWatcher (this w) = Some (length (watchers w0))
        /\ inspectorValues (state (this w)) = default [] values
        /\ refresing (state (this w)) = false)
  /\ (forall (w : World) (j : nat) (t0 : Task) (jsPath : string)
             (values : option (list Sandbox.IExportedInspectorValue)),
        tasks w !! j = Some t0 ->
        at_ t0 = AwaitGetInspectorValues jsPath ->
        state (this (settle j (Values values) w))
        = if isMounted (this w)
          then {| refresing := false;
                  scripts := scripts (state (this w));
                  inspectorValues := default [] values |}
          else state (this w))
  /\ (forall stem,
        name (script (this w0)) = stem +:+ extname (name (script (this w0))) ->
        jsPathOf w0 = Some (join [DirPath w0; "build"; normalize (stem +:+ ".js")]))
  /\ (forall (w : World) (r : nat) (fw : FSWatcher),
        watchers w !! r = Some fw -> closed fw = false ->
        act (WatchEvent r "change") w = _updateScriptVisibleProperties w).
Proof.
  intros Hi Lt.
  pose proof (run_refreshLog actions w0 i t Hi Lt) as Hl.
  split; [|split; [done|split; [|split; [|split]]]].
  - destruct (skips i actions w0).
    + split; [discriminate|]. intros Ho. by destruct (refreshLog_asked_at_once _ _ _ Hl).
    + split; [|done]. intros _. by apply (refreshLog_ordered (AppPath w0) (at_ t)).
  - intros decorators jsPath k values Hn M Ej Hu.
    by apply answered_refresh_completes.
  - apply settle_values.
  - apply jsPathOf_replaces_extension.
  - intros w r fw L C. cbn [act]. rewrite L, C. reflexivity.
Qed.

(** *** Watchers and the component's life *)

(** The polling loop is left only when the compiled script exists or the
    component has been unmounted. *)
Lemma polling_ends_only_when_found_or_unmounted
    (jsPath : string) (a : Await) (r : Answer) (step : Step) (w : World) :
  polling a jsPath ->
  continue a r = Some step ->
  polling (fst (snd (step w))) jsPath \/ r = Exists true \/ isMounted (this w) = false.
Proof.
  intros [->| ->] Ec; destruct r as [decorators| |b|values|reason]; cbn in Ec;
    try discriminate; injection Ec as <-.
  - destruct b; [by right; left|]. left. by right.
  - unfold loopHead. destruct (isMounted (this w)) eqn:M; [|by right; right].
    left. by left.
Qed.

(** A refresh that finds the component unmounted while it polls installs no
    watcher and asks the sandbox nothing: it returns, at the latest after
    the wait in progress. *)
Lemma unmounted_refresh_returns
    (jsPath : string) (a : Await) (r : Answer) (step : Step) (w : World) :
  polling a jsPath ->
  isMounted (this w) = false ->
  continue a r = Some step ->
  fst (step w) = w
  /\ (fst (snd (step w)) = Returned
      \/ (a = AwaitPathExists jsPath /\ r = Exists false
          /\ fst (snd (step w)) = AwaitWait jsPath))
  /\ Forall (fun e => installsOrAsks e = false) (snd (snd (step w))).
Proof.
  intros [->| ->] M Ec; destruct r as [decorators| |b|values|reason]; cbn in Ec;
    try discriminate; injection Ec as <-.
  - destruct b; cbv beta iota delta [negb].
    + unfold afterLoop. rewrite M. cbn. split; [done|]. split; [by left|].
      repeat constructor.
    + cbn. split; [done|]. split; [by right|]. repeat constructor.
  - unfold loopHead, afterLoop. rewrite M. cbn. split; [done|]. split; [by left|].
    repeat constructor.
Qed.

(** [componentWillUnmount] closes the watcher [_scriptWatcher] refers to. *)
Lemma componentWillUnmount_closes (w : World) (r : nat) (fw : FSWatcher) :
  _scriptWatcher (this w) = Some r ->
  watchers w !! r = Some fw ->
  watchers (componentWillUnmount w) !! r
    = Some {| filename := filename fw; closed := true |}
  /\ isMounted (this (componentWillUnmount w)) = false.
Proof.
  intros Hw L. unfold componentWillUnmount, super_componentWillUnmount.
  cbn [set_this this set_isMounted _scriptWatcher]. rewrite Hw.
  cbn [set_watchers watchers this isMounted]. split; [|done].
  change (watchers (set_this (set_isMounted false) w)) with (watchers w).
  unfold closeWatcher. rewrite L.
  apply list_lookup_insert_eq. by apply lookup_lt_Some in L.
Qed.

Lemma closeWatcher_open (ws : list FSWatcher) (r r' : nat) (fw' : FSWatcher) :
  closeWatcher r ws !! r' = Some fw' -> closed fw' = false ->
  ws !! r' = Some fw' /\ r' <> r.
Proof.
  unfold closeWatcher. intros L C.
  destruct (ws !! r) as [fw|] eqn:Lr.
  - destruct (decide (r = r')) as [->|Hne].
    + rewrite list_lookup_insert_eq in L by (by apply lookup_lt_Some in Lr).
      injection L as <-. discriminate.
    + rewrite list_lookup_insert_ne in L by done. split; [done|]. congruence.
  - split; [done|]. intros ->. congruence.
Qed.

(** What the start of a refresh leaves of the component and of the
    watchers. *)
Lemma start_world (w : World) :
  watchers (fst (start w)) = previousClosed w
  /\ _scriptWatcher (this (fst (start w))) = None
  /\ isMounted (this (fst (start w))) = isMounted (this w).
Proof.
  unfold start, previousClosed.
  destruct (_scriptWatcher (this w)) as [r|];
    cbn [set_watchers set_this this script set_scriptWatcher name];
    destruct (String.eqb (name (script (this w))) "None");
    unfold set_this, set_watchers; cbn [fst this watchers];
    rewrite ?applyPatch_scriptWatcher, ?applyPatch_isMounted; done.
Qed.





End RefreshFacts.

Lemma decorators_refresh_is_fixed_witness :
  exists t,
    ScriptInspector.tasks
      (ScriptInspector.run (H := Posix.path) (H0 := sampleCompiler)
         scriptChangedWhilePolling sampleWorld) !! 1 = Some t
    /\ decoratorsRefreshed (H := Posix.path) (H0 := sampleCompiler) "/opt/editor" t
    /\ (forall w : ScriptInspector.World,
          ScriptInspector.tasks
            (ScriptInspector._updateScriptVisibleProperties (H := Posix.path) w)
          = ScriptInspector.tasks w
            ++ [if String.eqb (ScriptInspector.name
                                 (ScriptInspector.script (ScriptInspector.this w))) "None"
                then {| ScriptInspector.at_ := ScriptInspector.Returned;
                        ScriptInspector.log :=
                          previousStopped
                            (ScriptInspector._scriptWatcher (ScriptInspector.this w))
                          ++ [ScriptInspector.Call ScriptInspector.forceUpdate] |}
                else {| ScriptInspector.at_ := ScriptInspector.AwaitReadFile;
                        ScriptInspector.log :=
                          previousStopped
                            (ScriptInspector._scriptWatcher (ScriptInspector.this w))
                          ++ [ScriptInspector.Call
                                (ScriptInspector.setState
                                   {| ScriptInspector.patch_refresing := Some true;
                                      ScriptInspector.patch_inspectorValues := None |});
                              ScriptInspector.Call
                                (ScriptInspector.readFile
                                   (join (PathModule := Posix.path)
                                      [ScriptInspector.AppPath w; "assets"; "scripts";
                                       "decorators.ts"])
                                   "utf-8")] |}])
    /\ (forall (w : ScriptInspector.World) (j : nat) (t0 : ScriptInspector.Task)
               (decorators : string),
          ScriptInspector.tasks w !! j = Some t0 ->
          ScriptInspector.at_ t0 = ScriptInspector.AwaitReadFile ->
          ScriptInspector.tasks
            (ScriptInspector.settle (H := Posix.path) (H0 := sampleCompiler)
               j (ScriptInspector.File decorators) w)
          = <[j := {| ScriptInspector.at_ := ScriptInspector.AwaitExecuteCode;
                      ScriptInspector.log :=
                        ScriptInspector.log t0
                        ++ [ScriptInspector.Settled (ScriptInspector.File decorators);
                            ScriptInspector.Call
                              (ScriptInspector.ExecuteCode
                                 (transpile (TypeScriptModule := sampleCompiler) decorators
                                    {| TypeScript.module := TypeScript.ModuleKind_None;
                                       TypeScript.target := TypeScript.ES5;
                                       TypeScript.experimentalDecorators := true |})
                                 "__editor__decorators__.js")] |}]>
              (ScriptInspector.tasks w)).
Proof.
  eexists. split.
  - vm_compute. reflexivity.
  - apply (@decorators_refresh_is_fixed Posix.path sampleCompiler
             scriptChangedWhilePolling sampleWorld 1 _ ltac:(cbn; lia)).
    vm_compute. reflexivity.
Defined.

(** The log of the refresh of the sample run whose script was picked
    while another refresh polled: the decorators are those of the
    application, whatever the script. *)
Example decorators_of_a_picked_script :
  ScriptInspector.tasks
    (ScriptInspector.run (H := Posix.path) (H0 := sampleCompiler)
       [ScriptInspector.ListChange "src/menu.ts";
        ScriptInspector.Settle 0 (ScriptInspector.File "export var x = 1;")]
       sampleWorld)
  = [ {| ScriptInspector.at_ := ScriptInspector.AwaitExecuteCode;
         ScriptInspector.log :=
           [ScriptInspector.Call
              (ScriptInspector.setState
                 {| ScriptInspector.patch_refresing := Some true;
                    ScriptInspector.patch_inspectorValues := None |});
            ScriptInspector.Call
              (ScriptInspector.readFile "/opt/editor/assets/scripts/decorators.ts" "utf-8");
            ScriptInspector.Settled (ScriptInspector.File "export var x = 1;");
            ScriptInspector.Call
              (ScriptInspector.ExecuteCode "export var x = 1;"
                 "__editor__decorators__.js")] |} ].
Proof. vm_compute. reflexivity. Qed.

Lemma refresh_waits_watches_then_asks_witness :
  exists t,
    ScriptInspector.tasks
      (ScriptInspector.run (H := Posix.path) (H0 := sampleCompiler)
         changeWhileAsking sampleWorld) !! 1 = Some t
    /\ ScriptInspector.log t
       = refreshStarted (H := Posix.path) "/opt/editor" (Some 0)
         ++ decoratorsExecuted (H := sampleCompiler) ""
         ++ [ScriptInspector.Settled ScriptInspector.Done]
         ++ waitedWatchedAsked "/home/project/build/src/game.js" 0 1
         ++ resultStored None
    /\ skips (H := Posix.path) (H0 := sampleCompiler) 1 changeWhileAsking sampleWorld
       = false
    /\ waitsWatchesThenAsks (ScriptInspector.log t).
Proof.
  eexists. split; [vm_compute; reflexivity|]. split; [vm_compute; reflexivity|].
  split; [vm_compute; reflexivity|].
  apply (proj1 (@refresh_waits_watches_then_asks Posix.path sampleCompiler
                  changeWhileAsking sampleWorld 1 _ ltac:(cbn; lia)
                  ltac:(vm_compute; reflexivity))).
  vm_compute. reflexivity.
Defined.

(** The log of the sample refresh: two polls 500 ms apart, the watcher, the
    question, and the answer stored. *)
Example quietRefresh_log :
  ScriptInspector.log
    <$> ScriptInspector.tasks
          (ScriptInspector.run (H := Posix.path) (H0 := sampleCompiler)
             (ScriptInspector.Refresh :: quietRefresh) sampleWorld) !! 0
  = Some
      (refreshStarted (H := Posix.path) "/opt/editor" None
       ++ decoratorsExecuted (H := sampleCompiler) "export function visibleInInspector() {}"
       ++ [ScriptInspector.Settled ScriptInspector.Done]
       ++ waitedWatchedAsked "/home/project/build/src/game.js" 1 0
       ++ resultStored None).
Proof. vm_compute. reflexivity. Qed.

(** The compiled script changes while the first refresh awaits the
    sandbox: the second refresh, started by the watcher, closes that
    watcher, finds none at line 281, and waits, watches and asks in its
    turn; so does the first. *)
Example change_while_asking_keeps_the_order :
  let w := ScriptInspector.run (H := Posix.path) (H0 := sampleCompiler)
             changeWhileAsking sampleWorld in
  ScriptInspector.log <$> ScriptInspector.tasks w
  = [ refreshStarted (H := Posix.path) "/opt/editor" None
      ++ decoratorsExecuted (H := sampleCompiler) ""
      ++ [ScriptInspector.Settled ScriptInspector.Done]
      ++ waitedWatchedAsked "/home/project/build/src/game.js" 0 0
      ++ resultStored None;
      refreshStarted (H := Posix.path) "/opt/editor" (Some 0)
      ++ decoratorsExecuted (H := sampleCompiler) ""
      ++ [ScriptInspector.Settled ScriptInspector.Done]
      ++ waitedWatchedAsked "/home/project/build/src/game.js" 0 1
      ++ resultStored None ]
  /\ skips (H := Posix.path) (H0 := sampleCompiler) 0 changeWhileAsking sampleWorld = false
  /\ skips (H := Posix.path) (H0 := sampleCompiler) 1 changeWhileAsking sampleWorld = false.
Proof. vm_compute. repeat split. Qed.

(** C3, as stated, fails when refreshes overlap: the second refresh finds
    the watcher the first one has installed meanwhile (line 281), skips the
    wait and the installation, and asks the sandbox at once.  Its log holds
    no poll and no installation of a watcher. *)
Lemma overlapping_refresh_asks_without_waiting :
  exists t,
    ScriptInspector.tasks
      (ScriptInspector.run (H := Posix.path) (H0 := sampleCompiler)
         refreshWhilePolling sampleWorld) !! 1 = Some t
    /\ ScriptInspector.log t
       = refreshStarted (H := Posix.path) "/opt/editor" None
         ++ decoratorsExecuted (H := sampleCompiler) ""
         ++ [ScriptInspector.Settled ScriptInspector.Done;
             ScriptInspector.Call
               (ScriptInspector.GetInspectorValues "/home/project/build/src/game.js")]
    /\ skips (H := Posix.path) (H0 := sampleCompiler) 1 refreshWhilePolling sampleWorld
       = true
    /\ ~ waitsWatchesThenAsks (ScriptInspector.log t).
Proof.
  eexists. split; [vm_compute; reflexivity|]. split; [vm_compute; reflexivity|].
  split; [vm_compute; reflexivity|].
  intros Hordered.
  destruct (Hordered
              [ScriptInspector.Call
                 (ScriptInspector.setState
                    {| ScriptInspector.patch_refresing := Some true;
                       ScriptInspector.patch_inspectorValues := None |});
               ScriptInspector.Call
                 (ScriptInspector.readFile "/opt/editor/assets/scripts/decorators.ts"
                    "utf-8");
               ScriptInspector.Settled (ScriptInspector.File "");
               ScriptInspector.Call
                 (ScriptInspector.ExecuteCode "" "__editor__decorators__.js");
               ScriptInspector.Settled ScriptInspector.Done]
              [] "/home/project/build/src/game.js" eq_refl) as (l0 & r & E).
  apply (f_equal last) in E.
  change (l0 ++ [ScriptInspector.Call (ScriptInspector.pathExists _);
                 ScriptInspector.Settled (ScriptInspector.Exists true);
                 ScriptInspector.Call (ScriptInspector.watch _ "utf-8" (Some r))])
    with (l0 ++ [ScriptInspector.Call
                   (ScriptInspector.pathExists "/home/project/build/src/game.js");
                 ScriptInspector.Settled (ScriptInspector.Exists true)]
             ++ [ScriptInspector.Call
                   (ScriptInspector.watch "/home/project/build/src/game.js" "utf-8"
                      (Some r))])
    in E.
  rewrite app_assoc, last_snoc in E. discriminate.
Qed.

(** When the second refresh comes from the user picking another script, the
    file it asks the sandbox about is one no refresh has waited for, and the
    only watcher is on the compiled script picked before. *)
Example script_picked_meanwhile_is_not_watched :
  let w := ScriptInspector.run (H := Posix.path) (H0 := sampleCompiler)
             scriptChangedWhilePolling sampleWorld in
  ScriptInspector.log <$> ScriptInspector.tasks w !! 1
  = Some (refreshStarted (H := Posix.path) "/opt/editor" None
          ++ decoratorsExecuted (H := sampleCompiler) ""
          ++ [ScriptInspector.Settled ScriptInspector.Done;
              ScriptInspector.Call
                (ScriptInspector.GetInspectorValues "/home/project/build/src/menu.js")])
  /\ ScriptInspector.watchers w
     = [ {| ScriptInspector.filename := "/home/project/build/src/game.js";
            ScriptInspector.closed := false |} ].
Proof. vm_compute. split; reflexivity. Qed.

(** When [watch] throws, or the sandbox fails, the refresh ends there: no
    watcher is installed, nothing is stored. *)
Example failing_refreshes_end :
  let thrown :=
    ScriptInspector.run (H := Posix.path) (H0 := sampleCompiler)
      [ScriptInspector.FileSystem ["/home/project/build/src/game.js"];
       ScriptInspector.Refresh;
       ScriptInspector.Settle 0 (ScriptInspector.File "");
       ScriptInspector.Settle 0 ScriptInspector.Done;
       ScriptInspector.Settle 0 (ScriptInspector.Exists true)]
      sampleWorld in
  let rejected :=
    ScriptInspector.run (H := Posix.path) (H0 := sampleCompiler)
      [ScriptInspector.Refresh;
       ScriptInspector.Settle 0 (ScriptInspector.Rejection "ENOENT")]
      sampleWorld in
  ScriptInspector.tasks thrown
  = [ {| ScriptInspector.at_ := ScriptInspector.Returned;
         ScriptInspector.log :=
           refreshStarted (H := Posix.path) "/opt/editor" None
           ++ decoratorsExecuted (H := sampleCompiler) ""
           ++ [ScriptInspector.Settled ScriptInspector.Done;
               ScriptInspector.Call
                 (ScriptInspector.pathExists "/home/project/build/src/game.js");
               ScriptInspector.Settled (ScriptInspector.Exists true);
               ScriptInspector.Call
                 (ScriptInspector.watch "/home/project/build/src/game.js" "utf-8" None)] |} ]
  /\ ScriptInspector.watchers thrown = []
  /\ ScriptInspector._scriptWatcher (ScriptInspector.this thrown) = None
  /\ ScriptInspector.refresing (ScriptInspector.state (ScriptInspector.this thrown)) = true
  /\ ScriptInspector.tasks rejected
     = [ {| ScriptInspector.at_ := ScriptInspector.Returned;
            ScriptInspector.log :=
              refreshStarted (H := Posix.path) "/opt/editor" None
              ++ [ScriptInspector.Settled (ScriptInspector.Rejection "ENOENT")] |} ]
  /\ ScriptInspector.refresing (ScriptInspector.state (ScriptInspector.this rejected)) = true.
Proof. vm_compute. repeat split. Qed.

(** C10 at the failing input: two refreshes overlap, each installs a
    watcher, the second assignment to [_scriptWatcher] drops the reference
    to the first watcher, and [componentWillUnmount] closes only the
    second.  The first watcher is still open when the component is gone. *)
Theorem overlapping_refreshes_leak_a_watcher :
  let w := ScriptInspector.run (H := Posix.path) (H0 := sampleCompiler)
             refreshTwiceThenUnmount sampleWorld in
  ScriptInspector.isMounted (ScriptInspector.this w) = false
  /\ ScriptInspector.watchers w
     = [ {| ScriptInspector.filename := "/home/project/build/src/game.js";
            ScriptInspector.closed := false |};
         {| ScriptInspector.filename := "/home/project/build/src/game.js";
            ScriptInspector.closed := true |} ]
  /\ ScriptInspector._scriptWatcher (ScriptInspector.this w) = Some 1
  /\ ScriptInspector.openWatchers w
     = [ {| ScriptInspector.filename := "/home/project/build/src/game.js";
            ScriptInspector.closed := false |} ].
Proof. vm_compute. repeat split. Qed.

(* ===================================================================== *)
(** * Further properties *)
(* ===================================================================== *)

(** ** The video move handler: how the two operations compose *)

Section VideoMoveComposition.
Context `{PathModule}.
Import VideoMove.

Lemma moveFile_editor this from to w :
  editor (snd (moveFile this from to w)) = editor w.
Proof.
  unfold moveFile, _editor. destruct (scene (editor w)); [|done].
  cbn [snd]. apply forEach_editor.
Qed.

Lemma moved_class dir from to o :
  instanceofVideoTexture (moved dir from to o) = instanceofVideoTexture o.
Proof. unfold moved. by destruct (String.eqb _ from). Qed.

Lemma moveFile_isVideo this from to w sc r :
  scene (editor w) = Some sc ->
  isVideo (heap (snd (moveFile this from to w))) r = isVideo (heap w) r.
Proof.
  intros Hsc. unfold isVideo. rewrite (moveFile_lookup _ _ _ _ sc) by done.
  case_decide; [|done].
  destruct (heap w !! r) as [o|]; [|done]. cbn. apply moved_class.
Qed.

Lemma World_eq (w w' : World) :
  editor w = editor w' -> heap w = heap w' -> w = w'.
Proof. destruct w, w'. cbn. by intros -> ->. Qed.

(** X1. A video that has been moved is in use at its new path: when a
    video texture of the scene was recorded at [from], then after
    [moveFile(from, to)] the answer of [isFileUsed(to)] is [true]. *)
Theorem moved_video_is_used_at_new_path
    (this : AssetsBrowserVideoMoveHandler) (from to : string) (w : World)
    (sc : Scene) (r : Ref) (t : BaseTexture) :
  scene (editor w) = Some sc ->
  r ∈ textures sc ->
  heap w !! r = Some t ->
  instanceofVideoTexture t = true ->
  join [assetsDirectory (assetsBrowser (editor w)); name t] = from ->
  let w' := snd (moveFile this from to w) in
  isFileUsed this to w' = (Js.Resolved true, w').
Proof.
  intros Hsc Hin L Hv Hfrom w'.
  assert (He : editor w' = editor w) by apply moveFile_editor.
  assert (L' : heap w' !! r
               = Some (set_name (Js.replace to
                          (join [assetsDirectory (assetsBrowser (editor w)); "/"]) "") t)).
  { unfold w'. rewrite (moveFile_lookup _ _ _ _ sc) by done.
    rewrite decide_True by (split; [done|]; unfold isVideo; by rewrite L).
    rewrite L. cbn. unfold moved. by rewrite Hfrom, String.eqb_refl. }
  unfold isFileUsed, _editor. cbv beta. rewrite He, Hsc.
  match goal with
  | |- context [List.find ?p (textures sc)] =>
      destruct (List.find p (textures sc)) as [r'|] eqn:F; [done|];
      pose proof (find_none _ _ F r (proj1 (list_elem_of_In _ _) Hin)) as Hp
  end.
  cbv beta in Hp. rewrite L' in Hp. cbn in Hp. by rewrite Hv, String.eqb_refl in Hp.
Qed.

(** X2. Moving twice is moving once: a second [moveFile(from, to)] with
    the same arguments changes nothing any more, whatever the scene. *)
Theorem moveFile_idempotent
    (this : AssetsBrowserVideoMoveHandler) (from to : string) (w : World) :
  moveFile this from to (snd (moveFile this from to w)) = moveFile this from to w.
Proof.
  destruct (scene (editor w)) as [sc|] eqn:Hsc.
  - assert (He : editor (snd (moveFile this from to w)) = editor w)
      by apply moveFile_editor.
    assert (Hsc' : scene (editor (snd (moveFile this from to w))) = Some sc)
      by (by rewrite He).
    assert (Hh : heap (snd (moveFile this from to (snd (moveFile this from to w))))
                 = heap (snd (moveFile this from to w))).
    { apply map_eq. intros r.
      rewrite (moveFile_lookup _ _ _ _ sc) by done.
      rewrite (moveFile_isVideo _ _ _ _ sc) by done.
      rewrite He, (moveFile_lookup _ _ _ _ sc) by done.
      case_decide; [|done].
      destruct (heap w !! r) as [o|]; [|done]. cbn. by rewrite moved_idem. }
    assert (Hw : snd (moveFile this from to (snd (moveFile this from to w)))
                 = snd (moveFile this from to w)).
    { apply World_eq; [|exact Hh]. by rewrite !moveFile_editor. }
    assert (Hp : forall w0, scene (editor w0) = Some sc ->
              fst (moveFile this from to w0) = Js.Resolved tt).
    { intros w0 E. unfold moveFile, _editor. by rewrite E. }
    apply injective_projections; [by rewrite !Hp|exact Hw].
  - unfold moveFile at 2 3, _editor. rewrite Hsc. cbn [snd].
    unfold moveFile, _editor. by rewrite Hsc.
Qed.

(** X3. A video that has been moved is no longer in use at its old path:
    when [from] is the path of its own relative name and [to] has another
    relative name, then after [moveFile(from, to)] the answer of
    [isFileUsed(from)] is [false]. *)
Theorem moved_video_is_unused_at_old_path
    (this : AssetsBrowserVideoMoveHandler) (from to : string) (w : World) (sc : Scene) :
  scene (editor w) = Some sc ->
  let dir := assetsDirectory (assetsBrowser (editor w)) in
  join [dir; Js.replace from (join [dir; "/"]) ""] = from ->
  Js.replace to (join [dir; "/"]) "" <> Js.replace from (join [dir; "/"]) "" ->
  let w' := snd (moveFile this from to w) in
  isFileUsed this from w' = (Js.Resolved false, w').
Proof.
  intros Hsc dir Hfrom Hne w'.
  assert (He : editor w' = editor w) by apply moveFile_editor.
  unfold isFileUsed, _editor. cbv beta. rewrite He, Hsc. fold dir.
  match goal with
  | |- context [List.find ?p (textures sc)] =>
      destruct (List.find p (textures sc)) as [r|] eqn:F; [|done];
      apply find_some in F as [Hin Hp]
  end.
  exfalso. cbv beta in Hp. apply list_elem_of_In in Hin.
  destruct (heap w' !! r) as [o'|] eqn:L'; [|done].
  apply andb_true_iff in Hp as [Hv Hn]. apply String.eqb_eq in Hn.
  unfold w' in L'. rewrite (moveFile_lookup _ _ _ _ sc) in L' by done.
  destruct (heap w !! r) as [o|] eqn:L; [|by case_decide].
  assert (Hvo : instanceofVideoTexture o = true).
  { case_decide; cbn in L'; injection L' as <-; [by rewrite moved_class in Hv|done]. }
  rewrite decide_True in L' by (split; [done|]; unfold isVideo; by rewrite L).
  cbn in L'. injection L' as <-. unfold moved in Hn. fold dir in Hn.
  destruct (String.eqb (join [dir; name o]) from) eqn:E.
  - cbn in Hn. done.
  - apply String.eqb_neq in E. apply E. by rewrite Hn.
Qed.

(** X4. Moving a file that no video texture of the scene is recorded at
    changes nothing: in particular with no texture, or no video texture,
    in the scene. *)
Theorem moveFile_of_unused_file_changes_nothing
    (this : AssetsBrowserVideoMoveHandler) (from to : string) (w : World) (sc : Scene) :
  scene (editor w) = Some sc ->
  (forall r t, r ∈ textures sc -> heap w !! r = Some t ->
     instanceofVideoTexture t = true ->
     join [assetsDirectory (assetsBrowser (editor w)); name t] <> from) ->
  moveFile this from to w = (Js.Resolved tt, w).
Proof.
  intros Hsc Hnone.
  apply injective_projections; cbn [fst snd].
  - unfold moveFile, _editor. by rewrite Hsc.
  - apply World_eq; [apply moveFile_editor|].
    apply map_eq. intros r. rewrite (moveFile_lookup _ _ _ _ sc) by done.
    case_decide as D; [|done]. destruct D as [Hin Hv].
    unfold isVideo in Hv. destruct (heap w !! r) as [o|] eqn:L; [|done].
    cbn. unfold moved.
    destruct (String.eqb _ from) eqn:E; [|done].
    apply String.eqb_eq in E. by destruct (Hnone r o Hin L Hv).
Qed.

(** X5. Moving a video and moving it back restores every texture: when
    the textures recorded at [from] carry the relative name of [from],
    [to] is the path of its own relative name, and no video texture was
    recorded at [to] before, [moveFile(from, to)] followed by
    [moveFile(to, from)] leaves the editor and all textures as they were. *)
Theorem moveFile_there_and_back
    (this : AssetsBrowserVideoMoveHandler) (from to : string) (w : World) (sc : Scene) :
  scene (editor w) = Some sc ->
  let dir := assetsDirectory (assetsBrowser (editor w)) in
  join [dir; Js.replace to (join [dir; "/"]) ""] = to ->
  (forall r t, r ∈ textures sc -> heap w !! r = Some t ->
     instanceofVideoTexture t = true ->
     join [dir; name t] = from -> name t = Js.replace from (join [dir; "/"]) "") ->
  (forall r t, r ∈ textures sc -> heap w !! r = Some t ->
     instanceofVideoTexture t = true -> join [dir; name t] <> to) ->
  snd (moveFile this to from (snd (moveFile this from to w))) = w.
Proof.
  intros Hsc dir Hto Hcanon Hfree.
  assert (He : editor (snd (moveFile this from to w)) = editor w)
    by apply moveFile_editor.
  apply World_eq; [by rewrite !moveFile_editor|].
  apply map_eq. intros r.
  rewrite (moveFile_lookup _ _ _ _ sc) by (by rewrite He).
  rewrite (moveFile_isVideo _ _ _ _ sc) by done.
  rewrite He, (moveFile_lookup _ _ _ _ sc) by done. fold dir.
  case_decide as D; [|done]. destruct D as [Hin Hv].
  unfold isVideo in Hv. destruct (heap w !! r) as [o|] eqn:L; [|done].
  cbn. f_equal. unfold moved at 2.
  destruct (String.eqb (join [dir; name o]) from) eqn:E.
  - apply String.eqb_eq in E. unfold moved. cbn [name set_name].
    rewrite Hto, String.eqb_refl. unfold set_name. cbn.
    rewrite <- (Hcanon r o Hin L Hv E). by destruct o.
  - unfold moved.
    destruct (String.eqb (join [dir; name o]) to) eqn:E'; [|done].
    apply String.eqb_eq in E'. by destruct (Hfree r o Hin L Hv).
Qed.

End VideoMoveComposition.

(** Splits a membership in the texture list of the sample scene into its
    cases and evaluates the texture found in each. *)
Ltac sample_texture Hin L :=
  repeat (apply elem_of_cons in Hin as [->|Hin]);
  [..|by apply elem_of_nil in Hin];
  vm_compute in L; injection L as <-.

Lemma moved_video_is_used_at_new_path_witness :
  let w' := snd (VideoMove.moveFile (H := Posix.path) VideoMove.constructor
                   "/home/assets/videos/intro.mp4" "/home/assets/movies/intro.mp4"
                   sampleScene) in
  VideoMove.isFileUsed (H := Posix.path) VideoMove.constructor
    "/home/assets/movies/intro.mp4" w' = (Js.Resolved true, w').
Proof.
  refine (@moved_video_is_used_at_new_path Posix.path VideoMove.constructor
            "/home/assets/videos/intro.mp4" "/home/assets/movies/intro.mp4"
            sampleScene {| VideoMove.textures := [0; 1; 2] |} 0
            {| VideoMove.instanceofVideoTexture := true;
               VideoMove.name := "videos/intro.mp4" |} _ _ _ _ _).
  - reflexivity.
  - apply list_elem_of_here.
  - vm_compute. reflexivity.
  - reflexivity.
  - vm_compute. reflexivity.
Defined.

Lemma moved_video_is_unused_at_old_path_witness :
  let w' := snd (VideoMove.moveFile (H := Posix.path) VideoMove.constructor
                   "/home/assets/videos/intro.mp4" "/home/assets/movies/intro.mp4"
                   sampleScene) in
  VideoMove.isFileUsed (H := Posix.path) VideoMove.constructor
    "/home/assets/videos/intro.mp4" w' = (Js.Resolved false, w').
Proof.
  refine (@moved_video_is_unused_at_old_path Posix.path VideoMove.constructor
            "/home/assets/videos/intro.mp4" "/home/assets/movies/intro.mp4"
            sampleScene {| VideoMove.textures := [0; 1; 2] |} _ _ _).
  - reflexivity.
  - vm_compute. reflexivity.
  - intros E. vm_compute in E. discriminate E.
Defined.

Lemma moveFile_of_unused_file_changes_nothing_witness :
  VideoMove.moveFile (H := Posix.path) VideoMove.constructor
    "/home/assets/videos/credits.mp4" "/home/assets/movies/credits.mp4" sampleScene
  = (Js.Resolved tt, sampleScene).
Proof.
  refine (@moveFile_of_unused_file_changes_nothing Posix.path VideoMove.constructor
            "/home/assets/videos/credits.mp4" "/home/assets/movies/credits.mp4"
            sampleScene {| VideoMove.textures := [0; 1; 2] |} _ _).
  - reflexivity.
  - intros r t Hin L Hv E. cbn [VideoMove.textures] in Hin.
    sample_texture Hin L; vm_compute in E; discriminate E.
Defined.

Lemma moveFile_there_and_back_witness :
  snd (VideoMove.moveFile (H := Posix.path) VideoMove.constructor
         "/home/assets/movies/intro.mp4" "/home/assets/videos/intro.mp4"
         (snd (VideoMove.moveFile (H := Posix.path) VideoMove.constructor
                 "/home/assets/videos/intro.mp4" "/home/assets/movies/intro.mp4"
                 sampleScene)))
  = sampleScene.
Proof.
  refine (@moveFile_there_and_back Posix.path VideoMove.constructor
            "/home/assets/videos/intro.mp4" "/home/assets/movies/intro.mp4"
            sampleScene {| VideoMove.textures := [0; 1; 2] |} _ _ _ _).
  - reflexivity.
  - vm_compute. reflexivity.
  - intros r t Hin L Hv E. cbn [VideoMove.textures] in Hin.
    sample_texture Hin L; vm_compute in E; try discriminate E;
      vm_compute; reflexivity.
  - intros r t Hin L Hv E. cbn [VideoMove.textures] in Hin.
    sample_texture Hin L; vm_compute in E; discriminate E.
Defined.

(** ** The script inspector: rendering the exported values again *)

Section ExportedValuesAgain.
Import ScriptInspector.

(** *** The whole pass *)

Lemma exportValues_widgets (ivs : list Sandbox.IExportedInspectorValue) :
  forall h : gmap string Property * gmap string Js.Value,
    snd (exportValues h ivs)
    = widgetFor <$> filter (fun iv => Sandbox.type iv ∈ supportedTypes) ivs.
Proof.
  induction ivs as [|iv ivs IH]; intros h; [done|].
  rewrite exportValues_cons. cbn [snd]. rewrite exportValue_widgets, IH, filter_cons.
  by case_decide.
Qed.



Lemma exportValues_stay (ivs : list Sandbox.IExportedInspectorValue) :
  forall (h : gmap string Property * gmap string Js.Value) (k : string),
    find (fst h) (snd h) k <> NotFound ->
    find (fst (fst (exportValues h ivs))) (snd (fst (exportValues h ivs))) k <> NotFound
    /\ (Js.nullish (readValue (fst h) (snd h) k) = false ->
        Js.nullish (readValue (fst (fst (exportValues h ivs)))
                              (snd (fst (exportValues h ivs))) k) = false).
Proof.
  induction ivs as [|iv ivs IH]; intros h k F; [done|].
  rewrite exportValues_cons. cbn [fst].
  destruct (IH (fst (exportValue h iv)) k (exportValue_stays_found h iv k F)) as [F' N'].
  split; [done|]. intros N. apply N'. by apply exportValue_stays_valued.
Qed.

(** After the pass [properties[key]] is defined for every exported value,
    and has a value if the type has a widget. *)
Lemma exportValues_entries (ivs : list Sandbox.IExportedInspectorValue) :
  forall (h : gmap string Property * gmap string Js.Value)
         (iv : Sandbox.IExportedInspectorValue),
    iv ∈ ivs ->
    find (fst (fst (exportValues h ivs))) (snd (fst (exportValues h ivs)))
         (Sandbox.propertyKey iv) <> NotFound
    /\ (Sandbox.type iv ∈ supportedTypes ->
        Js.nullish (readValue (fst (fst (exportValues h ivs)))
                              (snd (fst (exportValues h ivs)))
                              (Sandbox.propertyKey iv)) = false).
Proof.
  induction ivs as [|iv0 ivs IH]; intros h iv Hin; [by apply elem_of_nil in Hin|].
  rewrite exportValues_cons. cbn [fst].
  apply elem_of_cons in Hin as [->|Hin]; [|by apply IH].
  destruct (exportValue_settles h iv0) as [F N].
  destruct (exportValues_stay ivs _ _ F) as [F' N'].
  split; [done|]. intros Hs. apply N'. by apply N.
Qed.

(** A pass over properties that are all defined, with their values,
    changes nothing. *)
Lemma exportValues_settled (ivs : list Sandbox.IExportedInspectorValue) :
  forall h : gmap string Property * gmap string Js.Value,
    (forall iv, iv ∈ ivs ->
       find (fst h) (snd h) (Sandbox.propertyKey iv) <> NotFound
       /\ (Sandbox.type iv ∈ supportedTypes ->
           Js.nullish (readValue (fst h) (snd h) (Sandbox.propertyKey iv)) = false)) ->
    fst (exportValues h ivs) = h.
Proof.
  induction ivs as [|iv ivs IH]; intros h Hall; [done|].
  rewrite exportValues_cons. cbn [fst].
  destruct (Hall iv (list_elem_of_here _ _)) as (F & N).
  rewrite (exportValue_settled h iv F N).
  apply IH. intros iv' Hin. apply Hall. by apply list_elem_of_further.
Qed.

(** The values of the inherited objects are only written under the keys
    of the exported values, and that of [Object.prototype] also under the
    key [value]. *)
Lemma exportValue_prototype_other (h : gmap string Property * gmap string Js.Value)
    (iv : Sandbox.IExportedInspectorValue) (k : string) :
  k <> Sandbox.propertyKey iv ->
  (k = "__proto__" -> Sandbox.propertyKey iv <> "value") ->
  snd (fst (exportValue h iv)) !! k = snd h !! k.
Proof.
  intros Hne Hp. destruct (exportValue_step h iv) as (e & _ & _ & ->).
  case_decide; cbn [fst snd]; [|done].
  destruct (assign_cases (fst (ensured h iv)) (snd h) (Sandbox.propertyKey iv) e)
    as [[-> _]|[(p & _ & _ & ->)|[(_ & _ & _ & ->)|(fields & Ek & _ & _ & _ & _ & ->)]]];
    cbn [snd]; try done.
  - by rewrite lookup_insert_ne.
  - rewrite lookup_insert_ne; [done|]. intros <-. by apply Hp.
Qed.

Lemma exportValues_prototype_other (ivs : list Sandbox.IExportedInspectorValue) :
  forall (h : gmap string Property * gmap string Js.Value) (k : string),
    k ∉ Sandbox.propertyKey <$> ivs ->
    (k = "__proto__" -> "value" ∉ Sandbox.propertyKey <$> ivs) ->
    snd (fst (exportValues h ivs)) !! k = snd h !! k.
Proof.
  induction ivs as [|iv ivs IH]; intros h k Hk Hp; [done|].
  rewrite fmap_cons, not_elem_of_cons in Hk. destruct Hk as [Hne Hk].
  rewrite exportValues_cons. cbn [fst]. rewrite IH.
  - apply exportValue_prototype_other; [done|].
    intros -> E. apply (Hp eq_refl). rewrite fmap_cons, E. apply list_elem_of_here.
  - done.
  - intros ->. specialize (Hp eq_refl). rewrite fmap_cons, not_elem_of_cons in Hp. tauto.
Qed.

Lemma getInspectorValues_skips (this : ScriptInspector) :
  (String.eqb (name (script this)) "None"
   || Nat.eqb (length (inspectorValues (state this))) 0)%bool = true ->
  _getInspectorValues this = (None, this).
Proof. intros G. unfold _getInspectorValues. by rewrite G. Qed.

Lemma getInspectorValues_renders (this : ScriptInspector) :
  (String.eqb (name (script this)) "None"
   || Nat.eqb (length (inspectorValues (state this))) 0)%bool = false ->
  _getInspectorValues this
  = (Some (InspectorSection "Exported Values"
             (snd (exportValues (default ∅ (properties (script this)),
                                 Object_prototype this)
                     (inspectorValues (state this))))),
     {| state := state this;
        script :=
          {| name := name (script this);
             properties :=
               Some (fst (fst (exportValues (default ∅ (properties (script this)),
                                             Object_prototype this)
                                 (inspectorValues (state this))))) |};
        isMounted := isMounted this;
        _scriptWatcher := _scriptWatcher this;
        Object_prototype :=
          snd (fst (exportValues (default ∅ (properties (script this)),
                                  Object_prototype this)
                      (inspectorValues (state this)))) |}).
Proof.
  intros G. unfold _getInspectorValues. rewrite G.
  by destruct (exportValues _ _).
Qed.

(** A second pass finds every entry in place. *)
Lemma exportValues_again (h : gmap string Property * gmap string Js.Value)
    (ivs : list Sandbox.IExportedInspectorValue) :
  exportValues (fst (exportValues h ivs)) ivs = exportValues h ivs.
Proof.
  apply injective_projections.
  - apply exportValues_settled. intros iv Hin. by apply exportValues_entries.
  - by rewrite !exportValues_widgets.
Qed.

(** X6. Rendering the exported values again changes nothing: a second
    call of [_getInspectorValues] returns the node the first call returned
    and leaves every property as the first call left it. *)
Theorem getInspectorValues_again (this : ScriptInspector) :
  _getInspectorValues (snd (_getInspectorValues this)) = _getInspectorValues this.
Proof.
  destruct (String.eqb (name (script this)) "None"
            || Nat.eqb (length (inspectorValues (state this))) 0)%bool eqn:G.
  - rewrite (getInspectorValues_skips this G). cbn [snd].
    apply (getInspectorValues_skips this G).
  - rewrite (getInspectorValues_renders this G). cbn [snd].
    rewrite getInspectorValues_renders by exact G.
    set (h := (default ∅ (properties (script this)), Object_prototype this)).
    set (ivs := inspectorValues (state this)).
    cbn [state script name properties isMounted _scriptWatcher Object_prototype].
    change (default ∅ (Some (fst (fst (exportValues h ivs)))))
      with (fst (fst (exportValues h ivs))).
    fold ivs. rewrite <- surjective_pairing. by rewrite exportValues_again.
Qed.


(** X8. The section [_getInspectorValues] returns holds one widget for
    each exported value of a type the [switch] has a case for, in the order
    of the exported values; a value of any other type is passed over.
    Nothing is returned when no script is attached or no value is
    exported. *)
Theorem getInspectorValues_children (this : ScriptInspector) :
  fst (_getInspectorValues this)
  = if decide (name (script this) = "None" \/ inspectorValues (state this) = [])
    then None
    else Some (InspectorSection "Exported Values"
                 (widgetFor
                    <$> filter (fun iv => Sandbox.type iv ∈ supportedTypes)
                          (inspectorValues (state this)))).
Proof.
  destruct (String.eqb (name (script this)) "None"
            || Nat.eqb (length (inspectorValues (state this))) 0)%bool eqn:G.
  - rewrite (getInspectorValues_skips this G). cbn [fst].
    rewrite decide_True; [done|].
    apply orb_true_iff in G as [G|G].
    + left. by apply String.eqb_eq.
    + right. apply Nat.eqb_eq in G. by apply nil_length_inv.
  - rewrite (getInspectorValues_renders this G). cbn [fst].
    apply orb_false_iff in G as [Gn Gl].
    rewrite decide_False.
    + by rewrite exportValues_widgets.
    + intros [E|E]; [by apply String.eqb_neq in Gn|].
      rewrite E in Gl. discriminate.
Qed.

End ExportedValuesAgain.

(** ** The script inspector: watchers over whole runs *)

Section WatcherFacts.
Context `{PathModule} `{TypeScriptModule}.
Import ScriptInspector.

Lemma watchersKept_refl (ws : list FSWatcher) : watchersKept ws ws.
Proof.
  apply Forall2_same_length_lookup_2; [done|].
  intros i fw fw' L L'. rewrite L in L'. by injection L' as <-.
Qed.

Lemma watchersKept_trans (ws1 ws2 ws3 : list FSWatcher) :
  watchersKept ws1 ws2 -> watchersKept ws2 ws3 -> watchersKept ws1 ws3.
Proof.
  unfold watchersKept. intros H12 H23.
  apply Forall2_same_length_lookup_2.
  - by rewrite (Forall2_length _ _ _ H12), (Forall2_length _ _ _ H23).
  - intros i fw1 fw3 L1 L3.
    destruct (Forall2_lookup_l _ _ _ _ _ H12 L1) as (fw2 & L2 & E12 & C12).
    destruct (Forall2_lookup_lr _ _ _ _ _ _ H23 L2 L3) as [E23 C23].
    split; [congruence|auto].
Qed.

Lemma closeWatcher_kept (r : nat) (ws : list FSWatcher) :
  watchersKept ws (closeWatcher r ws).
Proof.
  unfold closeWatcher. destruct (ws !! r) as [fw|] eqn:L; [|apply watchersKept_refl].
  apply Forall2_same_length_lookup_2; [by rewrite length_insert|].
  intros i fw1 fw2 L1 L2. destruct (decide (r = i)) as [->|Hne].
  - rewrite list_lookup_insert_eq in L2 by (by apply lookup_lt_Some in L).
    injection L2 as <-. cbn. split; [congruence|done].
  - rewrite list_lookup_insert_ne in L2 by done. rewrite L1 in L2. by injection L2 as <-.
Qed.

(** A refresh starts without installing a watcher. *)
Lemma start_kept (w : World) :
  isMounted (this (fst (start w))) = isMounted (this w)
  /\ watchersKept (watchers w) (watchers (fst (start w))).
Proof.
  destruct (start_world w) as (-> & _ & ->). split; [done|].
  unfold previousClosed.
  destruct (_scriptWatcher (this w)); [apply closeWatcher_kept|apply watchersKept_refl].
Qed.

(** A refresh that continues on an unmounted component installs no
    watcher. *)
Lemma continue_unmounted (a : Await) (r : Answer) (step : Step) (w : World) :
  continue a r = Some step ->
  isMounted (this w) = false ->
  isMounted (this (fst (step w))) = false
  /\ watchers (fst (step w)) = watchers w.
Proof.
  intros Ec M.
  assert (Hafter : forall jsPath, afterLoop jsPath w = (w, (Returned, []))).
  { intros jsPath. unfold afterLoop. by rewrite M. }
  assert (Hhead : forall jsPath, loopHead jsPath w = (w, (Returned, []))).
  { intros jsPath. unfold loopHead. rewrite M. apply Hafter. }
  destruct a as [| |jsPath|jsPath|jsPath|], r as [decorators| |b|values|reason];
    cbn in Ec; try discriminate; injection Ec as <-; try (by cbn).
  - unfold afterDecorators. destruct (jsPathOf w) as [jsPath|]; [|by cbn].
    destruct (_scriptWatcher (this w)); [by cbn|]. rewrite Hhead. by cbn.
  - destruct b; cbv beta iota delta [negb]; [|by cbn]. rewrite Hafter. by cbn.
  - rewrite Hhead. by cbn.
  - unfold set_this. cbn [fst this watchers]. by rewrite applyPatch_isMounted.
Qed.

Lemma act_unmounted (a : Action) (w : World) :
  isMounted (this w) = false ->
  isMounted (this (act a w)) = false
  /\ watchersKept (watchers w) (watchers (act a w)).
Proof.
  intros M.
  assert (Hnew : isMounted (this (_updateScriptVisibleProperties w)) = false
                 /\ watchersKept (watchers w) (watchers (_updateScriptVisibleProperties w))).
  { unfold _updateScriptVisibleProperties.
    destruct (start_kept w) as [Hm Hk].
    destruct (start w) as [w' [a' evs]]. cbn in *. by rewrite Hm. }
  assert (Hname : forall n,
            isMounted (this (InspectorList_change n w)) = false
            /\ watchersKept (watchers w) (watchers (InspectorList_change n w))).
  { intros n. unfold InspectorList_change, _updateScriptVisibleProperties.
    destruct (start_kept (set_this (set_name n) w)) as [Hm Hk].
    destruct (start (set_this (set_name n) w)) as [w' [a' evs]]. cbn in *.
    by rewrite Hm. }
  destruct a as [|n|i r|wr ev| |files]; cbn [act];
    [| | | | |split; [done|apply watchersKept_refl]].
  - exact Hnew.
  - apply Hname.
  - unfold settle. destruct (tasks w !! i) as [t|]; [|split; [done|apply watchersKept_refl]].
    destruct (continue (at_ t) r) as [step|] eqn:Ec;
      [|split; [done|apply watchersKept_refl]].
    destruct (continue_unmounted _ _ _ w Ec M) as (Hm & Hw).
    destruct (step w) as [w' [a' evs]]. cbn in *. rewrite Hw.
    split; [done|apply watchersKept_refl].
  - destruct (watchers w !! wr) as [fw|]; [|split; [done|apply watchersKept_refl]].
    destruct (closed fw); [split; [done|apply watchersKept_refl]|].
    unfold watchCallback.
    destruct (String.eqb ev "change"); [exact Hnew|split; [done|apply watchersKept_refl]].
  - unfold componentWillUnmount, super_componentWillUnmount.
    cbn [set_this this set_isMounted _scriptWatcher].
    destruct (_scriptWatcher (this w)); cbn; (split; [done|]);
      [apply closeWatcher_kept|apply watchersKept_refl].
Qed.

(** X9. Once the component is unmounted no watcher is installed any more,
    whatever happens next: refreshes that start, overlap or continue, scripts
    picked, events of watchers.  The watchers are those there were at that
    time, on the same files, and none that was closed is open again. *)
Theorem unmounted_component_installs_no_watcher (actions : list Action) (w : World) :
  isMounted (this w) = false ->
  isMounted (this (run actions w)) = false
  /\ watchersKept (watchers w) (watchers (run actions w))
  /\ length (watchers (run actions w)) = length (watchers w).
Proof.
  intros M.
  assert (Hrun : isMounted (this (run actions w)) = false
                 /\ watchersKept (watchers w) (watchers (run actions w))).
  { revert w M. unfold run.
    induction actions as [|a actions IH]; intros w M; cbn [foldl].
    - split; [done|apply watchersKept_refl].
    - destruct (act_unmounted a w M) as [M' K].
      destruct (IH _ M') as [M'' K']. split; [done|].
      by apply (watchersKept_trans _ _ _ K). }
  destruct Hrun as [M' K]. split; [done|]. split; [done|].
  symmetry. by apply (Forall2_length _ _ _ K).
Qed.

(** *** Refreshes that take turns *)



Lemma unmount_tasks (w : World) : tasks (componentWillUnmount w) = tasks w.
Proof.
  unfold componentWillUnmount, super_componentWillUnmount.
  by destruct (_scriptWatcher (this (set_this (set_isMounted false) w))).
Qed.



Lemma owned_none_open (w : World) :
  (forall r fw, watchers w !! r = Some fw -> closed fw = false -> False) ->
  openWatchers w = [].
Proof.
  intros Hnone. unfold openWatchers.
  destruct (List.filter (fun fw => negb (closed fw)) (watchers w)) as [|fw fws] eqn:F;
    [done|].
  assert (Hin : List.In fw (List.filter (fun fw => negb (closed fw)) (watchers w)))
    by (rewrite F; by left).
  apply filter_In in Hin as [Hin C]. apply negb_true_iff in C.
  apply list_elem_of_In, list_elem_of_lookup in Hin as [r L].
  by destruct (Hnone r fw L C).
Qed.


(** X11. With no script attached ([name] is ["None"]) a refresh returns
    at once: it closes the watcher it finds, calls [forceUpdate], and
    neither reads a file nor asks the sandbox; the component's state is
    left as it is, and [_getInspectorValues] renders nothing.  If the
    watcher found was the only open one, none is open afterwards. *)
Theorem refresh_without_script_stops_at_once (w : World) :
  name (script (this w)) = "None" ->
  let w' := _updateScriptVisibleProperties w in
  tasks w'
  = tasks w
    ++ [{| at_ := Returned;
           log := match _scriptWatcher (this w) with
                  | Some r => [Call (close r)]
                  | None => []
                  end ++ [Call forceUpdate] |}]
  /\ watchers w' = previousClosed w
  /\ _scriptWatcher (this w') = None
  /\ state (this w') = state (this w)
  /\ fst (_getInspectorValues (this w')) = None
  /\ (watcherOwned w -> openWatchers w' = []).
Proof.
  intros Hn w'.
  assert (Ew : w' = set_tasks
                      (fun ts => ts ++ [{| at_ := Returned;
                                           log := match _scriptWatcher (this w) with
                                                  | Some r => [Call (close r)]
                                                  | None => []
                                                  end ++ [Call forceUpdate] |}])
                      (set_this (set_scriptWatcher None)
                         (set_watchers (fun _ => previousClosed w) w))).
  { unfold w', _updateScriptVisibleProperties, start, previousClosed.
    destruct (_scriptWatcher (this w)) as [r|];
      cbn [set_watchers set_this this script set_scriptWatcher name];
      rewrite Hn; reflexivity. }
  rewrite Ew. cbn [set_tasks set_this set_watchers tasks watchers this
                   set_scriptWatcher _scriptWatcher state].
  do 4 (split; [done|]). split.
  - unfold _getInspectorValues. cbn [script name set_scriptWatcher]. by rewrite Hn.
  - intros K. apply owned_none_open. cbn [set_tasks set_this set_watchers watchers].
    intros r fw L C. unfold previousClosed in L.
    destruct (_scriptWatcher (this w)) as [r0|] eqn:W.
    + apply closeWatcher_open in L as [L Hne]; [|done].
      destruct (K r fw L C) as [E _]. congruence.
    + destruct (K r fw L C) as [E _]. congruence.
Qed.

(** *** The path of the compiled script *)

Lemma lastIndexOf_from_found (s pat : string) (i : nat) : forall j : nat,
  j <= i -> Js.startsWith pat (Js.drop j s) = true ->
  Js.lastIndexOf_from s pat i <> (-1)%Z.
Proof.
  induction i as [|i IH]; intros j Hj Hs; cbn [Js.lastIndexOf_from].
  - assert (j = 0) as -> by lia. rewrite Hs. lia.
  - destruct (Js.startsWith pat (Js.drop (S i) s)) eqn:E; [lia|].
    apply (IH j); [|done].
    destruct (decide (j = S i)) as [->|Hne]; [congruence|lia].
Qed.

(** A string that occurs in another is found by [lastIndexOf]. *)
Lemma lastIndexOf_occurs (pre pat post : string) :
  Js.lastIndexOf (pre +:+ pat +:+ post) pat <> (-1)%Z.
Proof.
  unfold Js.lastIndexOf. rewrite !length_append.
  replace (Nat.leb (String.length pat)
             (String.length pre + (String.length pat + String.length post)))
    with true by (symmetry; apply Nat.leb_le; lia).
  apply (lastIndexOf_from_found _ _ _ (String.length pre)); [lia|].
  rewrite drop_app. apply startsWith_app.
Qed.

(** X12. The early return of line 276 is never taken with a [path] module
    whose [extname] returns a part of its argument, as Node's does: the
    path of the compiled script is then defined for every script name,
    with or without an extension. *)
Theorem compiled_script_path_is_defined (w : World) (pre post : string) :
  name (script (this w)) = pre +:+ extname (name (script (this w))) +:+ post ->
  exists jsPath,
    jsPathOf w = Some jsPath
    /\ afterDecorators w
       = match _scriptWatcher (this w) with
         | None => loopHead jsPath w
         | Some _ => query jsPath w
         end.
Proof.
  intros Hname.
  assert (Hfound : Js.lastIndexOf (name (script (this w)))
                     (extname (name (script (this w)))) <> (-1)%Z).
  { rewrite Hname at 1. apply lastIndexOf_occurs. }
  apply Z.eqb_neq in Hfound.
  unfold afterDecorators, jsPathOf. cbv zeta. rewrite Hfound. eauto.
Qed.

End WatcherFacts.

Lemma unmounted_component_installs_no_watcher_witness :
  let w := ScriptInspector.run (H := Posix.path) (H0 := sampleCompiler)
             (ScriptInspector.Refresh :: quietRefresh ++ [ScriptInspector.Unmount])
             sampleWorld in
  length
    (ScriptInspector.watchers
       (ScriptInspector.run (H := Posix.path) (H0 := sampleCompiler)
          [ScriptInspector.Refresh;
           ScriptInspector.Settle 1 (ScriptInspector.File "");
           ScriptInspector.Settle 1 ScriptInspector.Done] w))
  = length (ScriptInspector.watchers w).
Proof.
  intros w.
  refine (proj2 (proj2 (@unmounted_component_installs_no_watcher Posix.path sampleCompiler
                          _ w _))).
  vm_compute. reflexivity.
Defined.


Lemma refresh_without_script_stops_at_once_witness :
  let w := ScriptInspector.set_this (ScriptInspector.set_name "None") sampleWorld in
  ScriptInspector.tasks
    (ScriptInspector._updateScriptVisibleProperties (H := Posix.path) w)
  = [{| ScriptInspector.at_ := ScriptInspector.Returned;
        ScriptInspector.log := [ScriptInspector.Call ScriptInspector.forceUpdate] |}].
Proof.
  exact (proj1 (@refresh_without_script_stops_at_once Posix.path
                  (ScriptInspector.set_this (ScriptInspector.set_name "None") sampleWorld)
                  eq_refl)).
Defined.

Lemma compiled_script_path_is_defined_witness :
  exists jsPath,
    ScriptInspector.jsPathOf (H := Posix.path) sampleWorld = Some jsPath
    /\ ScriptInspector.afterDecorators (H := Posix.path) sampleWorld
       = ScriptInspector.loopHead jsPath sampleWorld.
Proof.
  refine (@compiled_script_path_is_defined Posix.path sampleWorld "src/game" "" _).
  vm_compute. reflexivity.
Defined.

(** ** The script inspector's content *)

Section ContentFacts.
Context `{PathModule}.
Import ScriptInspectorView.

(** [renderContent] with a workspace: the metadata gets its defaults, and
    the four parts are rendered over the script found. *)
Lemma renderContent_attached (DirPath : string) (c : Component) :
  renderContent true DirPath c
  = (Some (InspectorSection "Script"
             [Some _getScriptsList;
              _getOpenButton DirPath (attached c);
              _getSpinner (attached c);
              Values <$> fst (ScriptInspector._getInspectorValues (attached c))]),
     withPrototype
       (withScript c (nameOf c)
          (ScriptInspector.properties
             (ScriptInspector.script
                (snd (ScriptInspector._getInspectorValues (attached c))))))
       (ScriptInspector.Object_prototype
          (snd (ScriptInspector._getInspectorValues (attached c))))).
Proof.
  assert (Ea : forall m s n,
            m = default {| script := None |} (metadata c) ->
            s = default {| name := None; properties := None |} (script m) ->
            n = default "None" (name s) ->
            {| ScriptInspector.state := state c;
               ScriptInspector.script :=
                 {| ScriptInspector.name := n;
                    ScriptInspector.properties := properties s |};
               ScriptInspector.isMounted := isMounted c;
               ScriptInspector._scriptWatcher := _scriptWatcher c;
               ScriptInspector.Object_prototype := Object_prototype c |}
            = attached c).
  { intros m s n -> -> ->. unfold attached, nameOf, propertiesOf.
    destruct (metadata c) as [[[[[n|] ps]|]]|]; reflexivity. }
  unfold renderContent. cbv beta iota zeta delta [negb].
  rewrite (Ea _ _ _ eq_refl eq_refl eq_refl).
  destruct (String.eqb (ScriptInspector.name (ScriptInspector.script (attached c))) "None"
            || Nat.eqb (length (ScriptInspector.inspectorValues
                                  (ScriptInspector.state (attached c)))) 0)%bool eqn:G.
  - by rewrite (getInspectorValues_skips _ G).
  - by rewrite (getInspectorValues_renders _ G).
Qed.

Lemma attached_withScript (c : Component) (n : string)
    (ps : option (gmap string ScriptInspector.Property)) (bs : gmap string Js.Value) :
  attached (withPrototype (withScript c n ps) bs)
  = {| ScriptInspector.state := state c;
       ScriptInspector.script :=
         {| ScriptInspector.name := n; ScriptInspector.properties := ps |};
       ScriptInspector.isMounted := isMounted c;
       ScriptInspector._scriptWatcher := _scriptWatcher c;
       ScriptInspector.Object_prototype := bs |}.
Proof. reflexivity. Qed.

Lemma withPrototype_same (c : Component) (n : string)
    (ps : option (gmap string ScriptInspector.Property)) :
  withPrototype (withScript c n ps) (Object_prototype c) = withScript c n ps.
Proof. reflexivity. Qed.

(** X13. Rendering the content again changes nothing: a second
    [renderContent] returns the content the first one returned and leaves
    the selected object's metadata, with the script's properties, as the
    first one left it; without a workspace nothing is rendered and nothing
    is written. *)
Theorem renderContent_again (HasWorkspace : bool) (DirPath : string) (c : Component) :
  renderContent HasWorkspace DirPath (snd (renderContent HasWorkspace DirPath c))
  = renderContent HasWorkspace DirPath c
  /\ renderContent false DirPath c = (None, c).
Proof.
  split; [|reflexivity].
  destruct HasWorkspace; [|reflexivity].
  rewrite (renderContent_attached DirPath c). cbn [snd].
  rewrite renderContent_attached, attached_withScript.
  set (this := attached c).
  destruct (String.eqb (ScriptInspector.name (ScriptInspector.script this)) "None"
            || Nat.eqb (length (ScriptInspector.inspectorValues
                                  (ScriptInspector.state this))) 0)%bool eqn:G.
  - rewrite (getInspectorValues_skips this G). cbn [fst snd].
    change this with
      {| ScriptInspector.state := state c;
         ScriptInspector.script :=
           {| ScriptInspector.name := nameOf c;
              ScriptInspector.properties := propertiesOf c |};
         ScriptInspector.isMounted := isMounted c;
         ScriptInspector._scriptWatcher := _scriptWatcher c;
         ScriptInspector.Object_prototype := Object_prototype c |} in *.
    cbn [ScriptInspector.script ScriptInspector.properties
         ScriptInspector.Object_prototype].
    by rewrite (getInspectorValues_skips _ G).
  - rewrite (getInspectorValues_renders this G).
    cbn [fst snd ScriptInspector.script ScriptInspector.properties
         ScriptInspector.Object_prototype].
    set (h := (default ∅ (ScriptInspector.properties (ScriptInspector.script this)),
               ScriptInspector.Object_prototype this)).
    set (ivs := ScriptInspector.inspectorValues (ScriptInspector.state this)).
    rewrite getInspectorValues_renders by exact G.
    cbn [fst snd ScriptInspector.script ScriptInspector.properties ScriptInspector.state
         ScriptInspector.name ScriptInspector.Object_prototype].
    change (default ∅ (Some (fst (fst (ScriptInspector.exportValues h ivs)))))
      with (fst (fst (ScriptInspector.exportValues h ivs))).
    change (ScriptInspector.inspectorValues (state c)) with ivs.
    rewrite <- surjective_pairing. by rewrite exportValues_again.
Qed.

(** X14. With a workspace [renderContent] leaves the selected object with
    a script whose name is defined: the name it had, and ["None"] when the
    object had no metadata, no script or no name.  It never replaces a
    name, and it touches nothing else but the script's properties and, of
    the objects inherited from [Object.prototype], the [value] of those
    inherited under the key of an exported value (that of
    [Object.prototype] itself also when [value] is such a key); when no
    exported value is rendered it touches neither. *)
Theorem renderContent_fills_metadata (DirPath : string) (c : Component) :
  exists ps' bs',
    snd (renderContent true DirPath c) = withPrototype (withScript c (nameOf c) ps') bs'
    /\ nameOf (snd (renderContent true DirPath c)) = nameOf c
    /\ (fst (ScriptInspector._getInspectorValues (attached c)) = None ->
        ps' = propertiesOf c
        /\ snd (renderContent true DirPath c) = withScript c (nameOf c) ps')
    /\ (forall k,
          k ∉ Sandbox.propertyKey <$> ScriptInspector.inspectorValues (state c) ->
          (k = "__proto__" ->
           "value" ∉ Sandbox.propertyKey <$> ScriptInspector.inspectorValues (state c)) ->
          bs' !! k = Object_prototype c !! k).
Proof.
  rewrite renderContent_attached. cbn [snd]. eexists. eexists. split; [reflexivity|].
  split; [reflexivity|].
  destruct (String.eqb (ScriptInspector.name (ScriptInspector.script (attached c))) "None"
            || Nat.eqb (length (ScriptInspector.inspectorValues
                                  (ScriptInspector.state (attached c)))) 0)%bool eqn:G.
  - rewrite (getInspectorValues_skips _ G). cbn [fst snd]. split; [|done].
    intros _. split; reflexivity.
  - rewrite (getInspectorValues_renders _ G). cbn [fst snd]. split; [done|].
    intros k Hk Hp. cbn [ScriptInspector.Object_prototype].
    by rewrite exportValues_prototype_other.
Qed.

(** X15. For an object no script is attached to, the content is the list
    of scripts alone, with the spinner while a refresh is in progress:
    there is no button to open a script and there are no exported values,
    whatever values the state still holds; the object gets the name
    ["None"] and its properties are not touched. *)
Theorem renderContent_without_script (DirPath : string) (c : Component) :
  nameOf c = "None" ->
  renderContent true DirPath c
  = (Some (InspectorSection "Script"
             [Some (InspectorList "name" "Path" items onChange);
              None;
              if ScriptInspector.refresing (state c) then Some (Spinner 35) else None;
              None]),
     withScript c "None" (propertiesOf c)).
Proof.
  intros Hn. rewrite renderContent_attached.
  assert (G : (String.eqb (ScriptInspector.name (ScriptInspector.script (attached c)))
                 "None"
               || Nat.eqb (length (ScriptInspector.inspectorValues
                                     (ScriptInspector.state (attached c)))) 0)%bool = true).
  { cbn [attached ScriptInspector.script ScriptInspector.name]. by rewrite Hn. }
  rewrite (getInspectorValues_skips _ G). cbn [fst snd].
  unfold _getOpenButton, _getSpinner, _getScriptsList.
  cbn [attached ScriptInspector.script ScriptInspector.name ScriptInspector.state
       ScriptInspector.properties ScriptInspector.Object_prototype].
  rewrite Hn. cbn [String.eqb]. rewrite ?Ascii.eqb_refl.
  by destruct (ScriptInspector.refresing (state c)).
Qed.

End ContentFacts.

Lemma renderContent_without_script_witness :
  ScriptInspectorView.renderContent (H := Posix.path) true "/home/project" sampleComponent
  = (Some (ScriptInspectorView.InspectorSection "Script"
             [Some (ScriptInspectorView.InspectorList "name" "Path"
                      ScriptInspectorView.items ScriptInspectorView.onChange);
              None; None; None]),
     withScript sampleComponent "None" None).
Proof.
  exact (@renderContent_without_script Posix.path "/home/project" sampleComponent eq_refl).
Defined.

(** ** The script inspector: the spinner *)

Section SpinnerFacts.
Context `{PathModule} `{TypeScriptModule}.
Import ScriptInspector.

Lemma afterLoop_state (jsPath : string) (w : World) :
  state (this (fst (afterLoop jsPath w))) = state (this w).
Proof.
  unfold afterLoop. destruct (isMounted (this w)); [|done].
  by destruct (existsb (String.eqb jsPath) (unwatchable w)).
Qed.

Lemma loopHead_state (jsPath : string) (w : World) :
  state (this (fst (loopHead jsPath w))) = state (this w).
Proof.
  unfold loopHead. destruct (isMounted (this w)); [done|]. apply afterLoop_state.
Qed.

(** Only the step that returns with the sandbox's answer writes to the
    component's state. *)
Lemma continue_state (a : Await) (r : Answer) (step : Step) (w : World) :
  continue a r = Some step ->
  state (this (fst (step w))) = state (this w)
  \/ fst (snd (step w)) = Returned
     /\ exists values, snd (snd (step w)) = resultStored values.
Proof.
  intros Ec.
  destruct a as [| |jsPath|jsPath|jsPath|], r as [decorators| |b|values|reason];
    cbn in Ec; try discriminate; injection Ec as <-.
  - by left.
  - by left.
  - left. unfold afterDecorators. destruct (jsPathOf w) as [jsPath|]; [|done].
    destruct (_scriptWatcher (this w)).
    + pose proof (afterLoop_state jsPath w) as Hh.
      by destruct (afterLoop jsPath w) as [w' [a evs]].
    + pose proof (loopHead_state jsPath w) as Hh.
      by destruct (loopHead jsPath w) as [w' [a evs]].
  - by left.
  - left. destruct b; cbv beta iota delta [negb]; [|done].
    pose proof (afterLoop_state jsPath w) as Ha.
    by destruct (afterLoop jsPath w) as [w' [a evs]].
  - left. pose proof (loopHead_state jsPath w) as Hh.
    by destruct (loopHead jsPath w) as [w' [a evs]].
  - right. split; [done|]. by exists values.
  - by left.
Qed.

Lemma continue_returned (r : Answer) : continue Returned r = None.
Proof. by destruct r. Qed.

(** X16. The spinner is rendered for as long as a refresh of an attached
    script, started on a mounted component, is in progress, when no other
    refresh starts meanwhile: from the call of
    [_updateScriptVisibleProperties] on, at every [await] the refresh is
    suspended at, [_getSpinner] returns the spinner.  It returns nothing
    only once the refresh has returned with the sandbox's answer stored: a
    refresh that ends otherwise (a rejected promise, a watcher that cannot
    be installed, an unmounted component) leaves the spinner.  When the
    compiled script can be watched and every promise is fulfilled, it
    returns nothing after the answer. *)
Theorem spinner_shown_while_refreshing (rest : list Action) (w0 : World) :
  finished (tasks w0) ->
  name (script (this w0)) <> "None" ->
  isMounted (this w0) = true ->
  Forall undisturbed rest ->
  (exists t,
      tasks (run (Refresh :: rest) w0) = tasks w0 ++ [t]
      /\ (at_ t <> Returned ->
          ScriptInspectorView._getSpinner (this (run (Refresh :: rest) w0))
          = Some (ScriptInspectorView.Spinner 35))
      /\ (ScriptInspectorView._getSpinner (this (run (Refresh :: rest) w0)) = None ->
          at_ t = Returned
          /\ exists l values, log t = l ++ resultStored values))
  /\ (forall (decorators jsPath : string) (k : nat)
             (values : option (list Sandbox.IExportedInspectorValue)),
        jsPathOf w0 = Some jsPath ->
        existsb (String.eqb jsPath) (unwatchable w0) = false ->
        ScriptInspectorView._getSpinner
          (this (run (Refresh :: answered (length (tasks w0)) decorators k values) w0))
        = None).
Proof.
  intros Hold Hn M Hrest. split.
  - assert (Hinv : exists t,
              tasks (run (Refresh :: rest) w0) = tasks w0 ++ [t]
              /\ (at_ t <> Returned ->
                  refresing (state (this (run (Refresh :: rest) w0))) = true)
              /\ (refresing (state (this (run (Refresh :: rest) w0))) = false ->
                  exists l values, log t = l ++ resultStored values)).
    { change (run (Refresh :: rest) w0) with (run rest (_updateScriptVisibleProperties w0)).
      assert (Hstart : exists t,
                tasks (_updateScriptVisibleProperties w0) = tasks w0 ++ [t]
                /\ (at_ t <> Returned ->
                    refresing (state (this (_updateScriptVisibleProperties w0))) = true)
                /\ (refresing (state (this (_updateScriptVisibleProperties w0))) = false ->
                    exists l values, log t = l ++ resultStored values)).
      { apply String.eqb_neq in Hn.
        unfold _updateScriptVisibleProperties, start.
        destruct (_scriptWatcher (this w0));
          cbn [set_watchers set_this this script set_scriptWatcher name];
          rewrite Hn; unfold applyPatch; cbn; rewrite M; cbn; eexists;
          (split; [reflexivity|split; [done|discriminate]]). }
      revert Hstart. generalize (_updateScriptVisibleProperties w0). unfold run.
      induction rest as [|a rest IH]; intros w Hw; [done|].
      apply Forall_cons in Hrest as [Ha Hrest]. cbn [foldl]. apply IH; [done|].
      destruct Hw as (t & Ht & Hr & Hs).
      destruct a as [|n|i r|wr ev| |files]; try done; cbn [act].
      - destruct (decide (i = length (tasks w0))) as [->|Hne];
          [|rewrite (settle_other (tasks w0) w t i r Hold Ht Hne); by exists t].
        unfold settle. rewrite Ht, list_lookup_middle by done.
        destruct (continue (at_ t) r) as [step|] eqn:Ec; [|by exists t].
        assert (Hat : at_ t <> Returned).
        { intros Et. rewrite Et, continue_returned in Ec. discriminate. }
        pose proof (continue_state _ _ _ w Ec) as Hc.
        pose proof (continue_setting _ _ _ w Ec) as (St & _).
        destruct (step w) as [w' [a evs]]. cbn [fst snd] in *.
        exists {| at_ := a; log := log t ++ evs |}. cbn [set_tasks tasks this at_ log].
        rewrite St, Ht, insert_app_r_alt, Nat.sub_diag by done.
        split; [done|]. destruct Hc as [Hc|[-> (values & ->)]].
        + rewrite Hc. split; [intros _; by apply Hr|].
          intros Hf. rewrite (Hr Hat) in Hf. discriminate.
        + split; [done|]. intros _. by exists (log t), values.
      - exists t. rewrite unmount_tasks. split; [done|].
        unfold componentWillUnmount, super_componentWillUnmount.
        destruct (_scriptWatcher (this (set_this (set_isMounted false) w))); cbn;
          by split.
      - by exists t. }
    destruct Hinv as (t & Ht & Hr & Hs). exists t. split; [done|].
    unfold ScriptInspectorView._getSpinner. split.
    + intros Ha. by rewrite (Hr Ha).
    + destruct (refresing (state (this (run (Refresh :: rest) w0)))) eqn:R;
        [discriminate|]. intros _. split; [|by apply Hs].
      destruct (at_ t); try done; by (exfalso; assert (false = true) by (by apply Hr)).
  - intros decorators jsPath k values Ej Hu.
    destruct (answered_refresh_completes w0 decorators jsPath k values Hn M Ej Hu)
      as (_ & _ & _ & _ & Hf).
    unfold ScriptInspectorView._getSpinner. by rewrite Hf.
Qed.

End SpinnerFacts.

Lemma spinner_shown_while_refreshing_witness :
  exists t,
    ScriptInspector.tasks
      (ScriptInspector.run (H := Posix.path) (H0 := sampleCompiler)
         [ScriptInspector.Refresh;
          ScriptInspector.Settle 0 (ScriptInspector.File "");
          ScriptInspector.Settle 0 ScriptInspector.Done;
          ScriptInspector.Settle 0 (ScriptInspector.Exists false)] sampleWorld)
    = [] ++ [t]
    /\ (ScriptInspector.at_ t <> ScriptInspector.Returned ->
        ScriptInspectorView._getSpinner
          (ScriptInspector.this
             (ScriptInspector.run (H := Posix.path) (H0 := sampleCompiler)
                [ScriptInspector.Refresh;
                 ScriptInspector.Settle 0 (ScriptInspector.File "");
                 ScriptInspector.Settle 0 ScriptInspector.Done;
                 ScriptInspector.Settle 0 (ScriptInspector.Exists false)] sampleWorld))
        = Some (ScriptInspectorView.Spinner 35))
    /\ (ScriptInspectorView._getSpinner
          (ScriptInspector.this
             (ScriptInspector.run (H := Posix.path) (H0 := sampleCompiler)
                [ScriptInspector.Refresh;
                 ScriptInspector.Settle 0 (ScriptInspector.File "");
                 ScriptInspector.Settle 0 ScriptInspector.Done;
                 ScriptInspector.Settle 0 (ScriptInspector.Exists false)] sampleWorld))
        = None ->
        ScriptInspector.at_ t = ScriptInspector.Returned
        /\ exists l values, ScriptInspector.log t = l ++ resultStored values).
Proof.
  refine (proj1 (@spinner_shown_while_refreshing Posix.path sampleCompiler
                   [ScriptInspector.Settle 0 (ScriptInspector.File "");
                    ScriptInspector.Settle 0 ScriptInspector.Done;
                    ScriptInspector.Settle 0 (ScriptInspector.Exists false)]
                   sampleWorld _ _ _ _)).
  - constructor.
  - discriminate.
  - reflexivity.
  - repeat constructor.
Defined.

(** The spinner while the sample refresh polls, and after a refresh whose
    question to the sandbox is rejected. *)
Example spinner_of_sample_refreshes :
  ScriptInspectorView._getSpinner
    (ScriptInspector.this
       (ScriptInspector.run (H := Posix.path) (H0 := sampleCompiler)
          [ScriptInspector.Refresh;
           ScriptInspector.Settle 0 (ScriptInspector.File "");
           ScriptInspector.Settle 0 ScriptInspector.Done;
           ScriptInspector.Settle 0 (ScriptInspector.Exists false)] sampleWorld))
  = Some (ScriptInspectorView.Spinner 35)
  /\ ScriptInspectorView._getSpinner
       (ScriptInspector.this
          (ScriptInspector.run (H := Posix.path) (H0 := sampleCompiler)
             (ScriptInspector.Refresh :: answered 0 "" 1 None) sampleWorld))
     = None
  /\ ScriptInspectorView._getSpinner
       (ScriptInspector.this
          (ScriptInspector.run (H := Posix.path) (H0 := sampleCompiler)
             [ScriptInspector.Refresh;
              ScriptInspector.Settle 0 (ScriptInspector.File "");
              ScriptInspector.Settle 0 ScriptInspector.Done;
              ScriptInspector.Settle 0 (ScriptInspector.Exists true);
              ScriptInspector.Settle 0 (ScriptInspector.Rejection "Error")]
             sampleWorld))
     = Some (ScriptInspectorView.Spinner 35).
Proof. vm_compute. repeat split. Qed.

(** ** The rendering inspector's content *)

Section RenderingContentFacts.
Import RenderingInspectorView.

(** Takes a membership in a list of controls apart. *)
Ltac control_cases Hin :=
  cbn in Hin;
  repeat (apply elem_of_cons in Hin as [Hin|Hin]; [injection Hin as -> ->|]);
  try (by apply elem_of_nil in Hin).

Lemma SSAO2_editable state settings o p :
  (o, p) ∈ bound (_getSSAO2Inspector state settings) -> editable state settings o.
Proof.
  unfold _getSSAO2Inspector.
  destruct (RenderingInspector.ssao2Enabled state) eqn:E,
           (SSAOPipeline settings) eqn:P; intros Hin; control_cases Hin;
    cbn; rewrite ?E, ?P; eauto.
Qed.

Lemma MotionBlur_editable state settings o p :
  (o, p) ∈ bound (_getMotionBlurInspector state settings) -> editable state settings o.
Proof.
  unfold _getMotionBlurInspector.
  destruct (RenderingInspector.motionBlurEnabled state) eqn:E,
           (MotionBlurPostProcess settings) eqn:P; intros Hin; control_cases Hin;
    cbn; rewrite ?E, ?P; eauto.
Qed.

Lemma SSR_editable state settings o p :
  (o, p) ∈ bound (_getSSRInspector state settings) -> editable state settings o.
Proof.
  unfold _getSSRInspector.
  destruct (RenderingInspector.ssrEnabled state) eqn:E,
           (ScreenSpaceReflectionsPostProcess settings) eqn:P; intros Hin;
    control_cases Hin; cbn; rewrite ?E, ?P; eauto.
Qed.

Lemma Default_editable state settings o p :
  (o, p) ∈ bound (_getDefaultInspector state settings) -> editable state settings o.
Proof.
  unfold _getDefaultInspector. cbv zeta.
  destruct (RenderingInspector.enabled (RenderingInspector.default state)) eqn:E,
           (DefaultPipeline settings) eqn:P;
    try (intros Hin; control_cases Hin; by cbn).
  cbv beta iota delta [negb orb bool_decide decide_rel].
  destruct (RenderingInspector.imageProcessingEnabled (RenderingInspector.default state))
    eqn:E1,
    (RenderingInspector.bloomEnabled (RenderingInspector.default state)) eqn:E2,
    (RenderingInspector.sharpenEnabled (RenderingInspector.default state)) eqn:E3,
    (RenderingInspector.depthOfFieldEnabled (RenderingInspector.default state)) eqn:E4,
    (RenderingInspector.chromaticAberrationEnabled (RenderingInspector.default state))
      eqn:E5;
    intros Hin; control_cases Hin; cbn; rewrite ?E, ?P, ?E1, ?E3, ?E4, ?E5; eauto.
Qed.

(** X17. The rendering inspector binds a control to a post-process only
    when its state has the post-process enabled and the post-process
    object exists, and to a part of the default pipeline (image
    processing, sharpen, depth of field, chromatic aberration) only when
    its state has that part enabled as well.  No control is ever bound to
    a null pipeline. *)
Theorem controls_are_bound_to_enabled_pipelines
    (state : RenderingInspector.IRendererInspectorState) (settings : SceneSettings)
    (o : Target) (p : string) :
  (o, p) ∈ bound (renderContent state settings) -> editable state settings o.
Proof.
  unfold renderContent. cbn [bound flat_map]. rewrite app_nil_r, !elem_of_app.
  intros [Hin|[Hin|[Hin|Hin]]].
  - by apply SSAO2_editable in Hin.
  - by apply MotionBlur_editable in Hin.
  - by apply SSR_editable in Hin.
  - by apply Default_editable in Hin.
Qed.

Lemma SSAO2_section state settings :
  exists rest,
    _getSSAO2Inspector state settings
    = InspectorSection "SSAO 2"
        (enable_of RenderingInspector._getSSAO2Inspector_enable :: rest)
    /\ (RenderingInspector.ssao2Enabled state = false \/ SSAOPipeline settings = None ->
        rest = []).
Proof.
  unfold _getSSAO2Inspector.
  destruct (RenderingInspector.ssao2Enabled state), (SSAOPipeline settings);
    eexists; (split; [reflexivity|]); intros [E|E]; (discriminate E || reflexivity).
Qed.

Lemma MotionBlur_section state settings :
  exists rest,
    _getMotionBlurInspector state settings
    = InspectorSection "Motion Blur"
        (enable_of RenderingInspector._getMotionBlurInspector_enable :: rest)
    /\ (RenderingInspector.motionBlurEnabled state = false
        \/ MotionBlurPostProcess settings = None -> rest = []).
Proof.
  unfold _getMotionBlurInspector.
  destruct (RenderingInspector.motionBlurEnabled state), (MotionBlurPostProcess settings);
    eexists; (split; [reflexivity|]); intros [E|E]; (discriminate E || reflexivity).
Qed.

Lemma SSR_section state settings :
  exists rest,
    _getSSRInspector state settings
    = InspectorSection "Screen Space Reflections"
        (enable_of RenderingInspector._getSSRInspector_enable :: rest)
    /\ (RenderingInspector.ssrEnabled state = false
        \/ ScreenSpaceReflectionsPostProcess settings = None -> rest = []).
Proof.
  unfold _getSSRInspector.
  destruct (RenderingInspector.ssrEnabled state),
           (ScreenSpaceReflectionsPostProcess settings);
    eexists; (split; [reflexivity|]); intros [E|E]; (discriminate E || reflexivity).
Qed.

Lemma Default_section state settings :
  exists rest,
    _getDefaultInspector state settings
    = InspectorSection "Default Pipeline"
        (InspectorBoolean this_state_default "enabled" "Enabled" (Some default_onChange)
         :: rest)
    /\ (RenderingInspector.enabled (RenderingInspector.default state) = false
        \/ DefaultPipeline settings = None -> rest = []).
Proof.
  unfold _getDefaultInspector. cbv zeta.
  destruct (RenderingInspector.enabled (RenderingInspector.default state)),
           (DefaultPipeline settings);
    eexists; (split; [reflexivity|]); intros [E|E]; (discriminate E || reflexivity).
Qed.

(** X18. Each of the four sections is always rendered, in the same
    order, and begins with its [Enabled] checkbox, so that a post-process
    can always be switched on; a section whose post-process is disabled in
    the state, or does not exist, holds the checkbox alone. *)
Theorem sections_begin_with_their_checkbox
    (state : RenderingInspector.IRendererInspectorState) (settings : SceneSettings) :
  exists ssao2 motionBlur ssr pipeline : list Element,
    renderContent state settings
    = Fragment
        [InspectorSection "SSAO 2"
           (enable_of RenderingInspector._getSSAO2Inspector_enable :: ssao2);
         InspectorSection "Motion Blur"
           (enable_of RenderingInspector._getMotionBlurInspector_enable :: motionBlur);
         InspectorSection "Screen Space Reflections"
           (enable_of RenderingInspector._getSSRInspector_enable :: ssr);
         InspectorSection "Default Pipeline"
           (InspectorBoolean this_state_default "enabled" "Enabled" (Some default_onChange)
            :: pipeline)]
    /\ (RenderingInspector.ssao2Enabled state = false \/ SSAOPipeline settings = None ->
        ssao2 = [])
    /\ (RenderingInspector.motionBlurEnabled state = false
        \/ MotionBlurPostProcess settings = None -> motionBlur = [])
    /\ (RenderingInspector.ssrEnabled state = false
        \/ ScreenSpaceReflectionsPostProcess settings = None -> ssr = [])
    /\ (RenderingInspector.enabled (RenderingInspector.default state) = false
        \/ DefaultPipeline settings = None -> pipeline = []).
Proof.
  destruct (SSAO2_section state settings) as (ssao2 & E1 & H1),
           (MotionBlur_section state settings) as (motionBlur & E2 & H2),
           (SSR_section state settings) as (ssr & E3 & H3),
           (Default_section state settings) as (pipeline & E4 & H4).
  exists ssao2, motionBlur, ssr, pipeline.
  unfold renderContent. rewrite E1, E2, E3, E4. done.
Qed.

Lemma getDefaultState_flags (settings : SceneSettings) (p : DefaultRenderingPipeline) :
  DefaultPipeline settings = Some p ->
  _getDefaultState settings
  = {| RenderingInspector.enabled := IsDefaultPipelineEnabled settings;
       RenderingInspector.imageProcessingEnabled := imageProcessingEnabled p;
       RenderingInspector.bloomEnabled := bloomEnabled p;
       RenderingInspector.sharpenEnabled := sharpenEnabled p;
       RenderingInspector.depthOfFieldEnabled := depthOfFieldEnabled p;
       RenderingInspector.chromaticAberrationEnabled := chromaticAberrationEnabled p |}.
Proof. intros E. unfold _getDefaultState. by rewrite E. Qed.

(** Decides whether a control is among the controls of a content. *)
Ltac control_among :=
  match goal with
  | |- _ ∈ _ <-> true = true =>
      split; [done|intros _; apply (bool_decide_unpack _); vm_compute; exact I]
  | |- ?c ∈ ?l <-> false = true =>
      split; [|discriminate];
      intros Hin; exfalso; revert Hin;
      apply (bool_decide_unpack (¬ c ∈ l)); vm_compute; exact I
  end.

(** X19. When the inspector is created, and after every
    [_updateDefaultState], the parts of the default pipeline shown follow
    the pipeline itself: with the pipeline enabled, the controls of image
    processing, bloom, sharpen, depth of field and chromatic aberration
    are rendered exactly when the pipeline has the part enabled; without a
    pipeline object the section holds its checkbox alone, whatever
    [IsDefaultPipelineEnabled] answers. *)
Theorem default_pipeline_parts_follow_the_pipeline
    (state state' : RenderingInspector.IRendererInspectorState) (settings : SceneSettings) :
  state' = constructor settings \/ state' = _updateDefaultState settings state ->
  (forall p : DefaultRenderingPipeline,
      DefaultPipeline settings = Some p ->
      IsDefaultPipelineEnabled settings = true ->
      let controls := bound (_getDefaultInspector state' settings) in
      (forall c, c ∈ imageProcessingControls ->
         c ∈ controls <-> imageProcessingEnabled p = true)
      /\ (forall c, c ∈ bloomControls -> c ∈ controls <-> bloomEnabled p = true)
      /\ (forall c, c ∈ sharpenControls -> c ∈ controls <-> sharpenEnabled p = true)
      /\ (forall c, c ∈ depthOfFieldControls ->
            c ∈ controls <-> depthOfFieldEnabled p = true)
      /\ (forall c, c ∈ chromaticAberrationControls ->
            c ∈ controls <-> chromaticAberrationEnabled p = true))
  /\ (DefaultPipeline settings = None ->
      _getDefaultInspector state' settings
      = InspectorSection "Default Pipeline"
          [InspectorBoolean this_state_default "enabled" "Enabled"
             (Some default_onChange)]).
Proof.
  intros Hstate.
  assert (Hd : RenderingInspector.default state' = _getDefaultState settings)
    by (by destruct Hstate as [->| ->]).
  split.
  - intros p Hp He controls. unfold controls, _getDefaultInspector. cbv zeta.
    rewrite Hd, (getDefaultState_flags settings p Hp), He, Hp.
    cbn [RenderingInspector.enabled RenderingInspector.imageProcessingEnabled
         RenderingInspector.bloomEnabled RenderingInspector.sharpenEnabled
         RenderingInspector.depthOfFieldEnabled
         RenderingInspector.chromaticAberrationEnabled].
    cbv beta iota delta [negb orb bool_decide decide_rel].
    destruct p as [ip bl sh dof ca].
    cbn [imageProcessingEnabled bloomEnabled sharpenEnabled depthOfFieldEnabled
         chromaticAberrationEnabled].
    destruct ip, bl, sh, dof, ca;
      (split; [|split; [|split; [|split]]]); intros c Hc;
      unfold imageProcessingControls, bloomControls, sharpenControls,
             depthOfFieldControls, chromaticAberrationControls in Hc;
      repeat (apply elem_of_cons in Hc as [->|Hc]);
      try (by apply elem_of_nil in Hc); control_among.
  - intros Hp. unfold _getDefaultInspector. cbv zeta. rewrite Hp.
    by destruct (RenderingInspector.enabled (RenderingInspector.default state')).
Qed.

End RenderingContentFacts.

Lemma controls_are_bound_to_enabled_pipelines_witness :
  editable (RenderingInspectorView.constructor sampleSettings) sampleSettings
    RenderingInspectorView.SceneSettings_DefaultPipeline_sharpen.
Proof.
  refine (controls_are_bound_to_enabled_pipelines
            (RenderingInspectorView.constructor sampleSettings) sampleSettings
            RenderingInspectorView.SceneSettings_DefaultPipeline_sharpen "edgeAmount" _).
  apply (bool_decide_unpack _). vm_compute. exact I.
Defined.

Lemma default_pipeline_parts_follow_the_pipeline_witness :
  (RenderingInspectorView.SceneSettings_DefaultPipeline, "bloomKernel")
    ∈ bound (RenderingInspectorView._getDefaultInspector
               (RenderingInspectorView.constructor sampleSettings) sampleSettings)
  <-> true = true.
Proof.
  refine (proj1 (proj2 (proj1 (default_pipeline_parts_follow_the_pipeline
                                 (RenderingInspectorView.constructor sampleSettings)
                                 (RenderingInspectorView.constructor sampleSettings)
                                 sampleSettings (or_introl eq_refl))
                          _ eq_refl eq_refl))
            (RenderingInspectorView.SceneSettings_DefaultPipeline, "bloomKernel") _).
  apply list_elem_of_here.
Defined.

(** ** Floating labels: several labels on one texture *)

Section LabelsFacts.
Import DefaultScene.

(** X20. Labels accumulate on a GUI texture: two calls of [CreateLabel]
    with the same texture return two different rectangles; the texture is
    handed the first rectangle (and its line), then the second (and its
    line), in this order of calls; and the second call names no object the
    first one created: its calls are on its own new objects, the texture
    and the mesh. *)
Theorem CreateLabel_twice
    (gui mesh1 mesh2 : Ref) (str1 str2 : string) (lines1 lines2 : bool)
    (width1 height1 width2 height2 : string) (e : Engine) :
  gui < created e ->
  mesh1 < created e ->
  mesh2 < created e ->
  exists (label1 label2 : Ref) (e1 e2 : Engine) (first second : list Call)
         (line1 line2 : list Ref),
    CreateLabel gui mesh1 str1 lines1 width1 height1 e = (label1, e1)
    /\ CreateLabel gui mesh2 str2 lines2 width2 height2 e1 = (label2, e2)
    /\ label1 <> label2
    /\ calls e1 = calls e ++ first
    /\ calls e2 = calls e ++ first ++ second
    /\ added gui (first ++ second) = (label1 :: line1) ++ (label2 :: line2)
    /\ length line1 = (if lines1 then 1 else 0)
    /\ length line2 = (if lines2 then 1 else 0)
    /\ map (fun o => fst (fst o)) (news first) = seq (created e) (created e1 - created e)
    /\ map (fun o => fst (fst o)) (news second) = seq (created e1) (created e2 - created e1)
    /\ Forall (fun c => Forall (fun r => r < created e \/ created e1 <= r) (objects c))
              second.
Proof.
  intros Hgui Hmesh1 Hmesh2.
  do 6 eexists.
  exists (if lines1 then [S (S (created e))] else []).
  exists (if lines2 then [S (S ((if lines1 then 3 else 2) + created e))] else []).
  split; [apply CreateLabel_calls|]. split; [apply CreateLabel_calls|].
  cbn [created calls].
  assert (Egg : Nat.eqb gui gui = true) by apply Nat.eqb_refl.
  split; [destruct lines1; lia|].
  split; [reflexivity|].
  split; [by rewrite <- app_assoc|].
  split.
  { rewrite added_app.
    assert (A : forall (m : Ref) (str : string) (lines : bool) (w h : string) (n : Ref),
              gui < n ->
              added gui (rectangleCalls gui n str w h ++ textCalls n (S n) str
                         ++ (if lines then lineCalls gui m n (S (S n))
                             else [LinkWithMesh n m]))
              = n :: (if lines then [S (S n)] else [])).
    { intros m str lines w h n Hn.
      assert (Eg : Nat.eqb n gui = false) by (apply Nat.eqb_neq; lia).
      destruct lines; cbn; rewrite ?Egg, ?Eg; reflexivity. }
    rewrite !A by (destruct lines1; lia). reflexivity. }
  split; [by destruct lines1|]. split; [by destruct lines2|].
  split; [destruct lines1; cbn; replace (S (S (S (created e))) - created e) with 3 by lia;
          replace (S (S (created e)) - created e) with 2 by lia; reflexivity|].
  split.
  { set (n := (if lines1 then 3 else 2) + created e).
    destruct lines2; cbn;
      replace (S (S (S n)) - n) with 3 by lia;
      replace (S (S n) - n) with 2 by lia; reflexivity. }
  set (n := (if lines1 then 3 else 2) + created e).
  assert (Hn : created e <= n) by (subst n; lia).
  destruct lines2; cbn; repeat (apply Forall_cons; split); try apply Forall_nil;
    try done; lia.
Qed.

End LabelsFacts.

Lemma CreateLabel_twice_witness :
  exists (label1 label2 : DefaultScene.Ref) (e1 e2 : DefaultScene.Engine)
         (first second : list DefaultScene.Call)
         (line1 line2 : list DefaultScene.Ref),
    DefaultScene.CreateLabel 0 1 "PBR" true "200px" "40px" sampleGui = (label1, e1)
    /\ DefaultScene.CreateLabel 0 1 "Standard" false "250px" "40px" e1 = (label2, e2)
    /\ label1 <> label2
    /\ DefaultScene.calls e1 = [] ++ first
    /\ DefaultScene.calls e2 = [] ++ first ++ second
    /\ added 0 (first ++ second) = (label1 :: line1) ++ (label2 :: line2)
    /\ length line1 = 1
    /\ length line2 = 0
    /\ map (fun o => fst (fst o)) (news first) = seq 2 (DefaultScene.created e1 - 2)
    /\ map (fun o => fst (fst o)) (news second)
       = seq (DefaultScene.created e1) (DefaultScene.created e2 - DefaultScene.created e1)
    /\ Forall (fun c => Forall (fun r => r < 2 \/ DefaultScene.created e1 <= r) (objects c))
              second.
Proof.
  exact (CreateLabel_twice 0 1 1 "PBR" "Standard" true false "200px" "40px" "250px" "40px"
           sampleGui ltac:(cbn; lia) ltac:(cbn; lia) ltac:(cbn; lia)).
Defined.

(** ** The script inspector: the list of scripts *)

Section ListingFacts.
Context `{PathModule}.
Import ScriptInspectorView.

Lemma start_scripts (w : ScriptInspector.World) :
  ScriptInspector.scripts
    (ScriptInspector.state (ScriptInspector.this (fst (ScriptInspector.start w))))
  = ScriptInspector.scripts (ScriptInspector.state (ScriptInspector.this w))
  /\ ScriptInspector.inspectorValues
       (ScriptInspector.state (ScriptInspector.this (fst (ScriptInspector.start w))))
     = ScriptInspector.inspectorValues (ScriptInspector.state (ScriptInspector.this w))
  /\ ScriptInspector.script (ScriptInspector.this (fst (ScriptInspector.start w)))
     = ScriptInspector.script (ScriptInspector.this w).
Proof.
  unfold ScriptInspector.start, ScriptInspector.applyPatch.
  destruct (ScriptInspector._scriptWatcher (ScriptInspector.this w)); cbn;
    destruct (String.eqb _ "None"); cbn; try done;
    by destruct (ScriptInspector.isMounted (ScriptInspector.this w)).
Qed.

(** X21. When [ScriptAssets.GetAllScripts()] has answered and the
    component is mounted, the list of the inspector offers ["None"] and
    then the scripts of the answer, in the answer's order, each labelled
    with its own path, and the state holds these scripts, whatever it held
    before.  When the component is no longer mounted the answer is not
    stored: the list offers ["None"] and the scripts the state held.  In
    both cases exactly one refresh has been started, and neither the script
    attached nor the exported values in the state have changed. *)
Theorem listed_scripts_are_offered (scripts : list string) (w : ScriptInspector.World) :
  let its := fst (items_of scripts w) in
  let w' := snd (items_of scripts w) in
  let held := if ScriptInspector.isMounted (ScriptInspector.this w) then scripts
              else ScriptInspector.scripts (ScriptInspector.state (ScriptInspector.this w)) in
  data <$> its = "None" :: held
  /\ Forall (fun it => label it = data it) its
  /\ ScriptInspector.scripts (ScriptInspector.state (ScriptInspector.this w')) = held
  /\ (exists t, ScriptInspector.tasks w' = ScriptInspector.tasks w ++ [t])
  /\ ScriptInspector.script (ScriptInspector.this w')
     = ScriptInspector.script (ScriptInspector.this w)
  /\ ScriptInspector.inspectorValues (ScriptInspector.state (ScriptInspector.this w'))
     = ScriptInspector.inspectorValues (ScriptInspector.state (ScriptInspector.this w)).
Proof.
  intros its w' held. subst its w'. unfold items_of. cbn [fst snd].
  set (w1 := ScriptInspector.set_this (setScripts scripts) w).
  assert (Hthis : ScriptInspector.this (refreshAvailableScripts scripts w)
                  = ScriptInspector.this (fst (ScriptInspector.start w1))
                  /\ ScriptInspector.tasks (refreshAvailableScripts scripts w)
                     = ScriptInspector.tasks w
                       ++ [{| ScriptInspector.at_ := fst (snd (ScriptInspector.start w1));
                              ScriptInspector.log := snd (snd (ScriptInspector.start w1)) |}]).
  { unfold refreshAvailableScripts. fold w1.
    destruct (updateScriptVisibleProperties_tasks w1) as [Et _].
    split; [|exact Et].
    unfold ScriptInspector._updateScriptVisibleProperties.
    by destruct (ScriptInspector.start w1) as [w2 [a evs]]. }
  destruct Hthis as [Ethis Etasks].
  destruct (start_scripts w1) as (Es & Ei & Esc).
  assert (Hw1 : ScriptInspector.scripts (ScriptInspector.state (ScriptInspector.this w1))
                = held
                /\ ScriptInspector.script (ScriptInspector.this w1)
                   = ScriptInspector.script (ScriptInspector.this w)
                /\ ScriptInspector.inspectorValues
                     (ScriptInspector.state (ScriptInspector.this w1))
                   = ScriptInspector.inspectorValues
                       (ScriptInspector.state (ScriptInspector.this w))).
  { subst w1 held. unfold setScripts. cbn [ScriptInspector.set_this ScriptInspector.this].
    by destruct (ScriptInspector.isMounted (ScriptInspector.this w)). }
  destruct Hw1 as (Hheld & Hscript & Hvalues).
  assert (Hscripts : ScriptInspector.scripts
                       (ScriptInspector.state
                          (ScriptInspector.this (refreshAvailableScripts scripts w)))
                     = held) by (by rewrite Ethis, Es).
  split; [|split; [|split; [done|split; [eexists; exact Etasks|split]]]].
  - unfold getScriptsListItems. rewrite Hscripts. cbn. f_equal.
    clear. induction held as [|s l IH]; [done|]. cbn. by f_equal.
  - unfold getScriptsListItems. rewrite Hscripts. apply Forall_app. split.
    + by repeat constructor.
    + apply Forall_forall. intros it Hin. apply list_elem_of_In, in_map_iff in Hin.
      by destruct Hin as (s & <- & _).
  - by rewrite Ethis, Esc.
  - by rewrite Ethis, Ei.
Qed.

End ListingFacts.

(** The list once [GetAllScripts()] has answered with two scripts, on the
    sample component and on the same component unmounted. *)
Example listed_scripts_of_the_sample :
  ScriptInspectorView.data
    <$> fst (ScriptInspectorView.items_of (H := Posix.path)
               ["src/a.ts"; "src/b.ts"] sampleWorld)
  = ["None"; "src/a.ts"; "src/b.ts"]
  /\ ScriptInspector.scripts
       (ScriptInspector.state
          (ScriptInspector.this
             (snd (ScriptInspectorView.items_of (H := Posix.path)
                     ["src/a.ts"; "src/b.ts"] sampleWorld))))
     = ["src/a.ts"; "src/b.ts"]
  /\ ScriptInspectorView.data
       <$> fst (ScriptInspectorView.items_of (H := Posix.path)
                  ["src/a.ts"; "src/b.ts"]
                  (ScriptInspector.componentWillUnmount sampleWorld))
     = ["None"; "src/game.ts"].
Proof. vm_compute. repeat split. Qed.

(** ** Creating the default scene *)

Section CreateFacts.
Import DefaultSceneCreate.
Variable Json : Type.
Variable parse : string -> option Json.

(** X22. [Create] and [CreateEmpty] resolve exactly when the project file
    is loaded, parsed and imported; only then is
    [ProjectExporter.ProjectPath] reset and are the scene's files created,
    as the last thing.  When the file cannot be loaded or parsed, or the
    import fails, the call is rejected, the project path is the one there
    was and no file is created.  [CreateEmpty] has emptied
    [FilesInputStore.FilesToLoad] in either case; [Create] never writes
    to it. *)
Theorem creation_resets_the_project_only_on_success
    (empty : bool) (file : Settled string) (project : Settled unit) (w : World Json) :
  let begin := if empty then CreateEmpty Json else Create Json in
  let w' := fst (complete Json parse begin file project w) in
  let out := snd (complete Json parse begin file project w) in
  (exists o, out = Returned o)
  /\ (out = Returned Resolved
      <-> exists text p u,
            file = Fulfilled text /\ parse text = Some p /\ project = Fulfilled u)
  /\ (out = Returned Resolved ->
      ProjectPath Json w' = None
      /\ exists before, calls Json w' = calls Json w ++ before ++ [CreateFiles Json])
  /\ (out <> Returned Resolved ->
      ProjectPath Json w' = ProjectPath Json w
      /\ exists made, calls Json w' = calls Json w ++ made
                      /\ CreateFiles Json ∉ made)
  /\ FilesToLoad Json w' = (if empty then ∅ else FilesToLoad Json w).
Proof.
  intros begin w' out. subst begin w' out.
  assert (Hmade : forall made : list (Call Json),
            Forall (fun c => c <> CreateFiles Json) made -> CreateFiles Json ∉ made).
  { intros made Hall Hin. rewrite Forall_forall in Hall. by apply (Hall _ Hin). }
  unfold complete, Create, CreateEmpty, load.
  destruct file as [text|reason]; [destruct (parse text) as [p|] eqn:P;
                                   [destruct project as [u|reason']|]|];
    destruct empty; cbn [continue loaded]; rewrite ?P;
    cbn [continue imported fst snd call calls ProjectPath FilesToLoad];
    rewrite <- ?app_assoc; cbn [app].
  all: split; [by eexists|].
  all: split;
    [split;
     [first [discriminate | intros _; by exists text, p, u]
     |first [done | intros (text' & p' & u' & E1 & E2 & E3); congruence]]|].
  all: split;
    [first [discriminate
           | intros _; split; [done|];
             match goal with
             | |- exists before, _ ++ [?a; ?b; ?c] = _ => by exists [a; b]
             end]|].
  all: split; [|done].
  all: first [intros Hn; by destruct Hn
             | intros _; split; [done|];
               match goal with
               | |- exists made, _ ++ ?m = _ /\ _ => exists m; split; [reflexivity|]
               end;
               apply Hmade;
               repeat (apply Forall_cons; split; [discriminate|]); by apply Forall_nil].
Qed.

End CreateFacts.

(** ** The video move handler: moving out of the assets directory *)

Section VideoMoveOutside.
Context `{PathModule}.
Import VideoMove.

(** [replace] returns a string in which the pattern does not occur as it
    is. *)
Lemma replace_absent (s pat repl : string) :
  includes pat s = false -> Js.replace s pat repl = s.
Proof.
  induction s as [|c s IH]; cbn [includes Js.replace]; intros Hn;
    apply orb_false_iff in Hn as [Hs Hn]; rewrite Hs; [done|].
  by rewrite IH.
Qed.

(** X23. A video moved to a path in which the assets directory does not
    occur, that is out of the assets directory, is recorded under that
    path as it is: the texture's name becomes [to] itself, not a name
    relative to the assets directory, and [isFileUsed(to)] finds it. *)
Theorem moveFile_out_of_the_assets_directory
    (this : AssetsBrowserVideoMoveHandler) (from to : string) (w : World)
    (sc : Scene) (r : Ref) (t : BaseTexture) :
  scene (editor w) = Some sc ->
  r ∈ textures sc ->
  heap w !! r = Some t ->
  instanceofVideoTexture t = true ->
  join [assetsDirectory (assetsBrowser (editor w)); name t] = from ->
  includes (join [assetsDirectory (assetsBrowser (editor w)); "/"]) to = false ->
  let w' := snd (moveFile this from to w) in
  heap w' !! r = Some (set_name to t)
  /\ isFileUsed this to w' = (Js.Resolved true, w').
Proof.
  intros Hsc Hin L Hv Hfrom Hout w'.
  assert (L' : heap w' !! r = Some (set_name to t)).
  { unfold w'. rewrite (moveFile_lookup _ _ _ _ sc) by done.
    rewrite decide_True by (split; [done|]; unfold isVideo; by rewrite L).
    rewrite L. cbn. unfold moved. rewrite Hfrom, String.eqb_refl.
    by rewrite replace_absent. }
  split; [exact L'|].
  assert (He : editor w' = editor w) by apply moveFile_editor.
  unfold isFileUsed, _editor. cbv beta. rewrite He, Hsc.
  rewrite replace_absent by done.
  match goal with
  | |- context [List.find ?p (textures sc)] =>
      destruct (List.find p (textures sc)) as [r'|] eqn:F; [done|];
      pose proof (find_none _ _ F r (proj1 (list_elem_of_In _ _) Hin)) as Hp
  end.
  cbv beta in Hp. rewrite L' in Hp. cbn in Hp. by rewrite Hv, String.eqb_refl in Hp.
Qed.

End VideoMoveOutside.

Lemma moveFile_out_of_the_assets_directory_witness :
  VideoMove.heap
    (snd (VideoMove.moveFile (H := Posix.path) VideoMove.constructor
            "/home/assets/videos/intro.mp4" "/media/usb/intro.mp4" sampleScene)) !! 0
  = Some {| VideoMove.instanceofVideoTexture := true;
            VideoMove.name := "/media/usb/intro.mp4" |}.
Proof.
  refine (proj1 (@moveFile_out_of_the_assets_directory Posix.path VideoMove.constructor
                   "/home/assets/videos/intro.mp4" "/media/usb/intro.mp4"
                   sampleScene {| VideoMove.textures := [0; 1; 2] |} 0
                   {| VideoMove.instanceofVideoTexture := true;
                      VideoMove.name := "videos/intro.mp4" |} _ _ _ _ _ _)).
  - reflexivity.
  - apply list_elem_of_here.
  - vm_compute. reflexivity.
  - reflexivity.
  - vm_compute. reflexivity.
  - vm_compute. reflexivity.
Defined.
